(** * LEDMatrix: forecast aggregation, weather cache and redraw gating

    A shallow embedding of [src/weather_manager.py] (class [WeatherManager])
    and of [src/display_manager.py] (class [DisplayManager]).
    Python values coming from the weather API are JSON values; Python
    exceptions are an explicit [Raise] outcome; attribute mutation on [self]
    is state passing, and the state survives a raised exception, as it does
    in Python.  Numbers are exact: a Python [float] is taken at its rational
    value (the [nan] and [inf] literals that Python's JSON reader accepts are
    outside the model), and [time.time()] readings are rationals. *)

From Stdlib Require Import ZArith QArith Qround Qabs List String Ascii Bool Lia Lqa.
Import ListNotations.

Local Open Scope string_scope.
Local Open Scope list_scope.
Local Open Scope Z_scope.

(** ** Python outcomes *)

(** The class of an exception is informative only: the one handler of the
    program, [except Exception] in [_fetch_weather], catches them all. *)
Inductive exn : Type :=
| KeyError (k : string)
| IndexError
| TypeError
| ValueError
| OverflowError
| OSError
| AttributeError
| RequestException (msg : string).

Inductive result (A : Type) : Type :=
| Ok (a : A)
| Raise (e : exn).
Arguments Ok {A} a.
Arguments Raise {A} e.

Definition is_ok {A} (r : result A) : bool :=
  match r with Ok _ => true | Raise _ => false end.

Definition rbind {A B} (r : result A) (k : A -> result B) : result B :=
  match r with Ok a => k a | Raise e => Raise e end.

Declare Scope res_scope.
Delimit Scope res_scope with res.
Notation "'let?' x ':=' c 'in' k" := (rbind c (fun x => k))
  (at level 10, x name, c at level 100, k at level 200) : res_scope.
Local Open Scope res_scope.

(** ** JSON payloads, as [response.json()] builds them *)

#[local] Set Warnings "-register-all".
Inductive json : Type :=
| JNull
| JBool (b : bool)
| JInt (z : Z)
| JFloat (q : Q)
| JStr (s : string)
| JArr (l : list json)
| JObj (kv : list (string * json)).

(** A Python [dict] with string keys, in insertion order. *)
Definition dict : Type := list (string * json).

Fixpoint assoc {V : Type} (k : string) (kv : list (string * V)) : option V :=
  match kv with
  | [] => None
  | (k', v) :: kv' => if String.eqb k k' then Some v else assoc k kv'
  end.

(** [d.get(k, default)] on a dict. *)
Definition dict_get (kv : dict) (k : string) (default : json) : json :=
  match assoc k kv with Some v => v | None => default end.

(** [x.get(k, default)] on an arbitrary payload: only a dict has [get]. *)
Definition json_get (x : json) (k : string) (default : json) : result json :=
  match x with
  | JObj kv => Ok (dict_get kv k default)
  | _ => Raise AttributeError
  end.

(** [x[k]] with a string key. *)
Definition getitem (x : json) (k : string) : result json :=
  match x with
  | JObj kv => match assoc k kv with Some v => Ok v | None => Raise (KeyError k) end
  | _ => Raise TypeError
  end.

(** [x[0]]: first element of a list, first character of a string; a dict
    from JSON has string keys only, so the key [0] is never found. *)
Definition getitem0 (x : json) : result json :=
  match x with
  | JArr (v :: _) => Ok v
  | JArr [] => Raise IndexError
  | JStr (String c _) => Ok (JStr (String c EmptyString))
  | JStr EmptyString => Raise IndexError
  | JObj _ => Raise (KeyError "0")
  | _ => Raise TypeError
  end.

Fixpoint chars (s : string) : list json :=
  match s with
  | EmptyString => []
  | String c s' => JStr (String c EmptyString) :: chars s'
  end.

(** The items a [for] loop sees in [x[:6]]: a prefix of a list, or the first
    characters of a string; nothing else can be sliced. *)
Definition slice6 (x : json) : result (list json) :=
  match x with
  | JArr l => Ok (firstn 6 l)
  | JStr s => Ok (firstn 6 (chars s))
  | _ => Raise TypeError
  end.

(** Truth value of a payload ([not x] is its negation). *)
Definition truthy (x : json) : bool :=
  match x with
  | JNull => false
  | JBool b => b
  | JInt z => negb (z =? 0)
  | JFloat q => negb (Qeq_bool q 0)
  | JStr s => negb (String.eqb s "")
  | JArr l => match l with [] => false | _ => true end
  | JObj kv => match kv with [] => false | _ => true end
  end.

(** Numeric value of [int], [float] and [bool] (a [bool] is an [int]). *)
Definition num_val (x : json) : option Q :=
  match x with
  | JInt z => Some (inject_Z z)
  | JFloat q => Some q
  | JBool b => Some (inject_Z (if b then 1 else 0))
  | _ => None
  end.

(** [round(x)] of a float: to the nearest integer, halves to the even one. *)
Definition py_round (q : Q) : Z :=
  let f := Qfloor q in
  match Qcompare (q - inject_Z f)%Q (1 # 2)%Q with
  | Lt => f
  | Gt => f + 1
  | Eq => if Z.even f then f else f + 1
  end.

Definition round_json (x : json) : result Z :=
  match num_val x with
  | Some q => Ok (py_round q)
  | None => Raise TypeError
  end.

(** [a == b].  Numbers compare by value across [int], [float] and [bool];
    lists element by element; dicts key by key, whatever the order. *)
Fixpoint py_eq (a b : json) {struct a} : bool :=
  match a, b with
  | JNull, JNull => true
  | JStr s, JStr t => String.eqb s t
  | JArr l, JArr m =>
      (fix all2 (l m : list json) {struct l} : bool :=
         match l, m with
         | [], [] => true
         | x :: l', y :: m' => py_eq x y && all2 l' m'
         | _, _ => false
         end) l m
  | JObj kv, JObj kw =>
      (List.length kv =? List.length kw)%nat &&
      (fix sub (kv : list (string * json)) : bool :=
         match kv with
         | [] => true
         | (k, v) :: kv' =>
             match assoc k kw with
             | Some w => py_eq v w
             | None => false
             end && sub kv'
         end) kv
  | _, _ =>
      match num_val a, num_val b with
      | Some x, Some y => Qeq_bool x y
      | _, _ => false
      end
  end.

(** Only scalars can be members of a [set]. *)
Definition hashable (x : json) : bool :=
  match x with
  | JArr _ | JObj _ => false
  | _ => true
  end.

(** ** Local time, as [datetime.fromtimestamp] and [strftime] give it *)

Record datetime : Type := mkDatetime {
  year : Z; month : Z; day : Z;
  hour : Z; minute : Z; second : Z;
  weekday : Z   (* 0 is Monday *)
}.

(** Proleptic Gregorian date of a day number counted from 1970-01-01. *)
Definition civil_from_days (days : Z) : Z * Z * Z :=
  let z := days + 719468 in
  let era := z / 146097 in
  let doe := z mod 146097 in
  let yoe := (doe - doe / 1460 + doe / 36524 - doe / 146096) / 365 in
  let doy := doe - (365 * yoe + yoe / 4 - yoe / 100) in
  let mp := (5 * doy + 2) / 153 in
  let d := doy - (153 * mp + 2) / 5 + 1 in
  let m := if mp <? 10 then mp + 3 else mp - 9 in
  let y := yoe + era * 400 + (if m <=? 2 then 1 else 0) in
  (y, m, d).

Definition datetime_of_local (local : Z) : datetime :=
  let days := local / 86400 in
  let secs := local mod 86400 in
  let '(y, m, d) := civil_from_days days in
  mkDatetime y m d (secs / 3600) ((secs mod 3600) / 60) (secs mod 60)
             ((days + 3) mod 7).

(** Whole seconds of a timestamp: a float is first rounded to microseconds. *)
Definition epoch_seconds (x : json) : option Z :=
  match x with
  | JInt z => Some z
  | JBool b => Some (if b then 1 else 0)
  | JFloat q => Some (py_round (q * inject_Z 1000000)%Q / 1000000)
  | _ => None
  end.

Definition digit (n : Z) : ascii := ascii_of_nat (48 + Z.to_nat n).

Definition pad2 (n : Z) : string :=
  String (digit (n / 10)) (String (digit (n mod 10)) EmptyString).

Definition pad4 (n : Z) : string :=
  String (digit (n / 1000)) (String (digit ((n / 100) mod 10)) (pad2 (n mod 100))).

(** [s.lstrip('0')] *)
Fixpoint lstrip0 (s : string) : string :=
  match s with
  | String c s' => if Ascii.eqb c "0"%char then lstrip0 s' else s
  | EmptyString => EmptyString
  end.

(** [strftime('%Y-%m-%d')] *)
Definition strftime_Ymd (t : datetime) : string :=
  (pad4 (year t) ++ "-" ++ pad2 (month t) ++ "-" ++ pad2 (day t))%string.

(** [strftime('%I%p')], C locale *)
Definition strftime_Ip (t : datetime) : string :=
  String.append (pad2 (if hour t mod 12 =? 0 then 12 else hour t mod 12))
                (if hour t <? 12 then "AM" else "PM").

(** [strftime('%a')], C locale *)
Definition strftime_a (t : datetime) : string :=
  nth (Z.to_nat (weekday t)) ["Mon"; "Tue"; "Wed"; "Thu"; "Fri"; "Sat"; "Sun"] "".

(** [strftime('%m/%d')] *)
Definition strftime_md (t : datetime) : string :=
  (pad2 (month t) ++ "/" ++ pad2 (day t))%string.

(** ** State and exceptions *)

(** A computation over a mutable state [S]: whatever it wrote before raising
    stays written. *)
Definition M (S A : Type) : Type := S -> result A * S.

Definition ret {S A} (a : A) : M S A := fun s => (Ok a, s).

Definition raise {S A} (e : exn) : M S A := fun s => (Raise e, s).

Definition bind {S A B} (c : M S A) (k : A -> M S B) : M S B :=
  fun s => match c s with
           | (Ok a, s') => k a s'
           | (Raise e, s') => (Raise e, s')
           end.

Definition lift {S A} (r : result A) : M S A := fun s => (r, s).

Definition gets {S A} (f : S -> A) : M S A := fun s => (Ok (f s), s).

Definition modify {S} (f : S -> S) : M S unit := fun s => (Ok tt, f s).

(** [try: c  except Exception as e: h e] *)
Definition try_except {S A} (c : M S A) (h : exn -> M S A) : M S A :=
  fun s => match c s with
           | (Ok a, s') => (Ok a, s')
           | (Raise e, s') => h e s'
           end.

Declare Scope m_scope.
Delimit Scope m_scope with m.
Notation "x <- c ;; k" := (bind c (fun x => k))
  (at level 61, c at next level, right associativity) : m_scope.
Notation "c ;; k" := (bind c (fun _ => k))
  (at level 61, right associativity) : m_scope.

(** [for x in l: body x] *)
Fixpoint for_each {S A} (l : list A) (body : A -> M S unit) : M S unit :=
  match l with
  | [] => ret tt
  | x :: l' => bind (body x) (fun _ => for_each l' body)
  end.

(** Results of a pure loop body over a list, stopping at the first raise. *)
Fixpoint traverse {A B} (f : A -> result B) (l : list A) : result (list B) :=
  match l with
  | [] => Ok []
  | x :: l' =>
      let? y := f x in
      let? ys := traverse f l' in
      Ok (y :: ys)
  end.

(** ** The manager's data *)

Record HourlyEntry : Type := mkHourly {
  h_hour : string;
  h_temp : Z;
  h_condition : json
}.

Record DailyEntry : Type := mkDaily {
  d_date : string;
  d_date_str : string;
  d_temp_high : Z;
  d_temp_low : Z;
  d_condition : json
}.

(** One value of the local dict [daily_data]. *)
Record DayGroup : Type := mkGroup {
  g_temps : list json;
  g_conditions : list json;
  g_date : datetime
}.

(** What [print] is given: the pieces of an f-string. *)
Inductive piece : Type :=
| Lit (s : string)
| Val (v : json)
| Int (z : Z)
| Exc (e : exn).

Inductive endpoint : Type := Geocoding | CurrentWeather | Forecast.

(** What a run leaves behind outside the object: lines printed, requests
    sent, and entries into [_fetch_weather]. *)
Inductive event : Type :=
| Print (line : list piece)
| Get (target : endpoint)
| FetchAttempt.

Record WeatherManager : Type := mkWM {
  weather_config : dict;
  location : dict;
  last_update : Q;
  weather_data : json;              (* [None] is [JNull] *)
  forecast_data : json;
  hourly_forecast : option (list HourlyEntry);
  daily_forecast : option (list DailyEntry);
  scroll_position : Z;
  last_draw_time : Q;
  last_temp : option Z;             (* absent until the first draw *)
  last_condition : option json;
  events : list event               (* most recent last *)
}.

(** [WeatherManager.__init__] *)
Definition init (weather_cfg loc : dict) : WeatherManager :=
  mkWM weather_cfg loc 0%Q JNull JNull None None 0 0%Q None None [].

Definition set_last_update (t : Q) (s : WeatherManager) : WeatherManager :=
  mkWM (weather_config s) (location s) t (weather_data s) (forecast_data s)
       (hourly_forecast s) (daily_forecast s) (scroll_position s)
       (last_draw_time s) (last_temp s) (last_condition s) (events s).

Definition set_weather_data (v : json) (s : WeatherManager) : WeatherManager :=
  mkWM (weather_config s) (location s) (last_update s) v (forecast_data s)
       (hourly_forecast s) (daily_forecast s) (scroll_position s)
       (last_draw_time s) (last_temp s) (last_condition s) (events s).

Definition set_forecast_data (v : json) (s : WeatherManager) : WeatherManager :=
  mkWM (weather_config s) (location s) (last_update s) (weather_data s) v
       (hourly_forecast s) (daily_forecast s) (scroll_position s)
       (last_draw_time s) (last_temp s) (last_condition s) (events s).

Definition set_hourly_forecast (v : option (list HourlyEntry))
    (s : WeatherManager) : WeatherManager :=
  mkWM (weather_config s) (location s) (last_update s) (weather_data s)
       (forecast_data s) v (daily_forecast s) (scroll_position s)
       (last_draw_time s) (last_temp s) (last_condition s) (events s).

Definition set_daily_forecast (v : option (list DailyEntry))
    (s : WeatherManager) : WeatherManager :=
  mkWM (weather_config s) (location s) (last_update s) (weather_data s)
       (forecast_data s) (hourly_forecast s) v (scroll_position s)
       (last_draw_time s) (last_temp s) (last_condition s) (events s).

Definition set_last_draw_time (t : Q) (s : WeatherManager) : WeatherManager :=
  mkWM (weather_config s) (location s) (last_update s) (weather_data s)
       (forecast_data s) (hourly_forecast s) (daily_forecast s)
       (scroll_position s) t (last_temp s) (last_condition s) (events s).

Definition set_last_key (t : Z) (c : json) (s : WeatherManager) : WeatherManager :=
  mkWM (weather_config s) (location s) (last_update s) (weather_data s)
       (forecast_data s) (hourly_forecast s) (daily_forecast s)
       (scroll_position s) (last_draw_time s) (Some t) (Some c) (events s).

Definition emit (e : event) (s : WeatherManager) : WeatherManager :=
  mkWM (weather_config s) (location s) (last_update s) (weather_data s)
       (forecast_data s) (hourly_forecast s) (daily_forecast s)
       (scroll_position s) (last_draw_time s) (last_temp s) (last_condition s)
       (events s ++ [e]).

(** [self.hourly_forecast.append(e)] *)
Definition append_hourly (e : HourlyEntry) (s : WeatherManager) : WeatherManager :=
  set_hourly_forecast
    (Some (match hourly_forecast s with Some l => l | None => [] end ++ [e])) s.

(** [self.daily_forecast.append(e)] *)
Definition append_daily (e : DailyEntry) (s : WeatherManager) : WeatherManager :=
  set_daily_forecast
    (Some (match daily_forecast s with Some l => l | None => [] end ++ [e])) s.

(** [not self.hourly_forecast], [not self.daily_forecast]: [None] and the
    empty list are both false. *)
Definition nonempty {A} (o : option (list A)) : bool :=
  match o with Some (_ :: _) => true | _ => false end.

(** The list to iterate over once the attribute is known to be one. *)
Definition entries {A} (o : option (list A)) : list A :=
  match o with Some l => l | None => [] end.

(** First and last local second that [datetime] can hold (years 1 to 9999). *)
Definition min_local : Z := -719162 * 86400.
Definition max_local : Z := 2932897 * 86400.

(** The local second falls in a year from 1 to 9999. *)
Definition year_in_range (local : Z) : bool :=
  (min_local <=? local) && (local <? max_local).

(** The platform: a 64-bit [time_t], and a C library whose [struct tm]
    holds the year, counted from 1900, in a 32-bit [int]. *)
Definition time_t_range (z : Z) : bool := (- 2 ^ 63 <=? z) && (z <? 2 ^ 63).

(** First and last local second whose year [localtime] can report: the
    years 1900 - 2^31 to 1900 + 2^31 - 1. *)
Definition min_tm : Z := -784352321872 * 86400.
Definition max_tm : Z := 784352270737 * 86400.

Definition tm_range (local : Z) : bool := (min_tm <=? local) && (local <? max_tm).

(** [max(l)] and [min(l)] on numbers: the first greatest, the first least. *)
Fixpoint max_from (best : Q) (l : list Q) : Q :=
  match l with
  | [] => best
  | x :: l' => max_from (if Qle_bool x best then best else x) l'
  end.

Fixpoint min_from (best : Q) (l : list Q) : Q :=
  match l with
  | [] => best
  | x :: l' => min_from (if Qle_bool best x then best else x) l'
  end.

Fixpoint all_nums (l : list json) : option (list Q) :=
  match l with
  | [] => Some []
  | x :: l' =>
      match num_val x, all_nums l' with
      | Some q, Some qs => Some (q :: qs)
      | _, _ => None
      end
  end.

(** [round(max(temps))]: a value that is not a number ends in a [TypeError],
    from the comparison or from [round]; an empty list in a [ValueError]. *)
Definition round_max (temps : list json) : result Z :=
  match all_nums temps with
  | Some (q :: qs) => Ok (py_round (max_from q qs))
  | Some [] => Raise ValueError
  | None => Raise TypeError
  end.

(** [round(min(temps))] *)
Definition round_min (temps : list json) : result Z :=
  match all_nums temps with
  | Some (q :: qs) => Ok (py_round (min_from q qs))
  | Some [] => Raise ValueError
  | None => Raise TypeError
  end.

(** [l.count(x)] *)
Definition count (l : list json) (x : json) : nat :=
  List.length (filter (fun y => py_eq y x) l).

(** [max(it, key=key)]: the first item of the iteration whose key is
    greatest. *)
Fixpoint max_by {A} (key : A -> nat) (best : A) (l : list A) : A :=
  match l with
  | [] => best
  | x :: l' => max_by key (if (key best <? key x)%nat then x else best) l'
  end.

Definition py_max_key {A} (key : A -> nat) (it : list A) : result A :=
  match it with
  | [] => Raise ValueError
  | x :: l => Ok (max_by key x l)
  end.

(** [d[k] = f(d[k])] on an insertion-ordered dict. *)
Fixpoint update {V : Type} (k : string) (f : V -> V) (kv : list (string * V))
  : list (string * V) :=
  match kv with
  | [] => []
  | (k', v) :: kv' =>
      if String.eqb k k' then (k', f v) :: kv' else (k', v) :: update k f kv'
  end.

Fixpoint fold_result {A B} (f : B -> A -> result B) (l : list A) (b : B)
  : result B :=
  match l with
  | [] => Ok b
  | x :: l' => let? b' := f b x in fold_result f l' b'
  end.

(** [enumerate(l)] *)
Fixpoint enumerate_from {A} (i : Z) (l : list A) : list (Z * A) :=
  match l with
  | [] => []
  | x :: l' => (i, x) :: enumerate_from (i + 1) l'
  end.

Definition color : Type := Z * Z * Z.

(** The [COLORS] table and the layout constants of [__init__]. *)
Definition COLORS_text : color := (255, 255, 255).
Definition COLORS_highlight : color := (255, 200, 0).
Definition COLORS_separator : color := (64, 64, 64).
Definition COLORS_temp_high : color := (255, 100, 100).
Definition COLORS_temp_low : color := (100, 100, 255).
Definition PADDING : Z := 2.
Definition ICON_SIZE_large : Z := 16.
Definition ICON_SIZE_medium : Z := 12.

(** The degree sign of the temperature texts, in UTF-8. *)
Definition degree : string :=
  String (ascii_of_nat 194) (String (ascii_of_nat 176) EmptyString).

(** [s.upper()] on ASCII text. *)
Definition upper_char (c : ascii) : ascii :=
  let n := nat_of_ascii c in
  if ((97 <=? n) && (n <=? 122))%nat then ascii_of_nat (n - 32) else c.

Fixpoint upper (s : string) : string :=
  match s with
  | EmptyString => EmptyString
  | String c s' => String (upper_char c) (upper s')
  end.

(** The display manager handed to [__init__]: the manager only calls these
    methods on it, and any of them may raise. *)
Class DisplayManager (D : Type) : Type := {
  matrix_width : D -> Z;
  matrix_height : D -> Z;
  (* [clear()] *)
  dm_clear : M D unit;
  (* [image = Image.new('RGB', (width, height)); draw = ImageDraw.Draw(image)] *)
  dm_new_image : M D unit;
  (* [draw_text(text, x=, y=, color=, small_font=, force_clear=)] *)
  dm_draw_text : list piece -> option Z -> Z -> color -> bool -> bool -> M D unit;
  (* [draw_weather_icon(condition, x, y, size=)] *)
  dm_draw_weather_icon : json -> Z -> Z -> Z -> M D unit;
  (* [draw.line([p, q], fill=)] *)
  dm_draw_line : Z * Z -> Z * Z -> color -> M D unit;
  (* [update_display()] *)
  dm_update_display : M D unit
}.

(** What one call reads from outside the object: the answer to each request
    (a raise stands for a transport error, an error status or a body that is
    not JSON) and the readings of [time.time()]. *)
Record Env : Type := mkEnv {
  http : endpoint -> result json;
  t_get : Q;       (* read by [get_weather] *)
  t_fetched : Q;   (* read by [_fetch_weather] once everything is in *)
  t_draw : Q       (* read by the [display_*] method itself *)
}.

Section Manager.

(** Offset of local time from UTC, in seconds, at each epoch second. *)
Variable utcoffset : Z -> Z.

(** The order in which [set(l)] is iterated, fixed for one interpreter run. *)
Variable set_iter : list json -> list json.

(** The local time of an instant, in seconds, as [datetime] gets it from
    [localtime]: an [OSError] when the C library cannot report the year, a
    [ValueError] when the year is not one from 1 to 9999. *)
Definition to_local (z : Z) : result Z :=
  let local := z + utcoffset z in
  if negb (tm_range local) then Raise OSError
  else if negb (year_in_range local) then Raise ValueError
  else Ok local.

(** [datetime.fromtimestamp(x)]. A timestamp that does not fit [time_t] is
    an [OverflowError]. To find out whether the local time is the second of
    two equal readings of the clock, CPython also converts the instant 24
    hours earlier and, when the offset from UTC has gone down in between,
    the instant that much earlier; each of the conversions can fail. So the
    whole first local day of year 1 is refused. *)
Definition fromtimestamp (x : json) : result datetime :=
  match epoch_seconds x with
  | None => Raise TypeError
  | Some z =>
      if negb (time_t_range z) then Raise OverflowError
      else
        let? local := to_local z in
        let? probe := to_local (z - 86400) in
        let transition := local - probe - 86400 in
        let? _ := (if transition <? 0 then to_local (z + transition) else Ok 0) in
        Ok (datetime_of_local local)
  end.

(** Body of the first loop of [_process_forecast_data]. *)
Definition hourly_entry (hour_data : json) : result HourlyEntry :=
  let? ts := getitem hour_data "dt" in
  let? dt := fromtimestamp ts in
  let? main := getitem hour_data "main" in
  let? t := getitem main "temp" in
  let? temp := round_json t in
  let? w := getitem hour_data "weather" in
  let? w0 := getitem0 w in
  let? condition := getitem w0 "main" in
  Ok (mkHourly (lstrip0 (strftime_Ip dt)) temp condition).

Definition add_temp (t : json) (g : DayGroup) : DayGroup :=
  mkGroup (g_temps g ++ [t]) (g_conditions g) (g_date g).

Definition add_condition (c : json) (g : DayGroup) : DayGroup :=
  mkGroup (g_temps g) (g_conditions g ++ [c]) (g_date g).

(** Body of the second loop: [daily_data] is a local dict, keyed by the date
    text, in insertion order. *)
Definition daily_step (daily_data : list (string * DayGroup)) (item : json)
  : result (list (string * DayGroup)) :=
  let? ts := getitem item "dt" in
  let? dt := fromtimestamp ts in
  let date := strftime_Ymd dt in
  let daily_data1 :=
    match assoc date daily_data with
    | Some _ => daily_data
    | None => daily_data ++ [(date, mkGroup [] [] dt)]
    end in
  let? main := getitem item "main" in
  let? t := getitem main "temp" in
  let daily_data2 := update date (add_temp t) daily_data1 in
  let? w := getitem item "weather" in
  let? w0 := getitem0 w in
  let? c := getitem w0 "main" in
  Ok (update date (add_condition c) daily_data2).

(** [max(set(conditions), key=conditions.count)] *)
Definition dominant (conditions : list json) : result json :=
  if forallb hashable conditions
  then py_max_key (count conditions) (set_iter conditions)
  else Raise TypeError.

(** Body of the third loop. *)
Definition daily_entry (data : DayGroup) : result DailyEntry :=
  let temps := g_temps data in
  let? temp_high := round_max temps in
  let? temp_low := round_min temps in
  let? condition := dominant (g_conditions data) in
  Ok (mkDaily (strftime_a (g_date data)) (strftime_md (g_date data))
              temp_high temp_low condition).

Local Open Scope m_scope.

(** One round of the first loop and one of the third. *)
Definition hourly_body (hour_data : json) : M WeatherManager unit :=
  e <- lift (hourly_entry hour_data) ;;
  modify (append_hourly e).

Definition daily_body (kv : string * DayGroup) : M WeatherManager unit :=
  e <- lift (daily_entry (snd kv)) ;;
  modify (append_daily e).

(** The second half of [_process_forecast_data]: grouping by date, then
    one summary for each of the first three groups. *)
Definition daily_part (hourly_list : list json) : M WeatherManager unit :=
  daily_data <- lift (fold_result daily_step hourly_list []) ;;
  modify (set_daily_forecast (Some [])) ;;
  for_each (firstn 3 daily_data) daily_body.

Definition _process_forecast_data (forecast : json) : M WeatherManager unit :=
  if negb (truthy forecast) then ret tt
  else
    l <- lift (json_get forecast "list" (JArr [])) ;;
    hourly_list <- lift (slice6 l) ;;
    modify (set_hourly_forecast (Some [])) ;;
    for_each hourly_list hourly_body ;;
    daily_part hourly_list.

(** [requests.get(url); raise_for_status(); json()] *)
Definition request (env : Env) (target : endpoint) : M WeatherManager json :=
  modify (emit (Get target)) ;;
  lift (http env target).

Definition print (line : list piece) : M WeatherManager unit :=
  modify (emit (Print line)).

(** [d[k]] on a configuration dict. *)
Definition dict_getitem (d : dict) (k : string) : result json :=
  match assoc k d with Some v => Ok v | None => Raise (KeyError k) end.

(** The [try] block of [_fetch_weather]. *)
Definition fetch_guarded (env : Env) (city state : json) : M WeatherManager unit :=
  geo_data <- request env Geocoding ;;
  if negb (truthy geo_data) then
    print [Lit "Could not find coordinates for "; Val city; Lit ", "; Val state]
  else
    g0 <- lift (getitem0 geo_data) ;;
    lat <- lift (getitem g0 "lat") ;;
    g0' <- lift (getitem0 geo_data) ;;
    lon <- lift (getitem g0' "lon") ;;
    w <- request env CurrentWeather ;;
    modify (set_weather_data w) ;;
    f <- request env Forecast ;;
    modify (set_forecast_data f) ;;
    f' <- gets forecast_data ;;
    _process_forecast_data f' ;;
    modify (set_last_update (t_fetched env)) ;;
    print [Lit "Weather data updated successfully"].

(** The [except Exception as e] block of [_fetch_weather]. *)
Definition fetch_handler (e : exn) : M WeatherManager unit :=
  print [Lit "Error fetching weather data: "; Exc e] ;;
  modify (set_weather_data JNull) ;;
  modify (set_forecast_data JNull).

Definition _fetch_weather (env : Env) : M WeatherManager unit :=
  modify (emit FetchAttempt) ;;
  cfg <- gets weather_config ;;
  let api_key := dict_get cfg "api_key" JNull in
  if negb (truthy api_key) then
    print [Lit "No API key configured for weather"]
  else
    loc <- gets location ;;
    city <- lift (dict_getitem loc "city") ;;
    state <- lift (dict_getitem loc "state") ;;
    country <- lift (dict_getitem loc "country") ;;
    let units := dict_get cfg "units" (JStr "imperial") in
    try_except (fetch_guarded env city state) fetch_handler.

(** [a > b] and [a < b] on time readings. *)
Definition Qgtb (a b : Q) : bool := negb (Qle_bool a b).
Definition Qltb (a b : Q) : bool := negb (Qle_bool b a).

(** The test of [get_weather]; comparing a time with a configured interval
    that is not a number is a [TypeError]. *)
Definition fetch_due (now : Q) (s : WeatherManager) : result bool :=
  if negb (truthy (weather_data s)) then Ok true
  else
    match num_val (dict_get (weather_config s) "update_interval" (JInt 300)) with
    | Some interval => Ok (Qgtb (now - last_update s)%Q interval)
    | None => Raise TypeError
    end.

Definition get_weather (env : Env) : M WeatherManager json :=
  s <- gets (fun s => s) ;;
  due <- lift (fetch_due (t_get env) s) ;;
  (if due then _fetch_weather env else ret tt) ;;
  gets weather_data.

(** *** Drawing *)

Context {D : Type} `{DisplayManager D}.

(** The manager and the display manager it holds a reference to. *)
Definition on_self {A} (c : M WeatherManager A) : M (WeatherManager * D) A :=
  fun '(s, d) => let '(r, s') := c s in (r, (s', d)).

Definition on_dm {A} (c : M D A) : M (WeatherManager * D) A :=
  fun '(s, d) => let '(r, d') := c d in (r, (s, d')).

(** [_prepare_display]: it only acts on the display manager. *)
Definition _prepare_display (force_clear : bool) : M D unit :=
  (if force_clear then dm_clear else ret tt) ;;
  dm_new_image.

(** The test of [display_weather]:
    [force_clear or not hasattr(self, 'last_temp') or temp != self.last_temp
     or condition != self.last_condition]. *)
Definition current_changed (force_clear : bool) (temp : Z) (condition : json)
    (s : WeatherManager) : result bool :=
  if force_clear then Ok true
  else
    match last_temp s with
    | None => Ok true
    | Some t =>
        if negb (temp =? t) then Ok true
        else
          match last_condition s with
          | Some c => Ok (negb (py_eq condition c))
          | None => Raise AttributeError
          end
    end.

(** The calls [display_weather] makes on the display manager, from
    [_prepare_display] to [update_display]. *)
Definition draw_current (force_clear : bool) (temp : Z) (condition humidity : json)
  : M D unit :=
  _prepare_display force_clear ;;
  display_width <- gets matrix_width ;;
  display_height <- gets matrix_height ;;
  let x_pos := display_width / 4 in
  let y_pos := display_height / 2 - 4 in
  dm_draw_text [Int temp; Lit degree] (Some x_pos) y_pos
               COLORS_highlight false false ;;
  let icon_x := display_width * 3 / 4 - ICON_SIZE_large / 2 in
  let icon_y := display_height / 2 - ICON_SIZE_large / 2 in
  dm_draw_weather_icon condition icon_x icon_y ICON_SIZE_large ;;
  dm_draw_text [Lit "Humidity: "; Val humidity; Lit "%"] (Some PADDING)
               (display_height - 8) COLORS_text true false ;;
  dm_update_display.

Definition display_weather (env : Env) (force_clear : bool)
  : M (WeatherManager * D) unit :=
  weather <- on_self (get_weather env) ;;
  if negb (truthy weather) then ret tt
  else
    main <- lift (getitem weather "main") ;;
    t <- lift (getitem main "temp") ;;
    temp <- lift (round_json t) ;;
    w <- lift (getitem weather "weather") ;;
    w0 <- lift (getitem0 w) ;;
    condition <- lift (getitem w0 "main") ;;
    main' <- lift (getitem weather "main") ;;
    humidity <- lift (getitem main' "humidity") ;;
    s <- gets fst ;;
    changed <- lift (current_changed force_clear temp condition s) ;;
    if changed then
      on_dm (draw_current force_clear temp condition humidity) ;;
      on_self (modify (set_last_key temp condition))
    else ret tt.

(** The frame gate of the two forecast views:
    [not force_clear and current_time - self.last_draw_time < 0.1]. *)
Definition too_soon (force_clear : bool) (current_time : Q) (s : WeatherManager)
  : bool :=
  negb force_clear && Qltb (current_time - last_draw_time s)%Q (1 # 10)%Q.

(** Body of the loop of [display_hourly_forecast]. *)
Definition draw_hour (scroll_pos display_width display_height forecast_width : Z)
    (n : Z) (entry : Z * HourlyEntry) : M D unit :=
  let i := fst entry in
  let forecast := snd entry in
  let x_pos := display_width - scroll_pos + i * forecast_width in
  if (x_pos <? - forecast_width) || (display_width <? x_pos) then ret tt
  else
    dm_draw_text [Lit (h_hour forecast)] (Some (x_pos + forecast_width / 2))
                 10 COLORS_text true false ;;
    let icon_x := x_pos + (forecast_width - ICON_SIZE_medium) / 2 in
    let icon_y := 14 in
    dm_draw_weather_icon (h_condition forecast) icon_x icon_y ICON_SIZE_medium ;;
    dm_draw_text [Int (h_temp forecast); Lit degree]
                 (Some (x_pos + forecast_width / 2)) (display_height - 8)
                 COLORS_text true false ;;
    if i <? n - 1 then
      let sep_x := x_pos + forecast_width - 1 in
      if (0 <=? sep_x) && (sep_x <=? display_width) then
        dm_draw_line (sep_x, 8) (sep_x, display_height) COLORS_separator
      else ret tt
    else ret tt.

(** The calls [display_hourly_forecast] makes on the display manager once
    it has decided to draw. *)
Definition draw_hourly (scroll_pos : Z) (force_clear : bool)
    (hourly : list HourlyEntry) : M D unit :=
  _prepare_display force_clear ;;
  display_width <- gets matrix_width ;;
  display_height <- gets matrix_height ;;
  let forecast_width := display_width / 2 in
  dm_draw_text [Lit "HOURLY"] None 1 COLORS_highlight true false ;;
  dm_draw_line (0, 8) (display_width, 8) COLORS_separator ;;
  for_each (enumerate_from 0 hourly)
    (draw_hour scroll_pos display_width display_height forecast_width
               (Z.of_nat (List.length hourly))) ;;
  dm_update_display.

Definition display_hourly_forecast (env : Env) (scroll_pos : Z)
    (force_clear : bool) : M (WeatherManager * D) unit :=
  have <- gets (fun sd => nonempty (hourly_forecast (fst sd))) ;;
  (if have then ret JNull else on_self (get_weather env)) ;;
  s <- gets fst ;;
  if negb (nonempty (hourly_forecast s)) then ret tt
  else
    let current_time := t_draw env in
    if too_soon force_clear current_time s then ret tt
    else
      on_dm (draw_hourly scroll_pos force_clear (entries (hourly_forecast s))) ;;
      on_self (modify (set_last_draw_time current_time)).

(** Body of the loop of [display_daily_forecast]. *)
Definition draw_day (display_height section_width : Z) (n : Z)
    (entry : Z * DailyEntry) : M D unit :=
  let i := fst entry in
  let day := snd entry in
  let x_base := i * section_width in
  dm_draw_text [Lit (upper (d_date day))] (Some (x_base + section_width / 2))
               10 COLORS_text true false ;;
  let icon_x := x_base + (section_width - ICON_SIZE_medium) / 2 in
  let icon_y := 14 in
  dm_draw_weather_icon (d_condition day) icon_x icon_y ICON_SIZE_medium ;;
  let temp_y := display_height - 8 in
  let low_x := x_base + section_width / 3 in
  let high_x := x_base + 2 * section_width / 3 in
  dm_draw_text [Int (d_temp_low day); Lit degree] (Some low_x) temp_y
               COLORS_temp_low true false ;;
  dm_draw_text [Int (d_temp_high day); Lit degree] (Some high_x) temp_y
               COLORS_temp_high true false ;;
  if i <? n - 1 then
    let sep_x := x_base + section_width - 1 in
    dm_draw_line (sep_x, 8) (sep_x, display_height) COLORS_separator
  else ret tt.

(** The calls [display_daily_forecast] makes on the display manager once it
    has decided to draw. *)
Definition draw_daily (force_clear : bool) (daily : list DailyEntry) : M D unit :=
  _prepare_display force_clear ;;
  display_width <- gets matrix_width ;;
  display_height <- gets matrix_height ;;
  let section_width := display_width / 3 in
  dm_draw_text [Lit "3-DAY FORECAST"] None 1 COLORS_highlight true false ;;
  dm_draw_line (0, 8) (display_width, 8) COLORS_separator ;;
  for_each (enumerate_from 0 daily)
    (draw_day display_height section_width (Z.of_nat (List.length daily))) ;;
  dm_update_display.

Definition display_daily_forecast (env : Env) (force_clear : bool)
  : M (WeatherManager * D) unit :=
  have <- gets (fun sd => nonempty (daily_forecast (fst sd))) ;;
  (if have then ret JNull else on_self (get_weather env)) ;;
  s <- gets fst ;;
  if negb (nonempty (daily_forecast s)) then ret tt
  else
    let current_time := t_draw env in
    if too_soon force_clear current_time s then ret tt
    else
      on_dm (draw_daily force_clear (entries (daily_forecast s))) ;;
      on_self (modify (set_last_draw_time current_time)).

End Manager.

(** ** The vocabulary of the specification *)

(** A raw forecast sample: timestamp, temperature, condition. *)
Record RawForecastSample : Type := mkSample {
  timestamp : Z;
  temperature : Q;
  condition : json
}.

(** The sample that a JSON item of the forecast list carries, when it has
    the three fields with a numeric timestamp and temperature. *)
Definition decode (item : json) : option RawForecastSample :=
  match getitem item "dt" with
  | Ok d =>
      match epoch_seconds d with
      | Some ts =>
          match (let? main := getitem item "main" in getitem main "temp") with
          | Ok t =>
              match num_val t with
              | Some q =>
                  match (let? w := getitem item "weather" in
                         let? w0 := getitem0 w in getitem w0 "main") with
                  | Ok c => Some (mkSample ts q c)
                  | Raise _ => None
                  end
              | None => None
              end
          | Raise _ => None
          end
      | None => None
      end
  | Raise _ => None
  end.

Definition local_time (utcoffset : Z -> Z) (smp : RawForecastSample) : Z :=
  timestamp smp + utcoffset (timestamp smp).

(** The local second falls in a year that [datetime] can hold. *)
Definition year_ok (local : Z) : Prop := min_local <= local < max_local.

(** The timestamp is one that [datetime.fromtimestamp] accepts: it fits a
    64-bit [time_t], its local time falls in a year that [datetime] can
    hold, and so does the local time 24 hours earlier and, where the offset from UTC has gone down by
    some seconds over those 24 hours, the local time that many seconds
    earlier. With a constant offset this is: from the second local day of
    year 1 to the end of year 9999. *)
Definition in_range (utcoffset : Z -> Z) (smp : RawForecastSample) : Prop :=
  let ts := timestamp smp in
  let shift := utcoffset ts - utcoffset (ts - 86400) in
  - 2 ^ 63 <= ts < 2 ^ 63 /\
  year_ok (local_time utcoffset smp) /\
  year_ok (ts - 86400 + utcoffset (ts - 86400)) /\
  (shift < 0 -> year_ok (ts + shift + utcoffset (ts + shift))).

(** An item of the forecast list that is not a well-formed sample: a field
    is missing or of the wrong kind, or the timestamp is one that
    [datetime.fromtimestamp] refuses. *)
Definition malformed (utcoffset : Z -> Z) (item : json) : Prop :=
  forall smp, decode item = Some smp -> ~ in_range utcoffset smp.

(** Hour of the day, 0 to 23, in local time. *)
Definition local_hour (utcoffset : Z -> Z) (smp : RawForecastSample) : Z :=
  (local_time utcoffset smp mod 86400) / 3600.

(** Calendar date in local time, as year-month-day text. *)
Definition date_of (utcoffset : Z -> Z) (smp : RawForecastSample) : string :=
  strftime_Ymd (datetime_of_local (local_time utcoffset smp)).

(** The samples of one calendar date, in order. *)
Definition group_samples (utcoffset : Z -> Z) (k : string)
    (smps : list RawForecastSample) : list RawForecastSample :=
  filter (fun smp => String.eqb (date_of utcoffset smp) k) smps.

(** A number below 100 in decimal, without padding. *)
Definition unpadded (n : Z) : string :=
  if n <? 10 then String (digit n) EmptyString else pad2 n.

(** 12-hour clock label: 0 is 12AM, 9 is 9AM, 12 is 12PM, 15 is 3PM. *)
Definition label12 (h : Z) : string :=
  String.append (unpadded (if h mod 12 =? 0 then 12 else h mod 12))
                (if h <? 12 then "AM" else "PM").

(** The hourly entry the specification asks for. *)
Definition hourly_of (utcoffset : Z -> Z) (smp : RawForecastSample) : HourlyEntry :=
  mkHourly (label12 (local_hour utcoffset smp)) (py_round (temperature smp))
           (condition smp).

(** Distinct values of a list, in the order of their first occurrence. *)
Fixpoint first_seen_from (seen l : list string) : list string :=
  match l with
  | [] => seen
  | x :: l' =>
      first_seen_from (if existsb (String.eqb x) seen then seen else seen ++ [x]) l'
  end.

Definition first_seen (l : list string) : list string := first_seen_from [] l.

(** What a group of [daily_data] holds once the samples [p] have been seen:
    their temperatures and conditions in order, and the time of the first. *)
Definition group_holds (utcoffset : Z -> Z) (p : list RawForecastSample)
    (kv : string * DayGroup) : Prop :=
  let grp := group_samples utcoffset (fst kv) p in
  all_nums (g_temps (snd kv)) = Some (map temperature grp) /\
  g_conditions (snd kv) = map condition grp /\
  exists first rest,
    grp = first :: rest /\
    g_date (snd kv) = datetime_of_local (local_time utcoffset first).

Definition grouped (utcoffset : Z -> Z) (p : list RawForecastSample)
    (dd : list (string * DayGroup)) : Prop :=
  NoDup (map fst dd) /\
  map fst dd = first_seen (map (date_of utcoffset) p) /\
  Forall (group_holds utcoffset p) dd.

(** The daily entry of the date [k] among the samples [smps]: labels from
    the first sample of that date, rounded extremes of its temperatures, and
    the condition that [dominant] picks among its conditions. *)
Definition day_summary (utcoffset : Z -> Z) (set_iter : list json -> list json)
    (smps : list RawForecastSample) (k : string) (e : DailyEntry) : Prop :=
  exists first rest,
    group_samples utcoffset k smps = first :: rest /\
    d_date e = strftime_a (datetime_of_local (local_time utcoffset first)) /\
    d_date_str e = strftime_md (datetime_of_local (local_time utcoffset first)) /\
    d_temp_high e = py_round (max_from (temperature first) (map temperature rest)) /\
    d_temp_low e = py_round (min_from (temperature first) (map temperature rest)) /\
    dominant set_iter (map condition (first :: rest)) = Ok (d_condition e).

(** The dates that get a daily entry: the first three met. *)
Definition summarised (utcoffset : Z -> Z) (smps : list RawForecastSample)
  : list string :=
  firstn 3 (first_seen (map (date_of utcoffset) smps)).

(** The conditions of the date [k] can all go into a set. *)
Definition usable (utcoffset : Z -> Z) (smps : list RawForecastSample) (k : string)
  : Prop :=
  Forall (fun smp => hashable (condition smp) = true) (group_samples utcoffset k smps).

(** Items that the aggregation can work on: each is a sample with a
    timestamp in range, and the dates that get a daily entry have usable
    conditions. *)
Definition well_formed (utcoffset : Z -> Z) (items : list json) : Prop :=
  exists smps,
    map decode items = map Some smps /\
    Forall (in_range utcoffset) smps /\
    Forall (usable utcoffset smps) (summarised utcoffset smps).

(** The tie rule of the specification: go through the conditions in order,
    keep the best so far, replace it only by a strictly greater count. *)
Definition dominant_first_seen (conditions : list json) : result json :=
  py_max_key (count conditions) conditions.

(** What any iteration order of [set(l)] satisfies, for a list of scalars:
    it lists members of [l], and every member of [l] is equal to one of
    them. *)
Definition set_order (set_iter : list json -> list json) : Prop :=
  forall l, forallb hashable l = true ->
    (forall x, In x (set_iter l) -> In x l) /\
    (forall x, In x l -> exists y, In y (set_iter l) /\ py_eq x y = true).

(** Every run of [c] takes a state to one related to it by [R], whether it
    returns or raises. *)
Definition within {S A : Type} (R : S -> S -> Prop) (c : M S A) : Prop :=
  forall s, R s (snd (c s)).

(** Nothing changed but the hourly and daily lists. *)
Definition strip (s : WeatherManager) : WeatherManager :=
  set_daily_forecast None (set_hourly_forecast None s).

Definition only_lists (s s' : WeatherManager) : Prop := strip s' = strip s.

(** Nothing changed of what the views and the configuration hold. *)
Definition same_view (s s' : WeatherManager) : Prop :=
  weather_config s' = weather_config s /\ location s' = location s /\
  scroll_position s' = scroll_position s /\
  last_draw_time s' = last_draw_time s /\
  last_temp s' = last_temp s /\ last_condition s' = last_condition s.

Definition is_fetch_attempt (e : event) : bool :=
  match e with FetchAttempt => true | _ => false end.

(** The trace grew, but not by an entry into [_fetch_weather]. *)
Definition quiet (s s' : WeatherManager) : Prop :=
  exists rest, events s' = events s ++ rest /\ forallb (fun e => negb (is_fetch_attempt e)) rest = true.

(** The lines [_fetch_weather] prints. *)
Definition success_line : list piece := [Lit "Weather data updated successfully"].

Definition no_key_line : list piece := [Lit "No API key configured for weather"].

Definition unresolved_line (city state : json) : list piece :=
  [Lit "Could not find coordinates for "; Val city; Lit ", "; Val state].

Definition error_line (e : exn) : list piece :=
  [Lit "Error fetching weather data: "; Exc e].

(** Number of entries into [_fetch_weather] recorded in a trace. *)
Definition fetch_attempts (evs : list event) : nat :=
  List.length (filter is_fetch_attempt evs).

(** The configured refresh interval, 300 when absent. *)
Definition update_interval (s : WeatherManager) : json :=
  dict_get (weather_config s) "update_interval" (JInt 300).

(** The three fields of [location] that a fetch reads. *)
Definition has_location (s : WeatherManager) : Prop :=
  is_ok (dict_getitem (location s) "city") = true /\
  is_ok (dict_getitem (location s) "state") = true /\
  is_ok (dict_getitem (location s) "country") = true.

Definition has_api_key (s : WeatherManager) : bool :=
  truthy (dict_get (weather_config s) "api_key" JNull).

(** The three requests of a fetch are answered, the geocoding one with a
    place, the other two with the payloads [w] and [f]. *)
Definition answered (env : Env) (w f : json) : Prop :=
  exists geo g0 lat lon,
    http env Geocoding = Ok geo /\ getitem0 geo = Ok g0 /\
    getitem g0 "lat" = Ok lat /\ getitem g0 "lon" = Ok lon /\
    http env CurrentWeather = Ok w /\ http env Forecast = Ok f.

(** The rounded temperature, the condition and the humidity that
    [display_weather] reads from a current-conditions payload. *)
Definition current_fields (weather : json) : result (Z * json * json) :=
  let? main := getitem weather "main" in
  let? t := getitem main "temp" in
  let? temp := round_json t in
  let? w := getitem weather "weather" in
  let? w0 := getitem0 w in
  let? c := getitem w0 "main" in
  let? main' := getitem weather "main" in
  let? humidity := getitem main' "humidity" in
  Ok (temp, c, humidity).

(** ** Concrete platforms and inputs *)

Definition utc (_ : Z) : Z := 0.

(** Two iteration orders a set can have: first insertion first, and the
    reverse. *)
Fixpoint insertion_order_from (seen l : list json) : list json :=
  match l with
  | [] => seen
  | x :: l' =>
      insertion_order_from
        (if existsb (fun y => py_eq x y) seen then seen else seen ++ [x]) l'
  end.

Definition insertion_order (l : list json) : list json :=
  insertion_order_from [] l.

Definition reverse_order (l : list json) : list json := rev (insertion_order l).

(** A display manager that records the calls it receives. *)
Inductive draw_call : Type :=
| Clear
| NewImage
| DrawText (text : list piece) (x : option Z) (y : Z) (fill : color)
           (small_font force_clear : bool)
| DrawIcon (cond : json) (x y size : Z)
| DrawLine (p q : Z * Z) (fill : color)
| UpdateDisplay.

Definition record_call (c : draw_call) : M (list draw_call) unit :=
  modify (fun calls => calls ++ [c]).

#[export] Instance recorder : DisplayManager (list draw_call) := {
  matrix_width := fun _ => 128;
  matrix_height := fun _ => 32;
  dm_clear := record_call Clear;
  dm_new_image := record_call NewImage;
  dm_draw_text := fun text x y fill small fc =>
                    record_call (DrawText text x y fill small fc);
  dm_draw_weather_icon := fun c x y size => record_call (DrawIcon c x y size);
  dm_draw_line := fun p q fill => record_call (DrawLine p q fill);
  dm_update_display := record_call UpdateDisplay
}.

(** A forecast item and a current-conditions payload of the usual shape. *)
Definition item (ts : Z) (temp : Q) (cond : string) : json :=
  JObj [("dt", JInt ts);
        ("main", JObj [("temp", JFloat temp); ("humidity", JInt 40)]);
        ("weather", JArr [JObj [("id", JInt 800); ("main", JStr cond)]])].

Definition current (temp : Q) (cond : string) (humidity : Z) : json :=
  JObj [("main", JObj [("temp", JFloat temp); ("humidity", JInt humidity)]);
        ("weather", JArr [JObj [("id", JInt 800); ("main", JStr cond)]])].

Definition payload (items : list json) : json :=
  JObj [("cod", JStr "200"); ("list", JArr items)].

(** 2023-11-14 09:00:00 UTC, a Tuesday. *)
Definition nine_am : Z := 1699952400.

(** Samples three hours apart from [start]. *)
Definition every_3h (start : Z) (conds : list string) : list json :=
  map (fun '(i, c) => item (start + 10800 * i) (50.5 + inject_Z i)%Q c)
      (enumerate_from 0 conds).

Definition manager0 : WeatherManager :=
  init [("api_key", JStr "key")]
       [("city", JStr "Dallas"); ("state", JStr "Texas"); ("country", JStr "US")].

(** The samples that [every_3h] encodes. *)
Definition samples_3h (start : Z) (conds : list string) : list RawForecastSample :=
  map (fun ic => mkSample (start + 10800 * fst ic) (50.5 + inject_Z (fst ic))%Q
                          (JStr (snd ic)))
      (enumerate_from 0 conds).

(** 2023-11-14 21:00:00 UTC: ten samples from here reach into a third day. *)
Definition nine_pm : Z := nine_am + 43200.

Definition ten_conditions : list string :=
  ["Rain"; "Clear"; "Rain"; "Clear"; "Rain"; "Clear"; "Snow"; "Snow"; "Snow"; "Mist"].

(** Answers of a service that is up, and of one that is down. *)
Definition service_up (w : json) (items : list json) (target : endpoint)
  : result json :=
  match target with
  | Geocoding => Ok (JArr [JObj [("lat", JFloat 32.78); ("lon", JFloat (-96.8))]])
  | CurrentWeather => Ok w
  | Forecast => Ok (payload items)
  end.

Definition service_down (_ : endpoint) : result json :=
  Raise (RequestException "connection refused").

(** A geocoding service that knows no such place. *)
Definition service_unresolved (target : endpoint) : result json :=
  match target with
  | Geocoding => Ok (JArr [])
  | _ => Raise (RequestException "not reached")
  end.

(** A call at time [t] against a service that is up, and one against a
    service that is down. *)
Definition env_up (t : Q) (w : json) (items : list json) : Env :=
  mkEnv (service_up w items) t (t + 1)%Q (t + 2)%Q.

Definition env_down (t : Q) : Env := mkEnv service_down t (t + 1)%Q (t + 2)%Q.

(** Current conditions on a clear day, and the same with another humidity
    and a temperature that rounds to the same integer. *)
Definition clear_day : json := current 71.5 "Clear" 40.
Definition clear_day_later : json := current 71.6 "Clear" 55.

Definition forecast_items : list json := every_3h nine_pm ten_conditions.

(** The manager after a first call of [get_weather] at time 1000 that
    fetched with success. *)
Definition manager1 : WeatherManager :=
  snd (get_weather utc insertion_order (env_up 1000 clear_day forecast_items) manager0).

(** The manager and the recording display after [display_weather] has drawn
    the current view of [manager0] for the first time, at time 1000. *)
Definition drawn1 : WeatherManager * list draw_call :=
  snd (display_weather utc insertion_order
         (env_up 1000 clear_day forecast_items) false (manager0, [])).

(** The same after [display_hourly_forecast] on [manager1] at time 1002. *)
Definition scrolled1 : WeatherManager * list draw_call :=
  snd (display_hourly_forecast utc insertion_order
         (env_up 1000 clear_day forecast_items) 0 false (manager1, [])).

(** And after [display_daily_forecast] on [manager1] at time 1002. *)
Definition outlook1 : WeatherManager * list draw_call :=
  snd (display_daily_forecast utc insertion_order
         (env_up 1000 clear_day forecast_items) false (manager1, [])).

(** A call a twentieth of a time unit after the draw at 1002. *)
Definition env_soon : Env :=
  mkEnv (service_up clear_day forecast_items) 1002 1002 (1002 + 1 # 20)%Q.

(** ** [src/display_manager.py] *)

(** What has been painted on an image since it was last black all over. *)
Inductive paint : Type :=
| PaintText (text : string) (x y : Z) (fill : color)
| PaintLine (p q : Z * Z) (fill : color).

Record RGBMatrixOptions : Type := mkOptions {
  opt_rows : json;
  opt_cols : json;
  opt_chain_length : json;
  opt_hardware_mapping : string;
  opt_gpio_slowdown : Z;
  opt_brightness : json
}.

(** [DisplayManager._setup_matrix], up to the construction of the matrix. *)
Definition _setup_matrix (config : dict) : RGBMatrixOptions :=
  mkOptions (dict_get config "rows" (JInt 32))
            (dict_get config "cols" (JInt 64))
            (dict_get config "chain_length" (JInt 2))
            "adafruit-hat"
            4
            (dict_get config "brightness" (JInt 50)).

(** A [DisplayManager]: its image buffer and what the panel shows, which is
    the image last handed to [matrix.SetImage]. The width and height are
    those the matrix reports. *)
Record PanelDisplay : Type := mkPanel {
  pd_options : RGBMatrixOptions;
  pd_width : Z;
  pd_height : Z;
  pd_image : list paint;
  pd_shown : list paint
}.

(** [DisplayManager.__init__], for a matrix of the given size. *)
Definition panel_init (width height : Z) (config : dict) : PanelDisplay :=
  mkPanel (_setup_matrix config) width height [] [].

(** [DisplayManager.clear]: a black rectangle over the whole image, then
    [SetImage]. *)
Definition panel_clear (d : PanelDisplay) : PanelDisplay :=
  mkPanel (pd_options d) (pd_width d) (pd_height d) [] [].

(** [DisplayManager.draw_text(text, x, y, color)] *)
Definition panel_draw_text (text : string) (x y : Z) (fill : color)
    (d : PanelDisplay) : PanelDisplay :=
  let d1 := panel_clear d in
  let image := pd_image d1 ++ [PaintText text x y fill] in
  mkPanel (pd_options d1) (pd_width d1) (pd_height d1) image image.

(** [DisplayManager.cleanup]: [matrix.Clear()] *)
Definition panel_cleanup (d : PanelDisplay) : PanelDisplay :=
  mkPanel (pd_options d) (pd_width d) (pd_height d) (pd_image d) [].

(** The image is replaced by a new, black one; the panel is not told. *)
Definition panel_new_image (d : PanelDisplay) : PanelDisplay :=
  mkPanel (pd_options d) (pd_width d) (pd_height d) [] (pd_shown d).

(** [draw.line] on the image. *)
Definition panel_line (p q : Z * Z) (fill : color) (d : PanelDisplay)
  : PanelDisplay :=
  mkPanel (pd_options d) (pd_width d) (pd_height d)
          (pd_image d ++ [PaintLine p q fill]) (pd_shown d).

(** A call [draw_text(text, x, y, color)], and a run of such calls. *)
Definition text_call : Type := string * Z * Z * color.

Definition panel_draw_all (calls : list text_call) (d : PanelDisplay)
  : PanelDisplay :=
  fold_left (fun d0 '(text, x, y, fill) => panel_draw_text text x y fill d0) calls d.

(** What [WeatherManager] gets when it is handed this [DisplayManager]:
    [draw_text] takes no [small_font] or [force_clear] keyword, so the call
    is a [TypeError]; there is no [draw_weather_icon] and no
    [update_display], so those are an [AttributeError]. *)
#[export] Instance panel_display : DisplayManager PanelDisplay := {
  matrix_width := pd_width;
  matrix_height := pd_height;
  dm_clear := modify panel_clear;
  dm_new_image := modify panel_new_image;
  dm_draw_text := fun _ _ _ _ _ _ => raise TypeError;
  dm_draw_weather_icon := fun _ _ _ _ => raise AttributeError;
  dm_draw_line := fun p q fill => modify (panel_line p q fill);
  dm_update_display := raise AttributeError
}.

(** ** Further vocabulary *)

(** The sizes the two lists are meant to keep. *)
Definition bounded (s : WeatherManager) : Prop :=
  (List.length (entries (hourly_forecast s)) <= 6)%nat /\
  (List.length (entries (daily_forecast s)) <= 3)%nat.

(** The requests recorded in a trace, in order. *)
Fixpoint requests (evs : list event) : list endpoint :=
  match evs with
  | [] => []
  | Get target :: evs' => target :: requests evs'
  | _ :: evs' => requests evs'
  end.

(** The three requests of a fetch, in the order they are sent. *)
Definition request_order : list endpoint := [Geocoding; CurrentWeather; Forecast].

(** [l] is an initial part of [m]. *)
Definition prefix_of {A : Type} (l m : list A) : Prop := exists rest, m = l ++ rest.

(** A forecast payload whose hourly list stops after three entries: the
    fourth item has no temperature. *)
Definition broken_items : list json :=
  firstn 3 (every_3h nine_am ten_conditions)
  ++ [JObj [("dt", JInt (nine_am + 32400)); ("main", JObj [])]]
  ++ skipn 4 (every_3h nine_am ten_conditions).

(** A manager with a key but no city configured, and one with no key. *)
Definition manager_no_city : WeatherManager :=
  init [("api_key", JStr "key")] [("state", JStr "Texas"); ("country", JStr "US")].

Definition manager_no_key : WeatherManager :=
  init [("units", JStr "metric")]
       [("city", JStr "Dallas"); ("state", JStr "Texas"); ("country", JStr "US")].

(** A panel of 128 by 32 with the default options. *)
Definition panel0 : PanelDisplay := panel_init 128 32 [].

(** Current conditions with no humidity reading. *)
Definition no_humidity : json :=
  JObj [("main", JObj [("temp", JFloat 71.5)]);
        ("weather", JArr [JObj [("id", JInt 800); ("main", JStr "Clear")]])].

(** A call at time 2000 against a geocoding service that finds no place. *)
Definition env_unresolved : Env := mkEnv service_unresolved 2000 2001 2002.

(** * Properties *)

(** Calendar arithmetic and text formatting are never unfolded by [simpl]:
    the proofs go through the lemmas about them. *)
#[local] Arguments civil_from_days : simpl never.
#[local] Arguments datetime_of_local : simpl never.
#[local] Arguments fromtimestamp : simpl never.
#[local] Arguments epoch_seconds : simpl never.
#[local] Arguments py_round : simpl never.
#[local] Arguments strftime_Ymd : simpl never.
#[local] Arguments strftime_Ip : simpl never.
#[local] Arguments strftime_a : simpl never.
#[local] Arguments strftime_md : simpl never.
#[local] Arguments lstrip0 : simpl never.
#[local] Arguments label12 : simpl never.
#[local] Arguments min_local : simpl never.
#[local] Arguments max_local : simpl never.
#[local] Arguments max_from : simpl never.
#[local] Arguments min_from : simpl never.
#[local] Arguments date_of : simpl never.
#[local] Arguments local_time : simpl never.
#[local] Arguments local_hour : simpl never.
#[local] Arguments hourly_of : simpl never.
#[local] Arguments pad2 : simpl never.
#[local] Arguments pad4 : simpl never.
#[local] Arguments Z.div : simpl never.
#[local] Arguments Z.modulo : simpl never.
#[local] Arguments Z.mul : simpl never.

(** ** Numbers, text and local time *)

Lemma py_round_nearest (q : Q) :
  (Qabs (inject_Z (py_round q) - q) <= 1 # 2)%Q.
Proof.
  unfold py_round.
  pose proof (Qfloor_le q) as Hlo.
  pose proof (Qlt_floor q) as Hhi.
  set (f := Qfloor q) in *.
  assert (Hf1 : (inject_Z (f + 1) == inject_Z f + 1)%Q) by (rewrite inject_Z_plus; reflexivity).
  rewrite Hf1 in Hhi.
  assert (Hdown : (q - inject_Z f <= 1 # 2)%Q ->
                  (Qabs (inject_Z f - q) <= 1 # 2)%Q).
  { intros Hc. apply Qabs_Qle_condition. split; lra. }
  assert (Hup : (1 # 2 <= q - inject_Z f)%Q ->
                (Qabs (inject_Z (f + 1) - q) <= 1 # 2)%Q).
  { intros Hc. rewrite Hf1. apply Qabs_Qle_condition. split; lra. }
  destruct (Qcompare (q - inject_Z f) (1 # 2)) eqn:Hc.
  - apply Qeq_alt in Hc. destruct (Z.even f); [apply Hdown | apply Hup]; lra.
  - apply Qlt_alt in Hc. apply Hdown. lra.
  - apply Qgt_alt in Hc. apply Hup. lra.
Qed.

Lemma py_round_integer (z : Z) : py_round (inject_Z z) = z.
Proof.
  unfold py_round. rewrite Qfloor_Z.
  assert (Hc : Qcompare (inject_Z z - inject_Z z) (1 # 2) = Lt).
  { apply Qlt_alt. setoid_replace (inject_Z z - inject_Z z)%Q with 0%Q by ring.
    reflexivity. }
  rewrite Hc. reflexivity.
Qed.

Lemma hour_label (h : Z) :
  0 <= h < 24 ->
  lstrip0 (String.append (pad2 (if h mod 12 =? 0 then 12 else h mod 12))
                         (if h <? 12 then "AM" else "PM")) = label12 h.
Proof.
  intros Hh.
  assert (Hcases : h = 0 \/ h = 1 \/ h = 2 \/ h = 3 \/ h = 4 \/ h = 5 \/ h = 6 \/
                   h = 7 \/ h = 8 \/ h = 9 \/ h = 10 \/ h = 11 \/ h = 12 \/
                   h = 13 \/ h = 14 \/ h = 15 \/ h = 16 \/ h = 17 \/ h = 18 \/
                   h = 19 \/ h = 20 \/ h = 21 \/ h = 22 \/ h = 23) by lia.
  repeat (destruct Hcases as [-> | Hcases]; [reflexivity |]).
  subst h. reflexivity.
Qed.

Lemma datetime_hour (local : Z) :
  hour (datetime_of_local local) = (local mod 86400) / 3600.
Proof.
  unfold datetime_of_local.
  destruct (civil_from_days (local / 86400)) as [[y m] d]. reflexivity.
Qed.

Lemma hour_bounds (local : Z) : 0 <= (local mod 86400) / 3600 < 24.
Proof.
  pose proof (Z.mod_pos_bound local 86400 ltac:(lia)) as Hm.
  split.
  - apply Z.div_pos; lia.
  - apply Z.div_lt_upper_bound; lia.
Qed.

(** ** Loops and state *)

Lemma for_each_preserves {S A X : Type} (proj : S -> X) (body : A -> M S unit) :
  (forall x s, proj (snd (body x s)) = proj s) ->
  forall l s, proj (snd (for_each l body s)) = proj s.
Proof.
  intros Hbody l. induction l as [| x l IH]; intros s; simpl.
  - reflexivity.
  - unfold bind. specialize (Hbody x s).
    destruct (body x s) as [[[] | e] s1]; simpl in *.
    + rewrite IH. exact Hbody.
    + exact Hbody.
Qed.

Lemma traverse_length {A B : Type} (f : A -> result B) (l : list A) (ys : list B) :
  traverse f l = Ok ys -> List.length ys = List.length l.
Proof.
  revert ys. induction l as [| x l IH]; intros ys; simpl.
  - intros [= <-]. reflexivity.
  - destruct (f x) as [y | e]; simpl; [| discriminate].
    destruct (traverse f l) as [ys' | e]; simpl; [| discriminate].
    intros [= <-]. simpl. f_equal. apply IH. reflexivity.
Qed.

Lemma In_firstn {A : Type} (n : nat) (l : list A) (x : A) :
  In x (firstn n l) -> In x l.
Proof.
  intros Hin. rewrite <- (firstn_skipn n l). apply in_or_app. left. exact Hin.
Qed.

Lemma set_hourly_twice (a b : option (list HourlyEntry)) (s : WeatherManager) :
  set_hourly_forecast a (set_hourly_forecast b s) = set_hourly_forecast a s.
Proof. reflexivity. Qed.

Lemma set_daily_twice (a b : option (list DailyEntry)) (s : WeatherManager) :
  set_daily_forecast a (set_daily_forecast b s) = set_daily_forecast a s.
Proof. reflexivity. Qed.

Section Properties.

Variable utcoffset : Z -> Z.
Variable set_iter : list json -> list json.

Local Open Scope m_scope.

(** *** The hourly loop *)

Lemma year_in_range_ok (local : Z) : year_in_range local = true <-> year_ok local.
Proof.
  unfold year_in_range, year_ok. rewrite andb_true_iff, Z.leb_le, Z.ltb_lt. tauto.
Qed.

Lemma year_in_range_not (local : Z) : year_in_range local = false <-> ~ year_ok local.
Proof.
  rewrite <- year_in_range_ok. destruct (year_in_range local); intuition congruence.
Qed.

Lemma to_local_ok (z : Z) :
  year_ok (z + utcoffset z) -> to_local utcoffset z = Ok (z + utcoffset z).
Proof.
  intros Hy. unfold to_local. cbv zeta.
  assert (Htm : tm_range (z + utcoffset z) = true).
  { unfold tm_range, min_tm, max_tm. unfold year_ok, min_local, max_local in Hy.
    apply andb_true_iff. rewrite Z.leb_le, Z.ltb_lt. lia. }
  apply year_in_range_ok in Hy. rewrite Htm, Hy. reflexivity.
Qed.

Lemma to_local_refused (z : Z) :
  ~ year_ok (z + utcoffset z) -> exists e, to_local utcoffset z = Raise e.
Proof.
  intros Hy. unfold to_local. cbv zeta. apply year_in_range_not in Hy. rewrite Hy.
  destruct (tm_range (z + utcoffset z)); cbn [negb]; eauto.
Qed.

Lemma year_ok_dec (local : Z) : year_ok local \/ ~ year_ok local.
Proof. unfold year_ok. lia. Qed.

Lemma in_range_dec (smp : RawForecastSample) :
  in_range utcoffset smp \/ ~ in_range utcoffset smp.
Proof.
  unfold in_range, local_time. cbv zeta.
  set (ts := timestamp smp). set (shift := utcoffset ts - utcoffset (ts - 86400)).
  assert (Ht : - 2 ^ 63 <= ts < 2 ^ 63 \/ ~ - 2 ^ 63 <= ts < 2 ^ 63) by lia.
  destruct Ht as [Ht | Ht]; [| tauto].
  destruct (year_ok_dec (ts + utcoffset ts)) as [H1 | H1]; [| tauto].
  destruct (year_ok_dec (ts - 86400 + utcoffset (ts - 86400))) as [H2 | H2]; [| tauto].
  destruct (Z.ltb_spec shift 0) as [Hneg | Hpos];
    [| left; split; [exact Ht | split; [exact H1 | split; [exact H2 | intros Hlt; lia]]]].
  destruct (year_ok_dec (ts + shift + utcoffset (ts + shift))) as [H3 | H3]; tauto.
Qed.

Lemma time_t_range_ok (z : Z) : time_t_range z = true <-> - 2 ^ 63 <= z < 2 ^ 63.
Proof. unfold time_t_range. rewrite andb_true_iff, Z.leb_le, Z.ltb_lt. tauto. Qed.

Lemma fromtimestamp_in_range (d : json) (smp : RawForecastSample) :
  epoch_seconds d = Some (timestamp smp) ->
  in_range utcoffset smp ->
  fromtimestamp utcoffset d = Ok (datetime_of_local (local_time utcoffset smp)).
Proof.
  unfold in_range, local_time. cbv zeta. intros Hd (Ht & H1 & H2 & H3).
  unfold fromtimestamp. rewrite Hd.
  set (ts := timestamp smp) in *.
  apply time_t_range_ok in Ht. rewrite Ht. cbn [negb].
  rewrite (to_local_ok ts H1). cbn [rbind].
  rewrite (to_local_ok (ts - 86400) H2). cbn [rbind]. cbv zeta.
  replace (ts + utcoffset ts - (ts - 86400 + utcoffset (ts - 86400)) - 86400)
    with (utcoffset ts - utcoffset (ts - 86400)) by lia.
  set (shift := utcoffset ts - utcoffset (ts - 86400)) in *.
  destruct (Z.ltb_spec shift 0) as [Hneg | Hpos]; [| reflexivity].
  rewrite (to_local_ok (ts + shift) (H3 Hneg)). reflexivity.
Qed.

Lemma fromtimestamp_out_of_range (d : json) (smp : RawForecastSample) :
  epoch_seconds d = Some (timestamp smp) ->
  ~ in_range utcoffset smp ->
  exists e, fromtimestamp utcoffset d = Raise e.
Proof.
  unfold in_range, local_time. cbv zeta. intros Hd Hout.
  unfold fromtimestamp. rewrite Hd.
  set (ts := timestamp smp) in *.
  destruct (time_t_range ts) eqn:Et; cbn [negb]; [| eauto].
  apply time_t_range_ok in Et.
  destruct (year_ok_dec (ts + utcoffset ts)) as [H1 | H1];
    [| destruct (to_local_refused ts H1) as (e & ->); exists e; reflexivity].
  rewrite (to_local_ok ts H1). cbn [rbind].
  destruct (year_ok_dec (ts - 86400 + utcoffset (ts - 86400))) as [H2 | H2];
    [| destruct (to_local_refused (ts - 86400) H2) as (e & ->); exists e; reflexivity].
  rewrite (to_local_ok (ts - 86400) H2). cbn [rbind]. cbv zeta.
  replace (ts + utcoffset ts - (ts - 86400 + utcoffset (ts - 86400)) - 86400)
    with (utcoffset ts - utcoffset (ts - 86400)) by lia.
  set (shift := utcoffset ts - utcoffset (ts - 86400)) in *.
  destruct (Z.ltb_spec shift 0) as [Hneg | Hpos].
  - destruct (year_ok_dec (ts + shift + utcoffset (ts + shift))) as [H3 | H3];
      [tauto | destruct (to_local_refused (ts + shift) H3) as (e & ->)].
    exists e. reflexivity.
  - exfalso. apply Hout.
    split; [exact Et | split; [exact H1 | split; [exact H2 | intros Hlt; lia]]].
Qed.

Lemma hourly_entry_decoded (it : json) (smp : RawForecastSample) :
  decode it = Some smp ->
  in_range utcoffset smp ->
  hourly_entry utcoffset it = Ok (hourly_of utcoffset smp).
Proof.
  unfold decode, hourly_entry. intros Hdec Hrange.
  destruct (getitem it "dt") as [d | e]; [| discriminate].
  destruct (epoch_seconds d) as [ts |] eqn:Hts; [| discriminate].
  destruct (getitem it "main") as [main | e]; simpl in *; [| discriminate].
  destruct (getitem main "temp") as [t | e]; simpl in *; [| discriminate].
  unfold round_json.
  destruct (num_val t) as [q |]; [| discriminate].
  destruct (getitem it "weather") as [w | e]; simpl in *; [| discriminate].
  destruct (getitem0 w) as [w0 | e]; simpl in *; [| discriminate].
  destruct (getitem w0 "main") as [c | e]; simpl in *; [| discriminate].
  injection Hdec as <-.
  rewrite (fromtimestamp_in_range d (mkSample ts q c) Hts Hrange). cbn [rbind].
  unfold hourly_of, local_hour, local_time, strftime_Ip.
  cbn [timestamp temperature condition].
  rewrite datetime_hour, hour_label by apply hour_bounds. reflexivity.
Qed.

Lemma hourly_entries_decoded (items : list json) (smps : list RawForecastSample) :
  map decode items = map Some smps ->
  Forall (in_range utcoffset) smps ->
  traverse (hourly_entry utcoffset) items = Ok (map (hourly_of utcoffset) smps).
Proof.
  revert smps. induction items as [| it items IH]; intros [| smp smps] Hmap Hr;
    simpl in *; try discriminate.
  - reflexivity.
  - injection Hmap as Hit Hmap. inversion Hr as [| ? ? Hsmp Hr']; subst.
    rewrite (hourly_entry_decoded it smp Hit Hsmp). simpl.
    rewrite (IH smps Hmap Hr'). reflexivity.
Qed.

Lemma hourly_loop_ok (items : list json) (es : list HourlyEntry) :
  traverse (hourly_entry utcoffset) items = Ok es ->
  forall l s,
    hourly_forecast s = Some l ->
    for_each items (hourly_body utcoffset) s
    = (Ok tt, set_hourly_forecast (Some (l ++ es)) s).
Proof.
  revert es. induction items as [| it items IH]; intros es Hes l s Hl; simpl in *.
  - injection Hes as <-. unfold ret. rewrite app_nil_r.
    destruct s; simpl in *; subst; reflexivity.
  - unfold bind, hourly_body at 1, lift, modify.
    destruct (hourly_entry utcoffset it) as [e | x]; simpl in *; [| discriminate].
    destruct (traverse (hourly_entry utcoffset) items) as [es' | x]; simpl in *;
      [| discriminate].
    injection Hes as <-.
    rewrite (IH es' eq_refl (l ++ [e])).
    + unfold append_hourly. rewrite Hl, set_hourly_twice, <- app_assoc. reflexivity.
    + unfold append_hourly. rewrite Hl. reflexivity.
Qed.


(** What follows the first loop leaves the hourly list alone, whether it
    returns or raises. *)
Lemma daily_body_hourly (kv : string * DayGroup) (s : WeatherManager) :
  hourly_forecast (snd (daily_body set_iter kv s)) = hourly_forecast s.
Proof.
  unfold daily_body, bind, lift, modify.
  destruct (daily_entry set_iter (snd kv)); reflexivity.
Qed.

Lemma daily_part_hourly (hourly_list : list json) (s : WeatherManager) :
  hourly_forecast (snd (daily_part utcoffset set_iter hourly_list s))
  = hourly_forecast s.
Proof.
  unfold daily_part, bind, lift, modify.
  destruct (fold_result (daily_step utcoffset) hourly_list []) as [dd | e];
    simpl; [| reflexivity].
  rewrite (for_each_preserves hourly_forecast); [reflexivity |].
  intros kv s'. apply daily_body_hourly.
Qed.

Lemma process_unfold (forecast : json) (items : list json) (s : WeatherManager) :
  truthy forecast = true ->
  json_get forecast "list" (JArr []) = Ok (JArr items) ->
  _process_forecast_data utcoffset set_iter forecast s
  = (for_each (firstn 6 items) (hourly_body utcoffset) ;;
     daily_part utcoffset set_iter (firstn 6 items))
      (set_hourly_forecast (Some []) s).
Proof.
  intros Ht Hget. unfold _process_forecast_data. rewrite Ht. simpl.
  unfold bind at 1, lift at 1. rewrite Hget. simpl.
  unfold bind at 1, lift at 1, modify at 1. unfold bind at 1. reflexivity.
Qed.

(** C6. The hourly list is the first min(6, n) samples in order: each entry
    has the sample's temperature rounded to the nearest integer, its
    condition unchanged, and the hour of its local time on the 12-hour clock
    with AM or PM and no leading zero. *)
Theorem hourly_is_first_six (forecast : json) (items : list json)
    (smps : list RawForecastSample) (s : WeatherManager) :
  truthy forecast = true ->
  json_get forecast "list" (JArr []) = Ok (JArr items) ->
  map decode (firstn 6 items) = map Some smps ->
  Forall (in_range utcoffset) smps ->
  let s' := snd (_process_forecast_data utcoffset set_iter forecast s) in
  hourly_forecast s' = Some (map (hourly_of utcoffset) smps) /\
  List.length (entries (hourly_forecast s')) = Nat.min 6 (List.length items) /\
  Forall2 (fun smp e =>
             h_hour e = label12 (local_hour utcoffset smp) /\
             (Qabs (inject_Z (h_temp e) - temperature smp) <= 1 # 2)%Q /\
             h_condition e = condition smp)
          smps (entries (hourly_forecast s')).
Proof.
  intros Ht Hget Hdec Hrange s'.
  assert (Hs' : hourly_forecast s' = Some (map (hourly_of utcoffset) smps)).
  { subst s'. rewrite (process_unfold forecast items s Ht Hget).
    unfold bind at 1.
    rewrite (hourly_loop_ok (firstn 6 items) _
               (hourly_entries_decoded _ _ Hdec Hrange) []
               (set_hourly_forecast (Some []) s) eq_refl).
    rewrite daily_part_hourly. reflexivity. }
  rewrite Hs'. simpl. repeat split.
  - rewrite length_map.
    rewrite <- (length_map Some smps), <- Hdec, length_map.
    apply length_firstn.
  - clear. induction smps as [| smp l IH]; constructor; [| exact IH].
    simpl. repeat split. apply py_round_nearest.
Qed.

(** *** Grouping by date *)

Lemma date_of_local (smp : RawForecastSample) :
  strftime_Ymd (datetime_of_local (local_time utcoffset smp)) = date_of utcoffset smp.
Proof. reflexivity. Qed.

#[local] Opaque date_of local_time datetime_of_local strftime_a strftime_md py_round.

Lemma decode_fields (it : json) (smp : RawForecastSample) :
  decode it = Some smp ->
  exists d main t w w0,
    getitem it "dt" = Ok d /\ epoch_seconds d = Some (timestamp smp) /\
    getitem it "main" = Ok main /\ getitem main "temp" = Ok t /\
    num_val t = Some (temperature smp) /\
    getitem it "weather" = Ok w /\ getitem0 w = Ok w0 /\
    getitem w0 "main" = Ok (condition smp).
Proof.
  unfold decode. intros Hdec.
  destruct (getitem it "dt") as [d | e]; [| discriminate].
  destruct (epoch_seconds d) as [ts |] eqn:Hts; [| discriminate].
  destruct (getitem it "main") as [main | e]; simpl in *; [| discriminate].
  destruct (getitem main "temp") as [t | e] eqn:Ht; simpl in *; [| discriminate].
  destruct (num_val t) as [q |] eqn:Hq; [| discriminate].
  destruct (getitem it "weather") as [w | e]; simpl in *; [| discriminate].
  destruct (getitem0 w) as [w0 | e] eqn:Hw0; simpl in *; [| discriminate].
  destruct (getitem w0 "main") as [c | e] eqn:Hc; simpl in *; [| discriminate].
  injection Hdec as <-. simpl.
  exists d, main, t, w, w0. repeat split; assumption.
Qed.

Lemma assoc_keys {V : Type} (k : string) (l : list (string * V)) :
  existsb (String.eqb k) (map fst l) = match assoc k l with Some _ => true | None => false end.
Proof.
  induction l as [| [k' v] l IH]; simpl; [reflexivity |].
  destruct (String.eqb k k'); simpl; [reflexivity | exact IH].
Qed.

Lemma assoc_none_notin {V : Type} (k : string) (l : list (string * V)) :
  assoc k l = None -> ~ In k (map fst l).
Proof.
  induction l as [| [k' v] l IH]; simpl; intros Hk; [tauto |].
  destruct (String.eqb k k') eqn:E; [discriminate |].
  apply String.eqb_neq in E. intros [H | H]; [congruence | exact (IH Hk H)].
Qed.

Lemma update_keys {V : Type} (k : string) (f : V -> V) (l : list (string * V)) :
  map fst (update k f l) = map fst l.
Proof.
  induction l as [| [k' v] l IH]; simpl; [reflexivity |].
  destruct (String.eqb k k'); simpl; [reflexivity | f_equal; exact IH].
Qed.

Lemma update_twice {V : Type} (k : string) (f g : V -> V) (l : list (string * V)) :
  update k f (update k g l) = update k (fun v => f (g v)) l.
Proof.
  induction l as [| [k' v] l IH]; simpl; [reflexivity |].
  destruct (String.eqb k k') eqn:E; simpl; rewrite E; [reflexivity |].
  f_equal. exact IH.
Qed.

Lemma update_new {V : Type} (k : string) (f : V -> V) (l : list (string * V)) (v : V) :
  assoc k l = None -> update k f (l ++ [(k, v)]) = l ++ [(k, f v)].
Proof.
  induction l as [| [k' v'] l IH]; simpl; intros Hk.
  - rewrite String.eqb_refl. reflexivity.
  - destruct (String.eqb k k'); [discriminate |]. f_equal. exact (IH Hk).
Qed.

Lemma update_Forall {V : Type} (P Q : string * V -> Prop) (k : string)
    (f : V -> V) (l : list (string * V)) :
  NoDup (map fst l) ->
  (forall v, P (k, v) -> Q (k, f v)) ->
  (forall k' v, k' <> k -> P (k', v) -> Q (k', v)) ->
  Forall P l -> Forall Q (update k f l).
Proof.
  intros Hnd Hhit Hmiss. induction l as [| [k' v] l IH]; simpl; intros HP.
  - constructor.
  - inversion HP as [| ? ? Hhd Htl]; subst. inversion Hnd as [| ? ? Hnotin Hnd']; subst.
    destruct (String.eqb k k') eqn:E.
    + apply String.eqb_eq in E. subst k'. constructor; [apply Hhit; exact Hhd |].
      rewrite Forall_forall in *. intros [k2 v2] Hin. apply Hmiss; [| apply Htl; exact Hin].
      intros ->. apply Hnotin. simpl. apply (in_map fst) in Hin. exact Hin.
    + apply String.eqb_neq in E. constructor.
      * apply Hmiss; [congruence | exact Hhd].
      * apply IH; assumption.
Qed.

Lemma first_seen_from_snoc (seen l : list string) (x : string) :
  first_seen_from seen (l ++ [x])
  = if existsb (String.eqb x) (first_seen_from seen l)
    then first_seen_from seen l
    else first_seen_from seen l ++ [x].
Proof.
  revert seen. induction l as [| y l IH]; intros seen; simpl; [reflexivity |].
  apply IH.
Qed.

Lemma first_seen_from_covers (seen l : list string) (x : string) :
  In x seen \/ In x l -> In x (first_seen_from seen l).
Proof.
  revert seen. induction l as [| y l IH]; intros seen; simpl.
  - tauto.
  - intros Hx. apply IH.
    destruct (existsb (String.eqb y) seen) eqn:E.
    + destruct Hx as [Hx | [-> | Hx]]; [tauto | | tauto].
      left. apply existsb_exists in E. destruct E as [z [Hz Hyz]].
      apply String.eqb_eq in Hyz. subst z. exact Hz.
    + destruct Hx as [Hx | [-> | Hx]]; [| | tauto]; left; apply in_or_app;
        simpl; tauto.
Qed.

Lemma existsb_eqb_false (x : string) (l : list string) :
  existsb (String.eqb x) l = false -> ~ In x l.
Proof.
  intros E Hin. assert (existsb (String.eqb x) l = true); [| congruence].
  apply existsb_exists. exists x. split; [exact Hin | apply String.eqb_refl].
Qed.

Lemma group_samples_snoc (k : string) (p : list RawForecastSample)
    (smp : RawForecastSample) :
  group_samples utcoffset k (p ++ [smp])
  = group_samples utcoffset k p
    ++ (if String.eqb (date_of utcoffset smp) k then [smp] else []).
Proof. unfold group_samples. rewrite filter_app. reflexivity. Qed.

Lemma group_samples_absent (k : string) (p : list RawForecastSample) :
  ~ In k (map (date_of utcoffset) p) -> group_samples utcoffset k p = [].
Proof.
  unfold group_samples. induction p as [| smp p IH]; simpl; intros Hk; [reflexivity |].
  destruct (String.eqb (date_of utcoffset smp) k) eqn:E.
  - apply String.eqb_eq in E. tauto.
  - apply IH. tauto.
Qed.

Lemma all_nums_snoc (l : list json) (qs : list Q) (t : json) (q : Q) :
  all_nums l = Some qs -> num_val t = Some q -> all_nums (l ++ [t]) = Some (qs ++ [q]).
Proof.
  revert qs. induction l as [| x l IH]; simpl; intros qs.
  - intros [= <-] ->. reflexivity.
  - destruct (num_val x) as [y |]; [| discriminate].
    destruct (all_nums l) as [ys |]; [| discriminate].
    intros [= <-] Ht. rewrite (IH ys eq_refl Ht). reflexivity.
Qed.

Lemma daily_step_grouped (dd : list (string * DayGroup)) (p : list RawForecastSample)
    (it : json) (smp : RawForecastSample) :
  grouped utcoffset p dd ->
  decode it = Some smp ->
  in_range utcoffset smp ->
  exists dd', daily_step utcoffset dd it = Ok dd' /\ grouped utcoffset (p ++ [smp]) dd'.
Proof.
  intros (Hnd & Hkeys & Hall) Hdec Hrange.
  destruct (decode_fields it smp Hdec)
    as (d & main & t & w & w0 & Hd & Hts & Hmain & Ht & Hq & Hw & Hw0 & Hc).
  unfold daily_step. rewrite Hd. simpl.
  rewrite (fromtimestamp_in_range d _ Hts Hrange). simpl.
  rewrite Hmain. simpl. rewrite Ht. simpl. rewrite Hw. simpl. rewrite Hw0. simpl.
  rewrite Hc. simpl. eexists. split; [reflexivity |].
  rewrite !date_of_local.
  set (date := date_of utcoffset smp).
  rewrite update_twice.
  unfold grouped, first_seen. rewrite map_app. cbn [map].
  rewrite first_seen_from_snoc.
  change (first_seen_from [] (map (date_of utcoffset) p))
    with (first_seen (map (date_of utcoffset) p)).
  rewrite <- Hkeys. fold date. rewrite assoc_keys.
  destruct (assoc date dd) as [g |] eqn:Hg.
  - rewrite update_keys. repeat split; [exact Hnd |].
    apply (update_Forall (group_holds utcoffset p)); [exact Hnd | | | exact Hall].
    + intros v (Hv1 & Hv2 & first & rest & Hgrp & Hv3).
      unfold group_holds. simpl in *. rewrite group_samples_snoc.
      fold date. rewrite String.eqb_refl, !map_app. simpl. repeat split.
      * apply all_nums_snoc; assumption.
      * rewrite Hv2. reflexivity.
      * exists first, (rest ++ [smp]). rewrite Hgrp. split; [reflexivity | exact Hv3].
    + intros k' v Hk' Hv. unfold group_holds in *. simpl in *.
      rewrite group_samples_snoc. fold date.
      assert (E : String.eqb date k' = false) by (apply String.eqb_neq; congruence).
      rewrite E, app_nil_r. exact Hv.
  - pose proof (assoc_none_notin _ _ Hg) as Hnotin.
    rewrite update_new by exact Hg. rewrite map_app. simpl. repeat split.
    + apply NoDup_app; [exact Hnd | |].
      * constructor; [intros [] | constructor].
      * intros x Hx [<- | []]. exact (Hnotin Hx).
    + apply Forall_app. split.
      * rewrite Forall_forall in *. intros [k' v] Hin.
        specialize (Hall _ Hin). unfold group_holds in *. simpl in *.
        rewrite group_samples_snoc. fold date.
        assert (E : String.eqb date k' = false).
        { apply String.eqb_neq. intros <-. apply Hnotin.
          apply (in_map fst) in Hin. exact Hin. }
        rewrite E, app_nil_r. exact Hall.
      * constructor; [| constructor]. unfold group_holds. simpl.
        rewrite group_samples_snoc. fold date. rewrite String.eqb_refl.
        assert (Hempty : group_samples utcoffset date p = []).
        { apply group_samples_absent. intros Hin. apply Hnotin. rewrite Hkeys.
          apply first_seen_from_covers. right. exact Hin. }
        rewrite Hempty. simpl. rewrite Hq. repeat split.
        exists smp, []. split; reflexivity.
Qed.

Lemma daily_fold_grouped (items : list json) (smps : list RawForecastSample) :
  map decode items = map Some smps ->
  Forall (in_range utcoffset) smps ->
  forall dd p,
    grouped utcoffset p dd ->
    exists dd', fold_result (daily_step utcoffset) items dd = Ok dd' /\
                grouped utcoffset (p ++ smps) dd'.
Proof.
  revert smps. induction items as [| it items IH]; intros [| smp smps] Hmap Hr dd p Hg;
    simpl in *; try discriminate.
  - exists dd. rewrite app_nil_r. split; [reflexivity | exact Hg].
  - injection Hmap as Hit Hmap. inversion Hr as [| ? ? Hsmp Hr']; subst.
    destruct (daily_step_grouped dd p it smp Hg Hit Hsmp) as (dd1 & Hstep & Hg1).
    rewrite Hstep. simpl.
    destruct (IH smps Hmap Hr' dd1 (p ++ [smp]) Hg1) as (dd' & Hfold & Hg').
    exists dd'. split; [exact Hfold |].
    rewrite <- app_assoc in Hg'. exact Hg'.
Qed.

Lemma grouped_nil : grouped utcoffset [] [].
Proof. repeat split; constructor. Qed.

(** *** The dominant condition *)

Lemma max_by_spec {A : Type} (key : A -> nat) (l : list A) (best : A) :
  let m := max_by key best l in
  (forall x, In x (best :: l) -> (key x <= key m)%nat) /\
  exists pre post, best :: l = pre ++ m :: post /\
                   forall y, In y pre -> (key y < key m)%nat.
Proof.
  revert best. induction l as [| x l IH]; intros best; simpl.
  - split.
    + intros y [<- | []]. lia.
    + exists [], []. split; [reflexivity | intros y []].
  - destruct (Nat.ltb_spec (key best) (key x)) as [Hlt | Hge].
    + destruct (IH x) as (Hmax & pre & post & Hsplit & Hpre). split.
      * intros y [<- | Hy]; [| apply Hmax; exact Hy].
        specialize (Hmax x (or_introl eq_refl)). lia.
      * exists (best :: pre), post. split; [simpl; rewrite <- Hsplit; reflexivity |].
        intros y [<- | Hy]; [| apply Hpre; exact Hy].
        specialize (Hmax x (or_introl eq_refl)). lia.
    + destruct (IH best) as (Hmax & pre & post & Hsplit & Hpre). split.
      * intros y [<- | [<- | Hy]].
        -- apply Hmax. left. reflexivity.
        -- specialize (Hmax best (or_introl eq_refl)). lia.
        -- apply Hmax. right. exact Hy.
      * destruct pre as [| b pre]; simpl in Hsplit.
        -- injection Hsplit as Hm Hl. exists [], (x :: post). split.
           ++ simpl. rewrite <- Hm, Hl. reflexivity.
           ++ intros y [].
        -- injection Hsplit as <- Hl. exists (best :: x :: pre), post. split.
           ++ simpl. rewrite <- Hl. reflexivity.
           ++ intros y [<- | [<- | Hy]].
              ** apply Hpre. left. reflexivity.
              ** specialize (Hpre best (or_introl eq_refl)). lia.
              ** apply Hpre. right. exact Hy.
Qed.

Lemma Qeq_bool_cong (a b c : Q) :
  Qeq_bool a b = true -> Qeq_bool c a = Qeq_bool c b.
Proof.
  intros Hab. apply Qeq_bool_iff in Hab.
  destruct (Qeq_bool c a) eqn:Ha; destruct (Qeq_bool c b) eqn:Hb; try reflexivity.
  - apply Qeq_bool_iff in Ha. apply Qeq_bool_neq in Hb. exfalso. apply Hb.
    rewrite Ha. exact Hab.
  - apply Qeq_bool_iff in Hb. apply Qeq_bool_neq in Ha. exfalso. apply Ha.
    rewrite Hb. symmetry. exact Hab.
Qed.

Lemma py_eq_scalar_refl (x : json) : hashable x = true -> py_eq x x = true.
Proof.
  destruct x; simpl; try discriminate; intros _; try reflexivity.
  - apply Qeq_bool_iff. reflexivity.
  - apply Qeq_bool_iff. reflexivity.
  - apply Qeq_bool_iff. reflexivity.
  - apply String.eqb_refl.
Qed.

Lemma py_eq_scalar_cong (x y z : json) :
  hashable x = true -> hashable y = true -> hashable z = true ->
  py_eq x y = true -> py_eq z x = py_eq z y.
Proof.
  destruct x, y; simpl; try discriminate; intros _ _ Hz Hxy;
    destruct z; simpl in *; try discriminate; try reflexivity;
    try (apply Qeq_bool_cong; exact Hxy).
  apply String.eqb_eq in Hxy. subst. reflexivity.
Qed.

Lemma count_equal (l : list json) (x y : json) :
  forallb hashable l = true -> hashable x = true -> hashable y = true ->
  py_eq x y = true -> count l x = count l y.
Proof.
  intros Hl Hx Hy Hxy. unfold count. f_equal.
  induction l as [| z l IH]; simpl in *; [reflexivity |].
  apply andb_true_iff in Hl. destruct Hl as [Hz Hl].
  rewrite (py_eq_scalar_cong x y z Hx Hy Hz Hxy), (IH Hl). reflexivity.
Qed.

Lemma dominant_spec (conds : list json) :
  set_order set_iter ->
  conds <> [] ->
  forallb hashable conds = true ->
  exists c,
    dominant set_iter conds = Ok c /\
    In c conds /\
    (forall x, In x conds -> (count conds x <= count conds c)%nat) /\
    exists pre post,
      set_iter conds = pre ++ c :: post /\
      forall y, In y pre -> (count conds y < count conds c)%nat.
Proof.
  intros Hset Hne Hh. unfold dominant. rewrite Hh.
  destruct (Hset conds Hh) as [Hsub Hcover].
  rewrite forallb_forall in Hh.
  destruct (set_iter conds) as [| b rest] eqn:Hiter.
  - destruct conds as [| x conds]; [congruence |].
    destruct (Hcover x (or_introl eq_refl)) as (y & [] & _).
  - simpl. destruct (max_by_spec (count conds) rest b) as (Hmax & pre & post & Hsplit & Hpre).
    set (m := max_by (count conds) b rest) in *.
    assert (Hm : In m (b :: rest)).
    { rewrite Hsplit. apply in_or_app. right. left. reflexivity. }
    exists m. repeat split.
    + apply Hsub. exact Hm.
    + intros x Hx. destruct (Hcover x Hx) as (y & Hy & Hxy).
      rewrite (count_equal conds x y); [apply Hmax; exact Hy | | | | exact Hxy].
      * apply forallb_forall. exact Hh.
      * apply Hh. exact Hx.
      * apply Hh. apply Hsub. exact Hy.
    + exists pre, post. split; [exact Hsplit | exact Hpre].
Qed.

(** *** The daily summaries *)

Lemma daily_entry_ok (p : list RawForecastSample) (kv : string * DayGroup) :
  set_order set_iter ->
  usable utcoffset p (fst kv) ->
  group_holds utcoffset p kv ->
  exists e, daily_entry set_iter (snd kv) = Ok e /\
            day_summary utcoffset set_iter p (fst kv) e.
Proof.
  intros Hset Hhash (Htemps & Hconds & first & rest & Hgrp & Hdate).
  unfold daily_entry, round_max, round_min.
  rewrite Htemps, Hconds, Hgrp. simpl map at 1 2.
  assert (Hh : forallb hashable (map condition (first :: rest)) = true).
  { rewrite <- Hgrp. apply forallb_forall. intros c Hc.
    apply in_map_iff in Hc. destruct Hc as (smp & <- & Hsmp).
    unfold usable in Hhash. rewrite Forall_forall in Hhash. apply Hhash. exact Hsmp. }
  destruct (dominant_spec (map condition (first :: rest)) Hset) as (c & Hc & _);
    [discriminate | exact Hh |].
  cbn [rbind]. rewrite Hc. cbn [rbind].
  eexists. split; [reflexivity |].
  exists first, rest. simpl. rewrite Hdate. repeat split; try assumption.
Qed.

Lemma traverse_Forall {A B : Type} (f : A -> result B) (R : A -> B -> Prop)
    (l : list A) :
  Forall (fun x => exists y, f x = Ok y /\ R x y) l ->
  exists ys, traverse f l = Ok ys /\ Forall2 R l ys.
Proof.
  induction 1 as [| x l (y & Hy & HR) _ (ys & Hys & HRs)]; simpl.
  - exists []. split; [reflexivity | constructor].
  - exists (y :: ys). rewrite Hy, Hys. split; [reflexivity | constructor; assumption].
Qed.

Lemma Forall2_map_l {A B C : Type} (g : A -> C) (R : C -> B -> Prop)
    (l : list A) (ys : list B) :
  Forall2 (fun x y => R (g x) y) l ys -> Forall2 R (map g l) ys.
Proof. induction 1; simpl; constructor; assumption. Qed.

Lemma daily_loop_ok (groups : list (string * DayGroup)) (es : list DailyEntry) :
  traverse (fun kv => daily_entry set_iter (snd kv)) groups = Ok es ->
  forall l s,
    daily_forecast s = Some l ->
    for_each groups (daily_body set_iter) s
    = (Ok tt, set_daily_forecast (Some (l ++ es)) s).
Proof.
  revert es. induction groups as [| kv groups IH]; intros es Hes l s Hl; simpl in *.
  - injection Hes as <-. unfold ret. rewrite app_nil_r.
    destruct s; simpl in *; subst; reflexivity.
  - unfold bind, daily_body at 1, lift, modify.
    destruct (daily_entry set_iter (snd kv)) as [e | x]; simpl in *; [| discriminate].
    destruct (traverse (fun kv => daily_entry set_iter (snd kv)) groups)
      as [es' | x]; simpl in *; [| discriminate].
    injection Hes as <-.
    rewrite (IH es' eq_refl (l ++ [e])).
    + unfold append_daily. rewrite Hl, set_daily_twice, <- app_assoc. reflexivity.
    + unfold append_daily. rewrite Hl. reflexivity.
Qed.

(** The daily list built from well-formed items: one summary for each of the
    first three dates, in the order the dates are first seen; it does not
    depend on what the manager held before. *)
Lemma daily_part_ok (items : list json) (smps : list RawForecastSample) :
  set_order set_iter ->
  map decode items = map Some smps ->
  Forall (in_range utcoffset) smps ->
  Forall (fun smp => hashable (condition smp) = true) smps ->
  exists ds,
    (forall s, daily_part utcoffset set_iter items s
               = (Ok tt, set_daily_forecast (Some ds) s)) /\
    Forall2 (day_summary utcoffset set_iter smps)
            (firstn 3 (first_seen (map (date_of utcoffset) smps))) ds.
Proof.
  intros Hset Hdec Hrange Hhash.
  destruct (daily_fold_grouped items smps Hdec Hrange [] [] grouped_nil)
    as (dd & Hfold & Hnd & Hkeys & Hall).
  simpl in Hkeys, Hall.
  assert (Hfirst : Forall (fun kv => exists e,
                      daily_entry set_iter (snd kv) = Ok e /\
                      day_summary utcoffset set_iter smps (fst kv) e)
                     (firstn 3 dd)).
  { apply Forall_forall. intros kv Hin. apply daily_entry_ok; try assumption.
    - unfold usable, group_samples. rewrite Forall_forall in *. intros smp Hsmp.
      apply filter_In in Hsmp. apply Hhash. tauto.
    - rewrite Forall_forall in Hall. apply Hall. eapply In_firstn. exact Hin. }
  destruct (traverse_Forall _ _ _ Hfirst) as (ds & Hds & Hsum).
  exists ds. split.
  - intros s. unfold daily_part, bind, lift, modify. rewrite Hfold. cbv beta iota.
    rewrite (daily_loop_ok _ _ Hds [] (set_daily_forecast (Some []) s) eq_refl).
    reflexivity.
  - rewrite <- Hkeys, firstn_map. apply Forall2_map_l. exact Hsum.
Qed.

(** On well-formed items the whole aggregation returns, with both lists. *)
Lemma process_ok (forecast : json) (items : list json)
    (smps : list RawForecastSample) :
  set_order set_iter ->
  truthy forecast = true ->
  json_get forecast "list" (JArr []) = Ok (JArr items) ->
  map decode (firstn 6 items) = map Some smps ->
  Forall (in_range utcoffset) smps ->
  Forall (fun smp => hashable (condition smp) = true) smps ->
  exists ds,
    (forall s,
       _process_forecast_data utcoffset set_iter forecast s
       = (Ok tt, set_daily_forecast (Some ds)
                   (set_hourly_forecast (Some (map (hourly_of utcoffset) smps)) s))) /\
    Forall2 (day_summary utcoffset set_iter smps)
            (firstn 3 (first_seen (map (date_of utcoffset) smps))) ds.
Proof.
  intros Hset Ht Hget Hdec Hrange Hhash.
  destruct (daily_part_ok (firstn 6 items) smps Hset Hdec Hrange Hhash)
    as (ds & Hpart & Hsum).
  exists ds. split; [| exact Hsum].
  intros s. rewrite (process_unfold forecast items s Ht Hget).
  unfold bind at 1.
  rewrite (hourly_loop_ok (firstn 6 items) _
             (hourly_entries_decoded _ _ Hdec Hrange) []
             (set_hourly_forecast (Some []) s) eq_refl).
  rewrite set_hourly_twice. simpl app. apply Hpart.
Qed.

(** A sample that does not decode stops the first loop with an exception. *)
Lemma hourly_entry_undecoded (it : json) :
  decode it = None -> exists e, hourly_entry utcoffset it = Raise e.
Proof.
  unfold decode, hourly_entry, round_json. intros Hdec.
  destruct (getitem it "dt") as [d | e]; simpl; [| eauto].
  destruct (fromtimestamp utcoffset d) as [dt | e] eqn:Hdt; simpl; [| eauto].
  destruct (epoch_seconds d) as [ts |] eqn:Hts;
    [| unfold fromtimestamp in Hdt; rewrite Hts in Hdt; discriminate].
  destruct (getitem it "main") as [main | e]; simpl in *; [| eauto].
  destruct (getitem main "temp") as [t | e]; simpl in *; [| eauto].
  destruct (num_val t) as [q |]; simpl; [| eauto].
  destruct (getitem it "weather") as [w | e]; simpl in *; [| eauto].
  destruct (getitem0 w) as [w0 | e]; simpl in *; [| eauto].
  destruct (getitem w0 "main") as [c | e]; simpl in *; [discriminate | eauto].
Qed.

(** *** Where the aggregation stops *)

Lemma hourly_body_run (it : json) (s : WeatherManager) :
  hourly_body utcoffset it s
  = match hourly_entry utcoffset it with
    | Ok e => (Ok tt, append_hourly e s)
    | Raise x => (Raise x, s)
    end.
Proof.
  unfold hourly_body, bind, lift, modify.
  destruct (hourly_entry utcoffset it); reflexivity.
Qed.

Lemma daily_body_run (kv : string * DayGroup) (s : WeatherManager) :
  daily_body set_iter kv s
  = match daily_entry set_iter (snd kv) with
    | Ok e => (Ok tt, append_daily e s)
    | Raise x => (Raise x, s)
    end.
Proof.
  unfold daily_body, bind, lift, modify.
  destruct (daily_entry set_iter (snd kv)); reflexivity.
Qed.

Lemma hourly_entry_out_of_range (it : json) (smp : RawForecastSample) :
  decode it = Some smp ->
  ~ in_range utcoffset smp ->
  exists e, hourly_entry utcoffset it = Raise e.
Proof.
  intros Hdec Hout.
  destruct (decode_fields it smp Hdec) as (d & main & t & w & w0 & Hd & Hts & _).
  destruct (fromtimestamp_out_of_range d smp Hts Hout) as (e & He).
  exists e. unfold hourly_entry. rewrite Hd. cbn [rbind]. rewrite He. reflexivity.
Qed.

Lemma hourly_entry_malformed (it : json) :
  malformed utcoffset it -> exists e, hourly_entry utcoffset it = Raise e.
Proof.
  intros Hbad. destruct (decode it) as [smp |] eqn:Hdec.
  - apply (hourly_entry_out_of_range it smp Hdec). apply Hbad. exact Hdec.
  - apply hourly_entry_undecoded. exact Hdec.
Qed.

(** The first loop on items of which the first bad one comes after [good]:
    the entries of [good] have been appended when it raises. *)
Lemma hourly_loop_stops_at (good : list json) (bad : json) (rest : list json)
    (smps : list RawForecastSample) (e : exn) :
  map decode good = map Some smps ->
  Forall (in_range utcoffset) smps ->
  hourly_entry utcoffset bad = Raise e ->
  forall l s,
    hourly_forecast s = Some l ->
    for_each (good ++ bad :: rest) (hourly_body utcoffset) s
    = (Raise e, set_hourly_forecast (Some (l ++ map (hourly_of utcoffset) smps)) s).
Proof.
  revert smps. induction good as [| it good IH]; intros [| smp smps] Hdec Hr Hbad l s Hl;
    try discriminate.
  - cbn [app for_each map]. unfold bind. rewrite hourly_body_run, Hbad.
    rewrite app_nil_r. destruct s; cbn in *; subst; reflexivity.
  - cbn [map] in Hdec. injection Hdec as Hit Hdec.
    inversion Hr as [| ? ? Hsmp Hr']; subst.
    cbn [app for_each map]. unfold bind.
    rewrite hourly_body_run, (hourly_entry_decoded it smp Hit Hsmp).
    rewrite (IH smps Hdec Hr' Hbad (l ++ [hourly_of utcoffset smp])
               (append_hourly (hourly_of utcoffset smp) s)).
    + unfold append_hourly. rewrite Hl, set_hourly_twice, <- app_assoc. reflexivity.
    + unfold append_hourly. rewrite Hl. reflexivity.
Qed.

(** The aggregation on a payload whose first bad item comes after [good]. *)
Lemma process_stops_at (forecast : json) (items good : list json) (bad : json)
    (rest : list json) (smps : list RawForecastSample) :
  truthy forecast = true ->
  json_get forecast "list" (JArr []) = Ok (JArr items) ->
  firstn 6 items = good ++ bad :: rest ->
  map decode good = map Some smps ->
  Forall (in_range utcoffset) smps ->
  malformed utcoffset bad ->
  exists e, forall s,
    _process_forecast_data utcoffset set_iter forecast s
    = (Raise e, set_hourly_forecast (Some (map (hourly_of utcoffset) smps)) s).
Proof.
  intros Ht Hget Hsplit Hdec Hr Hbad.
  destruct (hourly_entry_malformed bad Hbad) as (e & He). exists e. intros s.
  rewrite (process_unfold forecast items s Ht Hget), Hsplit. unfold bind at 1.
  rewrite (hourly_loop_stops_at good bad rest smps e Hdec Hr He []
             (set_hourly_forecast (Some []) s) eq_refl).
  rewrite set_hourly_twice. reflexivity.
Qed.

Lemma usable_forallb (p : list RawForecastSample) (k : string) :
  forallb hashable (map condition (group_samples utcoffset k p)) = true
  <-> usable utcoffset p k.
Proof.
  unfold usable. rewrite forallb_forall, Forall_forall. split.
  - intros Hall smp Hsmp. apply Hall. apply in_map. exact Hsmp.
  - intros Hall c Hc. apply in_map_iff in Hc. destruct Hc as (smp & <- & Hsmp).
    apply Hall. exact Hsmp.
Qed.

Lemma hashable_usable (p : list RawForecastSample) (k : string) :
  Forall (fun smp => hashable (condition smp) = true) p -> usable utcoffset p k.
Proof.
  unfold usable, group_samples. rewrite !Forall_forall. intros Hall smp Hsmp.
  apply filter_In in Hsmp. apply Hall. tauto.
Qed.

Lemma usable_dec (p : list RawForecastSample) (k : string) :
  usable utcoffset p k \/ ~ usable utcoffset p k.
Proof.
  rewrite <- usable_forallb.
  destruct (forallb hashable (map condition (group_samples utcoffset k p)));
    [left; reflexivity | right; discriminate].
Qed.

(** A group with a condition that cannot go into a set stops the third
    loop: the two extremes are computed, then [set(...)] is a [TypeError]. *)
Lemma daily_entry_unusable (p : list RawForecastSample) (kv : string * DayGroup) :
  group_holds utcoffset p kv ->
  ~ usable utcoffset p (fst kv) ->
  daily_entry set_iter (snd kv) = Raise TypeError.
Proof.
  intros (Htemps & Hconds & first & rest & Hgrp & Hdate) Hnot.
  rewrite <- usable_forallb in Hnot.
  unfold daily_entry, round_max, round_min, dominant.
  rewrite Htemps, Hconds, Hgrp in *. cbn [map rbind].
  destruct (forallb hashable (condition first :: map condition rest)) eqn:E;
    [| reflexivity].
  exfalso. apply Hnot. exact E.
Qed.

Lemma daily_loop_stops_at (good : list (string * DayGroup)) (bad : string * DayGroup)
    (rest : list (string * DayGroup)) (es : list DailyEntry) (e : exn) :
  traverse (fun kv => daily_entry set_iter (snd kv)) good = Ok es ->
  daily_entry set_iter (snd bad) = Raise e ->
  forall l s,
    daily_forecast s = Some l ->
    for_each (good ++ bad :: rest) (daily_body set_iter) s
    = (Raise e, set_daily_forecast (Some (l ++ es)) s).
Proof.
  revert es. induction good as [| kv good IH]; intros es Hes Hbad l s Hl;
    cbn [traverse] in Hes.
  - injection Hes as <-. cbn [app for_each]. unfold bind.
    rewrite daily_body_run, Hbad. rewrite app_nil_r.
    destruct s; cbn in *; subst; reflexivity.
  - destruct (daily_entry set_iter (snd kv)) as [e1 | x] eqn:He1; cbn [rbind] in Hes;
      [| discriminate].
    destruct (traverse (fun kv => daily_entry set_iter (snd kv)) good) as [es' | x];
      cbn [rbind] in Hes; [| discriminate].
    injection Hes as <-.
    cbn [app for_each]. unfold bind. rewrite daily_body_run, He1.
    rewrite (IH es' eq_refl Hbad (l ++ [e1]) (append_daily e1 s)).
    + unfold append_daily. rewrite Hl, set_daily_twice, <- app_assoc. reflexivity.
    + unfold append_daily. rewrite Hl. reflexivity.
Qed.

(** The groups that the second loop builds from well-formed items. *)
Lemma daily_groups (items : list json) (smps : list RawForecastSample) :
  map decode items = map Some smps ->
  Forall (in_range utcoffset) smps ->
  exists dd,
    fold_result (daily_step utcoffset) items [] = Ok dd /\
    map fst (firstn 3 dd) = summarised utcoffset smps /\
    Forall (group_holds utcoffset smps) (firstn 3 dd).
Proof.
  intros Hdec Hrange.
  destruct (daily_fold_grouped items smps Hdec Hrange [] [] grouped_nil)
    as (dd & Hfold & Hnd & Hkeys & Hall).
  cbn [app] in Hkeys, Hall.
  exists dd. split; [exact Hfold |]. split.
  - unfold summarised. rewrite <- Hkeys. symmetry. apply firstn_map.
  - apply Forall_forall. intros kv Hin. rewrite Forall_forall in Hall.
    apply Hall. eapply In_firstn. exact Hin.
Qed.

Lemma daily_entries_usable (p : list RawForecastSample)
    (groups : list (string * DayGroup)) :
  set_order set_iter ->
  Forall (group_holds utcoffset p) groups ->
  Forall (usable utcoffset p) (map fst groups) ->
  exists ds,
    traverse (fun kv => daily_entry set_iter (snd kv)) groups = Ok ds /\
    Forall2 (day_summary utcoffset set_iter p) (map fst groups) ds.
Proof.
  intros Hset Hholds Huse.
  assert (Hall : Forall (fun kv => exists e,
                    daily_entry set_iter (snd kv) = Ok e /\
                    day_summary utcoffset set_iter p (fst kv) e) groups).
  { apply Forall_forall. intros kv Hin. rewrite Forall_forall in Hholds, Huse.
    apply daily_entry_ok; [exact Hset | | apply Hholds; exact Hin].
    apply Huse. apply in_map. exact Hin. }
  destruct (traverse_Forall _ _ _ Hall) as (ds & Hds & Hsum).
  exists ds. split; [exact Hds |]. apply Forall2_map_l. exact Hsum.
Qed.

(** The second half on well-formed items whose first three dates have
    conditions that can go into a set. *)
Lemma daily_part_usable (items : list json) (smps : list RawForecastSample) :
  set_order set_iter ->
  map decode items = map Some smps ->
  Forall (in_range utcoffset) smps ->
  Forall (usable utcoffset smps) (summarised utcoffset smps) ->
  exists ds,
    (forall s, daily_part utcoffset set_iter items s
               = (Ok tt, set_daily_forecast (Some ds) s)) /\
    Forall2 (day_summary utcoffset set_iter smps) (summarised utcoffset smps) ds.
Proof.
  intros Hset Hdec Hrange Huse.
  destruct (daily_groups items smps Hdec Hrange) as (dd & Hfold & Hkeys & Hholds).
  rewrite <- Hkeys in Huse.
  destruct (daily_entries_usable smps (firstn 3 dd) Hset Hholds Huse)
    as (ds & Hds & Hsum).
  exists ds. split.
  - intros s. unfold daily_part, bind, lift, modify. rewrite Hfold. cbv beta iota.
    rewrite (daily_loop_ok _ _ Hds [] (set_daily_forecast (Some []) s) eq_refl).
    reflexivity.
  - rewrite <- Hkeys. exact Hsum.
Qed.

(** The second half when the first date with an unusable condition comes
    after the dates [gd]: the entries of [gd] are in the list when the loop
    raises. *)
Lemma daily_part_stops_at (items : list json) (smps : list RawForecastSample)
    (gd : list string) (bd : string) (rd : list string) :
  set_order set_iter ->
  map decode items = map Some smps ->
  Forall (in_range utcoffset) smps ->
  summarised utcoffset smps = gd ++ bd :: rd ->
  Forall (usable utcoffset smps) gd ->
  ~ usable utcoffset smps bd ->
  exists ds,
    (forall s, daily_part utcoffset set_iter items s
               = (Raise TypeError, set_daily_forecast (Some ds) s)) /\
    Forall2 (day_summary utcoffset set_iter smps) gd ds.
Proof.
  intros Hset Hdec Hrange Hsplit Hgood Hbad.
  destruct (daily_groups items smps Hdec Hrange) as (dd & Hfold & Hkeys & Hholds).
  rewrite Hsplit in Hkeys.
  apply map_eq_app in Hkeys. destruct Hkeys as (gg & tl & Hdd & Hgg & Htl).
  apply map_eq_cons in Htl. destruct Htl as (bg & rg & -> & Hbg & Hrg).
  rewrite Hdd in Hholds. apply Forall_app in Hholds. destruct Hholds as [Hhg Hhb].
  pose proof (Forall_inv Hhb) as Hhbg.
  rewrite <- Hbg in Hbad.
  destruct (daily_entries_usable smps gg Hset Hhg) as (ds & Hds & Hsum).
  { rewrite Hgg. exact Hgood. }
  rewrite Hgg in Hsum.
  exists ds. split.
  - intros s. unfold daily_part, bind, lift, modify. rewrite Hfold. cbv beta iota.
    rewrite Hdd.
    rewrite (daily_loop_stops_at gg bg rg ds TypeError Hds
               (daily_entry_unusable smps bg Hhbg Hbad) []
               (set_daily_forecast (Some []) s) eq_refl).
    reflexivity.
  - exact Hsum.
Qed.

(** The whole aggregation in the two cases. *)
Lemma process_usable (forecast : json) (items : list json)
    (smps : list RawForecastSample) :
  set_order set_iter ->
  truthy forecast = true ->
  json_get forecast "list" (JArr []) = Ok (JArr items) ->
  map decode (firstn 6 items) = map Some smps ->
  Forall (in_range utcoffset) smps ->
  Forall (usable utcoffset smps) (summarised utcoffset smps) ->
  exists ds,
    (forall s,
       _process_forecast_data utcoffset set_iter forecast s
       = (Ok tt, set_daily_forecast (Some ds)
                   (set_hourly_forecast (Some (map (hourly_of utcoffset) smps)) s))) /\
    Forall2 (day_summary utcoffset set_iter smps) (summarised utcoffset smps) ds.
Proof.
  intros Hset Ht Hget Hdec Hrange Huse.
  destruct (daily_part_usable (firstn 6 items) smps Hset Hdec Hrange Huse)
    as (ds & Hpart & Hsum).
  exists ds. split; [| exact Hsum].
  intros s. rewrite (process_unfold forecast items s Ht Hget).
  unfold bind at 1.
  rewrite (hourly_loop_ok (firstn 6 items) _
             (hourly_entries_decoded _ _ Hdec Hrange) []
             (set_hourly_forecast (Some []) s) eq_refl).
  rewrite set_hourly_twice. cbn [app]. apply Hpart.
Qed.

Lemma process_stops_in_daily (forecast : json) (items : list json)
    (smps : list RawForecastSample) (gd : list string) (bd : string)
    (rd : list string) :
  set_order set_iter ->
  truthy forecast = true ->
  json_get forecast "list" (JArr []) = Ok (JArr items) ->
  map decode (firstn 6 items) = map Some smps ->
  Forall (in_range utcoffset) smps ->
  summarised utcoffset smps = gd ++ bd :: rd ->
  Forall (usable utcoffset smps) gd ->
  ~ usable utcoffset smps bd ->
  exists ds,
    (forall s,
       _process_forecast_data utcoffset set_iter forecast s
       = (Raise TypeError,
          set_daily_forecast (Some ds)
            (set_hourly_forecast (Some (map (hourly_of utcoffset) smps)) s))) /\
    Forall2 (day_summary utcoffset set_iter smps) gd ds.
Proof.
  intros Hset Ht Hget Hdec Hrange Hsplit Hgood Hbad.
  destruct (daily_part_stops_at (firstn 6 items) smps gd bd rd Hset Hdec Hrange
              Hsplit Hgood Hbad) as (ds & Hpart & Hsum).
  exists ds. split; [| exact Hsum].
  intros s. rewrite (process_unfold forecast items s Ht Hget).
  unfold bind at 1.
  rewrite (hourly_loop_ok (firstn 6 items) _
             (hourly_entries_decoded _ _ Hdec Hrange) []
             (set_hourly_forecast (Some []) s) eq_refl).
  rewrite set_hourly_twice. cbn [app]. apply Hpart.
Qed.

(** Every list of items either decodes to samples in range, or has a first
    item that is not a well-formed sample. *)
Lemma first_malformed (items : list json) :
  (exists smps,
     map decode items = map Some smps /\ Forall (in_range utcoffset) smps) \/
  (exists good bad rest smps,
     items = good ++ bad :: rest /\
     map decode good = map Some smps /\ Forall (in_range utcoffset) smps /\
     malformed utcoffset bad).
Proof.
  induction items as [| it items IH].
  - left. exists []. split; [reflexivity | constructor].
  - destruct (decode it) as [smp |] eqn:Hdec.
    + destruct (in_range_dec smp) as [Hin | Hout].
      * destruct IH as [(smps & Hd & Hr) | (good & bad & rest & smps & -> & Hd & Hr & Hb)].
        -- left. exists (smp :: smps). cbn [map]. rewrite Hdec, Hd.
           split; [reflexivity | constructor; assumption].
        -- right. exists (it :: good), bad, rest, (smp :: smps). cbn [map app].
           rewrite Hdec, Hd. repeat split; [constructor; assumption | exact Hb].
      * right. exists [], it, items, []. repeat split; [constructor |].
        intros smp' Hsmp'. rewrite Hdec in Hsmp'. injection Hsmp' as <-. exact Hout.
    + right. exists [], it, items, []. repeat split; [constructor |].
      intros smp' Hsmp'. rewrite Hdec in Hsmp'. discriminate.
Qed.

Lemma first_unusable (p : list RawForecastSample) (ks : list string) :
  Forall (usable utcoffset p) ks \/
  exists gd bd rd,
    ks = gd ++ bd :: rd /\ Forall (usable utcoffset p) gd /\ ~ usable utcoffset p bd.
Proof.
  induction ks as [| k ks IH].
  - left. constructor.
  - destruct (usable_dec p k) as [Hk | Hk].
    + destruct IH as [Hall | (gd & bd & rd & -> & Hgd & Hbd)].
      * left. constructor; assumption.
      * right. exists (k :: gd), bd, rd.
        split; [reflexivity |]. split; [constructor; assumption | exact Hbd].
    + right. exists [], k, ks. split; [reflexivity |]. split; [constructor | exact Hk].
Qed.

(** A payload whose first six items are not all usable makes the aggregation
    raise, from whatever state, having touched the two lists only. *)
Lemma process_ill_formed (forecast : json) (items : list json) :
  set_order set_iter ->
  truthy forecast = true ->
  json_get forecast "list" (JArr []) = Ok (JArr items) ->
  ~ well_formed utcoffset (firstn 6 items) ->
  exists e after,
    (forall s, _process_forecast_data utcoffset set_iter forecast s = (Raise e, after s)) /\
    (forall s, strip (after s) = strip s).
Proof.
  intros Hset Ht Hget Hill.
  destruct (first_malformed (firstn 6 items))
    as [(smps & Hdec & Hrange) | (good & bad & rest & smps & Hsplit & Hdec & Hrange & Hbad)].
  - destruct (first_unusable smps (summarised utcoffset smps))
      as [Hall | (gd & bd & rd & Hsplit & Hgd & Hbd)].
    + exfalso. apply Hill. exists smps. repeat split; assumption.
    + destruct (process_stops_in_daily forecast items smps gd bd rd Hset Ht Hget Hdec
                  Hrange Hsplit Hgd Hbd) as (ds & Hrun & _).
      exists TypeError. eexists. split; [exact Hrun | reflexivity].
  - destruct (process_stops_at forecast items good bad rest smps Ht Hget Hsplit Hdec
                Hrange Hbad) as (e & Hrun).
    exists e. eexists. split; [exact Hrun | reflexivity].
Qed.

(** *** Claims on the aggregation *)

(** C3, as the code has it. For every daily group, the dominant condition is
    one of the group's conditions and no condition of the group occurs more
    often; among equally frequent ones it is the one that comes first when
    the set of the group's conditions is iterated, an order the interpreter
    fixes and the order of the samples does not. Given that order, the daily
    list is a function of the raw input alone: it is the same whatever the
    manager held before. *)
Theorem dominant_is_most_frequent (forecast : json) (items : list json)
    (smps : list RawForecastSample) :
  set_order set_iter ->
  truthy forecast = true ->
  json_get forecast "list" (JArr []) = Ok (JArr items) ->
  map decode (firstn 6 items) = map Some smps ->
  Forall (in_range utcoffset) smps ->
  Forall (fun smp => hashable (condition smp) = true) smps ->
  exists ds,
    (forall s,
       daily_forecast (snd (_process_forecast_data utcoffset set_iter forecast s))
       = Some ds) /\
    Forall2
      (fun k e =>
         let conds := map condition (group_samples utcoffset k smps) in
         In (d_condition e) conds /\
         (forall x, In x conds -> (count conds x <= count conds (d_condition e))%nat) /\
         exists pre post,
           set_iter conds = pre ++ d_condition e :: post /\
           forall y, In y pre -> (count conds y < count conds (d_condition e))%nat)
      (firstn 3 (first_seen (map (date_of utcoffset) smps))) ds.
Proof.
  intros Hset Ht Hget Hdec Hrange Hhash.
  destruct (process_ok forecast items smps Hset Ht Hget Hdec Hrange Hhash)
    as (ds & Hrun & Hsum).
  exists ds. split.
  - intros s. rewrite Hrun. reflexivity.
  - eapply Forall2_impl; [| exact Hsum].
    intros k e (first & rest & Hgrp & _ & _ & _ & _ & Hdom). cbv zeta.
    rewrite Hgrp.
    assert (Hh : forallb hashable (map condition (first :: rest)) = true).
    { rewrite <- Hgrp. apply forallb_forall. intros c Hc.
      apply in_map_iff in Hc. destruct Hc as (smp & <- & Hsmp).
      unfold group_samples in Hsmp. apply filter_In in Hsmp.
      rewrite Forall_forall in Hhash. apply Hhash. tauto. }
    destruct (dominant_spec (map condition (first :: rest)) Hset) as (c & Hc & Hrest);
      [discriminate | exact Hh |].
    rewrite Hdom in Hc. injection Hc as <-. exact Hrest.
Qed.

(** ** Fetching *)

(** *** What a computation leaves unchanged *)

Section Within.

Context {S : Type} (R : S -> S -> Prop).
Hypothesis R_refl : forall s, R s s.
Hypothesis R_trans : forall a b c, R a b -> R b c -> R a c.

Lemma within_ret {A} (a : A) : within R (ret a).
Proof. intros s. apply R_refl. Qed.

Lemma within_raise {A} (e : exn) : within R (@raise S A e).
Proof. intros s. apply R_refl. Qed.

Lemma within_lift {A} (r : result A) : within R (lift r).
Proof. intros s. apply R_refl. Qed.

Lemma within_gets {A} (f : S -> A) : within R (gets f).
Proof. intros s. apply R_refl. Qed.

Lemma within_modify (f : S -> S) : (forall s, R s (f s)) -> within R (modify f).
Proof. intros Hf s. apply Hf. Qed.

Lemma within_bind {A B} (c : M S A) (k : A -> M S B) :
  within R c -> (forall a, within R (k a)) -> within R (bind c k).
Proof.
  intros Hc Hk s. unfold bind. specialize (Hc s).
  destruct (c s) as [[a | e] s1]; simpl in *; [| exact Hc].
  eapply R_trans; [exact Hc | apply Hk].
Qed.

Lemma within_try_except {A} (c : M S A) (h : exn -> M S A) :
  within R c -> (forall e, within R (h e)) -> within R (try_except c h).
Proof.
  intros Hc Hh s. unfold try_except. specialize (Hc s).
  destruct (c s) as [[a | e] s1]; simpl in *; [exact Hc |].
  eapply R_trans; [exact Hc | apply Hh].
Qed.

Lemma within_for_each {A} (l : list A) (body : A -> M S unit) :
  (forall x, within R (body x)) -> within R (for_each l body).
Proof.
  intros Hbody. induction l as [| x l IH]; simpl.
  - apply within_ret.
  - apply within_bind; [apply Hbody | intros _; exact IH].
Qed.

End Within.

Ltac within_steps :=
  repeat
    (cbv beta;
     match goal with
     | |- within _ (ret _) => apply within_ret
     | |- within _ (raise _) => apply within_raise
     | |- within _ (lift _) => apply within_lift
     | |- within _ (gets _) => apply within_gets
     | |- within _ (bind _ _) => apply within_bind; [| | intro]
     | |- within _ (try_except _ _) => apply within_try_except; [| | intro]
     | |- within _ (for_each _ _) => apply within_for_each; [| | intro]
     | |- within _ (if ?b then _ else _) => destruct b
     | |- forall s, ?R s s => solve [auto]
     | |- forall a b c, ?R a b -> ?R b c -> ?R a c => solve [eauto]
     end).

Lemma only_lists_refl (s : WeatherManager) : only_lists s s.
Proof. reflexivity. Qed.

Lemma only_lists_trans (a b c : WeatherManager) :
  only_lists a b -> only_lists b c -> only_lists a c.
Proof. unfold only_lists. congruence. Qed.

Lemma same_view_refl (s : WeatherManager) : same_view s s.
Proof. repeat split. Qed.

Lemma same_view_trans (a b c : WeatherManager) :
  same_view a b -> same_view b c -> same_view a c.
Proof. unfold same_view. intuition congruence. Qed.

Lemma quiet_refl (s : WeatherManager) : quiet s s.
Proof. exists []. rewrite app_nil_r. split; reflexivity. Qed.

Lemma quiet_trans (a b c : WeatherManager) : quiet a b -> quiet b c -> quiet a c.
Proof.
  intros (r1 & H1 & Q1) (r2 & H2 & Q2). exists (r1 ++ r2).
  rewrite H2, H1, app_assoc, forallb_app, Q1, Q2. split; reflexivity.
Qed.

Lemma quiet_same_events (s s' : WeatherManager) : events s' = events s -> quiet s s'.
Proof. intros H. exists []. rewrite app_nil_r. split; [exact H | reflexivity]. Qed.

Lemma quiet_emit (e : event) (s : WeatherManager) :
  is_fetch_attempt e = false -> quiet s (emit e s).
Proof. intros He. exists [e]. simpl. rewrite He. split; reflexivity. Qed.

#[local] Hint Resolve only_lists_refl only_lists_trans same_view_refl
  same_view_trans quiet_refl quiet_trans : core.

Lemma process_within (R : WeatherManager -> WeatherManager -> Prop) (forecast : json) :
  (forall s, R s s) ->
  (forall a b c, R a b -> R b c -> R a c) ->
  (forall v s, R s (set_hourly_forecast v s)) ->
  (forall v s, R s (set_daily_forecast v s)) ->
  within R (_process_forecast_data utcoffset set_iter forecast).
Proof.
  intros Hrefl Htrans Hh Hd.
  unfold _process_forecast_data, daily_part, hourly_body, daily_body.
  within_steps; apply within_modify; intros s; first [apply Hh | apply Hd].
Qed.

Lemma process_only_lists (forecast : json) :
  within only_lists (_process_forecast_data utcoffset set_iter forecast).
Proof.
  apply process_within;
    [exact only_lists_refl | exact only_lists_trans | |]; intros; reflexivity.
Qed.

Lemma only_lists_events (s s' : WeatherManager) :
  only_lists s s' -> events s' = events s.
Proof. intros H. apply (f_equal events) in H. exact H. Qed.

Lemma only_lists_same_view (s s' : WeatherManager) :
  only_lists s s' -> same_view s s'.
Proof.
  intros H. unfold same_view.
  repeat split;
    [ apply (f_equal weather_config) in H | apply (f_equal location) in H
    | apply (f_equal scroll_position) in H | apply (f_equal last_draw_time) in H
    | apply (f_equal last_temp) in H | apply (f_equal last_condition) in H ];
    exact H.
Qed.

Lemma fetch_guarded_within (R : WeatherManager -> WeatherManager -> Prop)
    (env : Env) (city state : json) :
  (forall s, R s s) ->
  (forall a b c, R a b -> R b c -> R a c) ->
  (forall s s', only_lists s s' -> R s s') ->
  (forall e s, is_fetch_attempt e = false -> R s (emit e s)) ->
  (forall v s, R s (set_weather_data v s)) ->
  (forall v s, R s (set_forecast_data v s)) ->
  (forall t s, R s (set_last_update t s)) ->
  within R (fetch_guarded utcoffset set_iter env city state).
Proof.
  intros Hrefl Htrans Hlists Hemit Hw Hf Hu.
  unfold fetch_guarded, request, print.
  within_steps;
    try (apply within_modify; intros s;
         first [apply Hemit; reflexivity | apply Hw | apply Hf | apply Hu]).
  intros s. apply Hlists. apply process_only_lists.
Qed.

Lemma fetch_handler_within (R : WeatherManager -> WeatherManager -> Prop) (e : exn) :
  (forall s, R s s) ->
  (forall a b c, R a b -> R b c -> R a c) ->
  (forall e s, is_fetch_attempt e = false -> R s (emit e s)) ->
  (forall v s, R s (set_weather_data v s)) ->
  (forall v s, R s (set_forecast_data v s)) ->
  within R (fetch_handler e).
Proof.
  intros Hrefl Htrans Hemit Hw Hf. unfold fetch_handler, print.
  within_steps;
    apply within_modify; intros s;
    first [apply Hemit; reflexivity | apply Hw | apply Hf].
Qed.

(** *** The two branches of [_fetch_weather] *)

Lemma fetch_no_key (env : Env) (s : WeatherManager) :
  has_api_key s = false ->
  _fetch_weather utcoffset set_iter env s
  = (Ok tt, emit (Print [Lit "No API key configured for weather"])
                 (emit FetchAttempt s)).
Proof.
  unfold has_api_key. intros Hkey.
  unfold _fetch_weather, bind, modify, gets, print. simpl.
  rewrite Hkey. reflexivity.
Qed.

Lemma fetch_with_key (env : Env) (s : WeatherManager) (city state country : json) :
  has_api_key s = true ->
  dict_getitem (location s) "city" = Ok city ->
  dict_getitem (location s) "state" = Ok state ->
  dict_getitem (location s) "country" = Ok country ->
  _fetch_weather utcoffset set_iter env s
  = try_except (fetch_guarded utcoffset set_iter env city state) fetch_handler
               (emit FetchAttempt s).
Proof.
  unfold has_api_key. intros Hkey Hcity Hstate Hcountry.
  unfold _fetch_weather, bind, modify, gets, lift. simpl.
  rewrite Hkey. simpl. rewrite Hcity, Hstate, Hcountry. reflexivity.
Qed.

Lemma fetch_handler_run (e : exn) (s : WeatherManager) :
  fetch_handler e s
  = (Ok tt, set_forecast_data JNull
              (set_weather_data JNull
                 (emit (Print [Lit "Error fetching weather data: "; Exc e]) s))).
Proof. reflexivity. Qed.


Lemma fetch_after_attempt (R : WeatherManager -> WeatherManager -> Prop)
    (env : Env) (s : WeatherManager) :
  (forall s, R s s) ->
  (forall a b c, R a b -> R b c -> R a c) ->
  (forall s s', only_lists s s' -> R s s') ->
  (forall e s, is_fetch_attempt e = false -> R s (emit e s)) ->
  (forall v s, R s (set_weather_data v s)) ->
  (forall v s, R s (set_forecast_data v s)) ->
  (forall t s, R s (set_last_update t s)) ->
  R (emit FetchAttempt s) (snd (_fetch_weather utcoffset set_iter env s)).
Proof.
  intros Hrefl Htrans Hlists Hemit Hw Hf Hu.
  unfold _fetch_weather. unfold bind at 1, modify at 1.
  generalize (emit FetchAttempt s). intros s0.
  match goal with |- R s0 (snd (?c s0)) => revert s0; change (within R c) end.
  unfold print.
  within_steps;
    try (apply within_modify; intros s0; apply Hemit; reflexivity).
  - apply fetch_guarded_within; assumption.
  - apply fetch_handler_within; assumption.
Qed.

Lemma same_view_emit (e : event) (s : WeatherManager) : same_view s (emit e s).
Proof. repeat split. Qed.

(** A fetch enters [_fetch_weather] once, and touches nothing that the views
    or the configuration hold. *)
Lemma fetch_trace (env : Env) (s : WeatherManager) :
  exists rest,
    events (snd (_fetch_weather utcoffset set_iter env s))
    = events s ++ FetchAttempt :: rest /\
    fetch_attempts rest = 0%nat.
Proof.
  destruct (fetch_after_attempt quiet env s quiet_refl quiet_trans)
    as (rest & Hrest & Hq).
  - intros a b Hab. apply quiet_same_events. apply only_lists_events. exact Hab.
  - intros e a He. apply quiet_emit. exact He.
  - intros v a. apply quiet_same_events. reflexivity.
  - intros v a. apply quiet_same_events. reflexivity.
  - intros t a. apply quiet_same_events. reflexivity.
  - exists rest. simpl in Hrest. rewrite <- app_assoc in Hrest. split; [exact Hrest |].
    unfold fetch_attempts. clear Hrest.
    induction rest as [| e rest IH]; simpl in *; [reflexivity |].
    apply andb_true_iff in Hq. destruct Hq as [He Hq].
    destruct (is_fetch_attempt e); [discriminate | apply IH; exact Hq].
Qed.

Lemma fetch_same_view (env : Env) (s : WeatherManager) :
  same_view s (snd (_fetch_weather utcoffset set_iter env s)).
Proof.
  apply (same_view_trans _ (emit FetchAttempt s)); [apply same_view_emit |].
  apply fetch_after_attempt; [exact same_view_refl | exact same_view_trans | ..].
  - apply only_lists_same_view.
  - intros e a _. apply same_view_emit.
  - intros v a. repeat split.
  - intros v a. repeat split.
  - intros t a. repeat split.
Qed.

(** *** [get_weather] *)

Lemma get_weather_not_due (env : Env) (s : WeatherManager) :
  fetch_due (t_get env) s = Ok false ->
  get_weather utcoffset set_iter env s = (Ok (weather_data s), s).
Proof.
  intros Hdue. unfold get_weather, bind, gets, lift, ret. rewrite Hdue. reflexivity.
Qed.

Lemma get_weather_due (env : Env) (s : WeatherManager) :
  fetch_due (t_get env) s = Ok true ->
  get_weather utcoffset set_iter env s
  = (match fst (_fetch_weather utcoffset set_iter env s) with
     | Ok _ => Ok (weather_data (snd (_fetch_weather utcoffset set_iter env s)))
     | Raise e => Raise e
     end,
     snd (_fetch_weather utcoffset set_iter env s)).
Proof.
  intros Hdue. unfold get_weather, bind, gets, lift, ret. rewrite Hdue.
  destruct (_fetch_weather utcoffset set_iter env s) as [[[] | e] s']; reflexivity.
Qed.

Lemma fetch_due_absent (now : Q) (s : WeatherManager) :
  truthy (weather_data s) = false -> fetch_due now s = Ok true.
Proof. intros H. unfold fetch_due. rewrite H. reflexivity. Qed.

Lemma fetch_due_present (now : Q) (s : WeatherManager) (interval : Q) :
  truthy (weather_data s) = true ->
  num_val (update_interval s) = Some interval ->
  fetch_due now s = Ok (Qgtb (now - last_update s) interval).
Proof.
  unfold update_interval. intros H Hn. unfold fetch_due. rewrite H, Hn. reflexivity.
Qed.

Lemma Qgtb_lt (a b : Q) : Qgtb a b = true <-> (b < a)%Q.
Proof.
  unfold Qgtb. rewrite negb_true_iff. split.
  - intros H. apply Qnot_le_lt. intros Hle. apply Qle_bool_iff in Hle. congruence.
  - intros H. destruct (Qle_bool a b) eqn:E; [| reflexivity].
    apply Qle_bool_iff in E. exfalso. exact (Qlt_not_le _ _ H E).
Qed.

Lemma Qltb_lt (a b : Q) : Qltb a b = true <-> (a < b)%Q.
Proof. unfold Qltb. apply (Qgtb_lt b a). Qed.

Lemma get_weather_same_view (env : Env) (s : WeatherManager) :
  same_view s (snd (get_weather utcoffset set_iter env s)).
Proof.
  unfold get_weather, bind, gets, lift, ret.
  destruct (fetch_due (t_get env) s) as [[|] | e]; simpl; auto.
  pose proof (fetch_same_view env s) as Hv.
  destruct (_fetch_weather utcoffset set_iter env s) as [[[] | e] s']; exact Hv.
Qed.

(** *** The guarded block *)


Lemma guarded_unresolved (env : Env) (city state geo : json) (s : WeatherManager) :
  http env Geocoding = Ok geo ->
  truthy geo = false ->
  fetch_guarded utcoffset set_iter env city state s
  = (Ok tt, emit (Print [Lit "Could not find coordinates for "; Val city;
                         Lit ", "; Val state])
                 (emit (Get Geocoding) s)).
Proof.
  intros Hgeo Ht. unfold fetch_guarded, request, print, bind, modify, lift. simpl.
  rewrite Hgeo. simpl. rewrite Ht. reflexivity.
Qed.

Ltac guarded_paths env :=
  unfold fetch_guarded, request, print, bind, modify, lift, gets; simpl;
  destruct (http env Geocoding) as [?geo | ?e] eqn:?Hgeo; simpl; auto;
  try match goal with |- context [truthy ?g] => destruct (truthy g) eqn:?Htruthy end;
  simpl; auto;
  try match goal with |- context [getitem0 ?g] =>
        destruct (getitem0 g) as [?g0 | ?e] end;
  simpl; auto;
  try match goal with |- context [getitem ?g "lat"] =>
        destruct (getitem g "lat") as [?lat | ?e] end;
  simpl; auto;
  try match goal with |- context [getitem ?g "lon"] =>
        destruct (getitem g "lon") as [?lon | ?e] end;
  simpl; auto;
  try match goal with |- context [http env CurrentWeather] =>
        destruct (http env CurrentWeather) as [?w | ?e] eqn:?Hcur end;
  simpl; auto;
  try match goal with |- context [http env Forecast] =>
        destruct (http env Forecast) as [?f | ?e] eqn:?Hfor end;
  simpl; auto.


(** The success line is printed only at the end of a complete fetch. *)
Lemma guarded_success (env : Env) (city state : json) (s : WeatherManager)
    (rest : list event) :
  events (snd (fetch_guarded utcoffset set_iter env city state s)) = events s ++ rest ->
  In (Print success_line) rest ->
  fst (fetch_guarded utcoffset set_iter env city state s) = Ok tt /\
  last_update (snd (fetch_guarded utcoffset set_iter env city state s)) = t_fetched env /\
  http env CurrentWeather
  = Ok (weather_data (snd (fetch_guarded utcoffset set_iter env city state s))).
Proof.
  assert (Hno : forall l : list event,
             events s ++ l = events s ++ rest -> ~ In (Print success_line) l ->
             In (Print success_line) rest -> False).
  { intros l Hl Hnot Hin. apply app_inv_head in Hl. subst. tauto. }
  guarded_paths env;
    try (intros Hev Hin; exfalso; rewrite <- ?app_assoc in Hev;
         apply (Hno _ Hev); [| exact Hin]; simpl; unfold success_line;
         intuition discriminate).
  match goal with |- context [_process_forecast_data ?u ?si ?f0 ?s0] =>
    pose proof (process_only_lists f0 s0) as HL;
    destruct (_process_forecast_data u si f0 s0) as [[[] | e] sP]
  end; simpl in *.
  - intros _ _. repeat split.
    apply (f_equal weather_data) in HL. simpl in HL. rewrite HL. reflexivity.
  - intros Hev Hin. exfalso. apply only_lists_events in HL. simpl in HL.
    rewrite HL, <- !app_assoc in Hev. apply (Hno _ Hev); [| exact Hin].
    simpl. intuition discriminate.
Qed.

Lemma guarded_quiet (env : Env) (city state : json) (s : WeatherManager) :
  quiet s (snd (fetch_guarded utcoffset set_iter env city state s)).
Proof.
  apply fetch_guarded_within; [exact quiet_refl | exact quiet_trans | ..].
  - intros a b Hab. apply quiet_same_events. apply only_lists_events. exact Hab.
  - intros e a He. apply quiet_emit. exact He.
  - intros v a. apply quiet_same_events. reflexivity.
  - intros v a. apply quiet_same_events. reflexivity.
  - intros t a. apply quiet_same_events. reflexivity.
Qed.

(** With a key configured but a location field missing, the lookup raises
    before the guarded block is entered, and nothing handles it. *)
Lemma fetch_without_location (env : Env) (s : WeatherManager) :
  has_api_key s = true ->
  ~ has_location s ->
  exists e, _fetch_weather utcoffset set_iter env s = (Raise e, emit FetchAttempt s).
Proof.
  unfold has_api_key, has_location. intros Hkey Hloc.
  unfold _fetch_weather, bind, modify, gets, lift. simpl. rewrite Hkey. simpl.
  destruct (dict_getitem (location s) "city") as [city | x]; simpl; [| eauto].
  destruct (dict_getitem (location s) "state") as [state | x]; simpl; [| eauto].
  destruct (dict_getitem (location s) "country") as [country | x]; simpl; [| eauto].
  exfalso. apply Hloc. repeat split.
Qed.

Lemma has_location_dec (s : WeatherManager) : has_location s \/ ~ has_location s.
Proof.
  unfold has_location.
  destruct (is_ok (dict_getitem (location s) "city"));
    destruct (is_ok (dict_getitem (location s) "state"));
    destruct (is_ok (dict_getitem (location s) "country"));
    intuition discriminate.
Qed.

(** A fetch during which the success line was printed has set the time of
    the last update. *)
Lemma fetch_success (env : Env) (s : WeatherManager) (rest : list event) :
  events (snd (_fetch_weather utcoffset set_iter env s)) = events s ++ rest ->
  In (Print success_line) rest ->
  last_update (snd (_fetch_weather utcoffset set_iter env s)) = t_fetched env.
Proof.
  intros Hev Hin.
  destruct (has_api_key s) eqn:Hkey.
  - destruct (has_location_dec s) as [Hloc | Hloc].
    + destruct Hloc as (Hc & Hs' & Ho).
      destruct (dict_getitem (location s) "city") as [city | x] eqn:Ec; [| discriminate].
      destruct (dict_getitem (location s) "state") as [state | x] eqn:Es; [| discriminate].
      destruct (dict_getitem (location s) "country") as [country | x] eqn:Eo;
        [| discriminate].
      rewrite (fetch_with_key env s city state country Hkey Ec Es Eo) in *.
      unfold try_except in *.
      destruct (guarded_quiet env city state (emit FetchAttempt s)) as (rest2 & Hr2 & _).
      pose proof (guarded_success env city state (emit FetchAttempt s) rest2 Hr2) as Hs.
      destruct (fetch_guarded utcoffset set_iter env city state (emit FetchAttempt s))
        as [[[] | e] s2]; simpl in *.
      * rewrite Hr2, <- app_assoc in Hev. apply app_inv_head in Hev. subst rest.
        destruct Hin as [Hin | Hin]; [discriminate |]. apply Hs. exact Hin.
      * rewrite Hr2, <- !app_assoc in Hev. apply app_inv_head in Hev. subst rest.
        destruct Hin as [Hin | Hin]; [discriminate |]. simpl in Hin.
        apply in_app_or in Hin. destruct Hin as [Hin | [Hin | []]]; [| discriminate].
        destruct (Hs Hin) as [Hok _]. discriminate.
    + exfalso. destruct (fetch_without_location env s Hkey Hloc) as (e & He).
      rewrite He in Hev. simpl in Hev. apply app_inv_head in Hev. subst rest.
      destruct Hin as [Hin | []]; discriminate.
  - exfalso. rewrite (fetch_no_key env s Hkey) in Hev. simpl in Hev.
    rewrite <- app_assoc in Hev. apply app_inv_head in Hev. subst rest.
    destruct Hin as [Hin | [Hin | []]]; discriminate.
Qed.

Lemma getitem0_truthy (x v : json) : getitem0 x = Ok v -> truthy x = true.
Proof.
  destruct x as [| | | | t | l | kv]; cbn [getitem0]; try discriminate.
  - destruct t; [discriminate | reflexivity].
  - destruct l; [discriminate | reflexivity].
Qed.

(** The guarded block once the three answers are in: it stores the two
    payloads, aggregates, and either finishes or raises what the aggregation
    raised. *)
Lemma guarded_reaches_process (env : Env) (city state geo g0 lat lon w f : json)
    (s : WeatherManager) :
  http env Geocoding = Ok geo ->
  getitem0 geo = Ok g0 ->
  getitem g0 "lat" = Ok lat ->
  getitem g0 "lon" = Ok lon ->
  http env CurrentWeather = Ok w ->
  http env Forecast = Ok f ->
  fetch_guarded utcoffset set_iter env city state s
  = match _process_forecast_data utcoffset set_iter f
            (set_forecast_data f
               (emit (Get Forecast)
                  (set_weather_data w
                     (emit (Get CurrentWeather) (emit (Get Geocoding) s)))))
    with
    | (Ok _, sP) =>
        (Ok tt, emit (Print success_line) (set_last_update (t_fetched env) sP))
    | (Raise e, sP) => (Raise e, sP)
    end.
Proof.
  intros Hgeo Hg0 Hlat Hlon Hcur Hfor.
  unfold fetch_guarded, request, print, bind, modify, lift, gets.
  set (P := _process_forecast_data utcoffset set_iter).
  simpl. rewrite Hgeo. simpl. rewrite (getitem0_truthy geo g0 Hg0). simpl.
  rewrite Hg0. simpl. rewrite Hlat. simpl. rewrite Hlon. simpl.
  rewrite Hcur. simpl. rewrite Hfor. simpl.
  match goal with
  | |- context [P f ?s0] => destruct (P f s0) as [[[] | e] sP]; reflexivity
  end.
Qed.


(** Whether the aggregation raises, and what, does not depend on the
    state it starts from. *)
Lemma for_each_outcome {S A : Type} (body : A -> M S unit) :
  (forall x s s', fst (body x s) = fst (body x s')) ->
  forall l s s', fst (for_each l body s) = fst (for_each l body s').
Proof.
  intros Hbody l. induction l as [| x l IH]; intros s s'; [reflexivity |].
  cbn [for_each]. unfold bind. specialize (Hbody x s s').
  destruct (body x s) as [[[] | e] s1]; destruct (body x s') as [[[] | e'] s1'];
    cbn [fst] in *; try discriminate; [apply IH | exact Hbody].
Qed.

Lemma process_outcome (forecast : json) (s s' : WeatherManager) :
  fst (_process_forecast_data utcoffset set_iter forecast s)
  = fst (_process_forecast_data utcoffset set_iter forecast s').
Proof.
  unfold _process_forecast_data.
  destruct (truthy forecast); cbn [negb]; [| reflexivity].
  unfold bind, lift, modify.
  destruct (json_get forecast "list" (JArr [])) as [l | e]; [| reflexivity].
  destruct (slice6 l) as [items | e]; [| reflexivity].
  assert (Hh : forall a b,
             fst (for_each items (hourly_body utcoffset) a)
             = fst (for_each items (hourly_body utcoffset) b)).
  { intros a b. apply for_each_outcome. intros x a' b'. rewrite !hourly_body_run.
    destruct (hourly_entry utcoffset x); reflexivity. }
  specialize (Hh (set_hourly_forecast (Some []) s) (set_hourly_forecast (Some []) s')).
  destruct (for_each items (hourly_body utcoffset) (set_hourly_forecast (Some []) s))
    as [[[] | e] s1];
    destruct (for_each items (hourly_body utcoffset) (set_hourly_forecast (Some []) s'))
      as [[[] | e'] s1']; cbn [fst] in Hh; try discriminate; [| exact Hh].
  unfold daily_part, bind, lift, modify.
  destruct (fold_result (daily_step utcoffset) items []) as [dd | e]; [| reflexivity].
  apply for_each_outcome. intros x a b. rewrite !daily_body_run.
  destruct (daily_entry set_iter (snd x)); reflexivity.
Qed.

(** A fetch whose three requests are answered and whose aggregation raises
    returns normally, with the error printed and the two payloads absent. *)
Lemma fetch_catches (env : Env) (s sx : WeatherManager) (w f : json) (e : exn) :
  has_api_key s = true ->
  has_location s ->
  answered env w f ->
  fst (_process_forecast_data utcoffset set_iter f sx) = Raise e ->
  let s' := snd (_fetch_weather utcoffset set_iter env s) in
  fst (_fetch_weather utcoffset set_iter env s) = Ok tt /\
  weather_data s' = JNull /\ forecast_data s' = JNull /\
  events s'
  = events s ++ [FetchAttempt; Get Geocoding; Get CurrentWeather; Get Forecast;
                 Print (error_line e)].
Proof.
  intros Hkey (Hc & Hs & Ho)
         (geo & g0 & lat & lon & Hgeo & Hg0 & Hlat & Hlon & Hcur & Hfor) Hraise s'.
  subst s'.
  destruct (dict_getitem (location s) "city") as [city | x] eqn:Ec; [| discriminate].
  destruct (dict_getitem (location s) "state") as [state | x] eqn:Es; [| discriminate].
  destruct (dict_getitem (location s) "country") as [country | x] eqn:Eo;
    [| discriminate].
  rewrite (fetch_with_key env s city state country Hkey Ec Es Eo).
  unfold try_except.
  rewrite (guarded_reaches_process env city state geo g0 lat lon w f _
             Hgeo Hg0 Hlat Hlon Hcur Hfor).
  match goal with
  | |- context [_process_forecast_data utcoffset set_iter f ?s0] =>
      pose proof (process_outcome f s0 sx) as Hsame;
      pose proof (only_lists_events _ _ (process_only_lists f s0)) as Hev;
      destruct (_process_forecast_data utcoffset set_iter f s0) as [[[] | e'] sP]
  end; cbn [fst snd] in Hsame, Hev; rewrite Hraise in Hsame; [discriminate |].
  injection Hsame as ->. rewrite fetch_handler_run.
  cbn [fst snd weather_data forecast_data set_weather_data set_forecast_data events emit].
  rewrite Hev. cbn [events emit set_forecast_data set_weather_data].
  rewrite <- !app_assoc. repeat split.
Qed.

Lemma quiet_no_attempts (rest : list event) :
  forallb (fun e => negb (is_fetch_attempt e)) rest = true ->
  fetch_attempts rest = 0%nat.
Proof.
  unfold fetch_attempts. induction rest as [| e rest IH]; cbn [forallb filter];
    [reflexivity |].
  intros Hq. apply andb_true_iff in Hq. destruct Hq as [He Hq].
  destruct (is_fetch_attempt e); [discriminate | apply IH; exact Hq].
Qed.

(** The guarded block starts with the geocoding request, whatever follows. *)
Lemma guarded_sends_geocoding (env : Env) (city state : json) (s : WeatherManager) :
  exists rest,
    events (snd (fetch_guarded utcoffset set_iter env city state s))
    = events s ++ Get Geocoding :: rest /\
    forallb (fun e => negb (is_fetch_attempt e)) rest = true.
Proof.
  unfold fetch_guarded. unfold bind at 1, request at 1.
  unfold bind at 1, modify at 1, lift at 1.
  destruct (http env Geocoding) as [geo | e].
  - match goal with
    | |- context [snd (?k (emit (Get Geocoding) s))] =>
        assert (Hq : within quiet k)
    end.
    { unfold request, print.
      within_steps; try exact quiet_refl; try exact quiet_trans;
        try (apply within_modify; intros st;
             first [apply quiet_emit; reflexivity
                   | apply quiet_same_events; reflexivity]).
      intros st. apply quiet_same_events, only_lists_events, process_only_lists. }
    destruct (Hq (emit (Get Geocoding) s)) as (rest & Hrest & Hquiet).
    exists rest. rewrite Hrest. cbn [events emit]. rewrite <- app_assoc.
    split; [reflexivity | exact Hquiet].
  - exists []. split; reflexivity.
Qed.

(** *** Claims on the cache *)

(** A payload whose ['list'] is not a list: the empty string gives two empty
    lists, anything else raises. *)
Lemma process_not_array (forecast : json) (s : WeatherManager) :
  truthy forecast = true ->
  (forall items, json_get forecast "list" (JArr []) <> Ok (JArr items)) ->
  (json_get forecast "list" (JArr []) = Ok (JStr "") ->
   _process_forecast_data utcoffset set_iter forecast s
   = (Ok tt, set_daily_forecast (Some []) (set_hourly_forecast (Some []) s))) /\
  (json_get forecast "list" (JArr []) <> Ok (JStr "") ->
   exists e, fst (_process_forecast_data utcoffset set_iter forecast s) = Raise e).
Proof.
  intros Ht Hnot. unfold _process_forecast_data. rewrite Ht. cbn [negb].
  unfold bind at 1, lift at 1.
  destruct (json_get forecast "list" (JArr [])) as [l | e];
    [| split; [discriminate | intros _; exists e; reflexivity]].
  unfold bind at 1, lift at 1.
  destruct l as [| b | z | q | t | l | kv]; cbn [slice6];
    try (split; [discriminate | intros _; exists TypeError; reflexivity]).
  - destruct t as [| c t].
    + split; [intros _; reflexivity | intros Hne; exfalso; apply Hne; reflexivity].
    + split; [discriminate | intros _]. exists TypeError. reflexivity.
  - exfalso. exact (Hnot l eq_refl).
Qed.

(** C8, as the code has it. The aggregation returns at once, leaving both
    lists as they were, on an absent or empty payload. On a payload whose
    ['list'] is a list it returns with empty hourly and daily lists when the
    list is empty, and returns with both lists built exactly when the first
    six items are well formed: each is a sample with a timestamp that
    [datetime.fromtimestamp] accepts, and the conditions of the dates that
    get a daily entry can go into a set; otherwise it raises, instead of
    yielding empty lists. On a payload whose ['list'] is anything else it
    raises, unless that is the empty string. Whenever it raises, a fetch that
    got this payload catches the exception: [_fetch_weather] returns, with
    the error printed and the current conditions and the payload absent. *)
Theorem aggregation_outcomes (forecast : json) (s : WeatherManager) :
  set_order set_iter ->
  let run := _process_forecast_data utcoffset set_iter forecast s in
  (truthy forecast = false -> run = (Ok tt, s)) /\
  (truthy forecast = true ->
   forall items,
     json_get forecast "list" (JArr []) = Ok (JArr items) ->
     (items = [] ->
      run = (Ok tt, set_daily_forecast (Some []) (set_hourly_forecast (Some []) s))) /\
     (well_formed utcoffset (firstn 6 items) ->
      exists hs ds,
        run = (Ok tt, set_daily_forecast (Some ds) (set_hourly_forecast (Some hs) s))) /\
     (~ well_formed utcoffset (firstn 6 items) -> exists e, fst run = Raise e)) /\
  (truthy forecast = true ->
   (forall items, json_get forecast "list" (JArr []) <> Ok (JArr items)) ->
   (json_get forecast "list" (JArr []) = Ok (JStr "") ->
    run = (Ok tt, set_daily_forecast (Some []) (set_hourly_forecast (Some []) s))) /\
   (json_get forecast "list" (JArr []) <> Ok (JStr "") ->
    exists e, fst run = Raise e)) /\
  (forall e,
     fst run = Raise e ->
     forall env s0 w,
       has_api_key s0 = true ->
       has_location s0 ->
       answered env w forecast ->
       let s' := snd (_fetch_weather utcoffset set_iter env s0) in
       fst (_fetch_weather utcoffset set_iter env s0) = Ok tt /\
       weather_data s' = JNull /\ forecast_data s' = JNull /\
       events s'
       = events s0 ++ [FetchAttempt; Get Geocoding; Get CurrentWeather; Get Forecast;
                       Print (error_line e)]).
Proof.
  intros Hset run. subst run. split; [| split; [| split]].
  - intros Ht. unfold _process_forecast_data. rewrite Ht. reflexivity.
  - intros Ht items Hget. split; [| split].
    + intros ->. rewrite (process_unfold forecast [] s Ht Hget). reflexivity.
    + intros (smps & Hdec & Hrange & Huse).
      destruct (process_usable forecast items smps Hset Ht Hget Hdec Hrange Huse)
        as (ds & Hrun & _).
      exists (map (hourly_of utcoffset) smps), ds. apply Hrun.
    + intros Hill.
      destruct (process_ill_formed forecast items Hset Ht Hget Hill)
        as (e & after & Hrun & _).
      exists e. rewrite Hrun. reflexivity.
  - intros Ht Hnot. apply process_not_array; assumption.
  - intros e Hraise env s0 w Hkey Hloc Hans.
    exact (fetch_catches env s0 s w forecast e Hkey Hloc Hans Hraise).
Qed.


(** C4. After a fetch that failed and left the snapshot absent, the next
    call of [get_weather] attempts a fetch whatever the clock reads, so also
    at once and before the refresh interval has passed: it enters
    [_fetch_weather] once more and sends the geocoding request again. *)
Theorem failed_fetch_retried_at_once (env env' : Env) (s : WeatherManager)
    (city state country : json) (e : exn) (s2 : WeatherManager) :
  has_api_key s = true ->
  dict_getitem (location s) "city" = Ok city ->
  dict_getitem (location s) "state" = Ok state ->
  dict_getitem (location s) "country" = Ok country ->
  fetch_due (t_get env) s = Ok true ->
  fetch_guarded utcoffset set_iter env city state (emit FetchAttempt s) = (Raise e, s2) ->
  let s1 := snd (get_weather utcoffset set_iter env s) in
  weather_data s1 = JNull /\
  fetch_due (t_get env') s1 = Ok true /\
  exists rest,
    events (snd (get_weather utcoffset set_iter env' s1))
    = events s1 ++ FetchAttempt :: Get Geocoding :: rest /\
    fetch_attempts rest = 0%nat.
Proof.
  intros Hkey Hcity Hstate Hcountry Hdue Hraise s1.
  assert (Hdata : weather_data s1 = JNull).
  { subst s1. rewrite (get_weather_due env s Hdue). simpl.
    rewrite (fetch_with_key env s city state country Hkey Hcity Hstate Hcountry).
    unfold try_except. rewrite Hraise. reflexivity. }
  assert (Hdue' : fetch_due (t_get env') s1 = Ok true).
  { apply fetch_due_absent. rewrite Hdata. reflexivity. }
  repeat split; [exact Hdata | exact Hdue' |].
  destruct (get_weather_same_view env s) as (Hcfg & Hlocation & _).
  fold s1 in Hcfg, Hlocation.
  assert (Hkey1 : has_api_key s1 = true).
  { unfold has_api_key. rewrite Hcfg. exact Hkey. }
  rewrite <- Hlocation in Hcity, Hstate, Hcountry.
  rewrite (get_weather_due env' s1 Hdue'). cbn [snd].
  rewrite (fetch_with_key env' s1 city state country Hkey1 Hcity Hstate Hcountry).
  unfold try_except.
  destruct (guarded_sends_geocoding env' city state (emit FetchAttempt s1))
    as (rest & Hev & Hq).
  destruct (fetch_guarded utcoffset set_iter env' city state (emit FetchAttempt s1))
    as [[[] | e'] s3]; cbn [snd] in *.
  - exists rest. rewrite Hev. cbn [events emit]. rewrite <- app_assoc.
    split; [reflexivity | apply quiet_no_attempts; exact Hq].
  - exists (rest ++ [Print (error_line e')]). rewrite fetch_handler_run.
    cbn [snd events emit set_weather_data set_forecast_data]. rewrite Hev.
    cbn [events emit]. rewrite <- !app_assoc. split; [reflexivity |].
    apply quiet_no_attempts. rewrite forallb_app, Hq. reflexivity.
Qed.

(** C5. [get_weather] attempts a fetch exactly when the snapshot is absent
    or the time since the last successful fetch exceeds the refresh interval,
    300 unless configured: then it attempts one, otherwise none. The first
    call on a new manager attempts exactly one fetch, and a call within the
    interval after a fetch that succeeded attempts none. *)
Theorem fetch_exactly_when_due (env env' : Env) (s : WeatherManager) (interval : Q) :
  num_val (update_interval s) = Some interval ->
  let due := truthy (weather_data s) = false \/
             (interval < t_get env - last_update s)%Q in
  let s1 := snd (get_weather utcoffset set_iter env s) in
  (assoc "update_interval" (weather_config s) = None -> (interval == 300)%Q) /\
  (exists rest,
     events s1 = events s ++ rest /\
     (due -> fetch_attempts rest = 1%nat) /\
     (~ due -> rest = [])) /\
  (forall cfg loc,
     fetch_attempts (events (snd (get_weather utcoffset set_iter env (init cfg loc))))
     = 1%nat) /\
  (forall rest,
     events s1 = events s ++ rest ->
     In (Print success_line) rest ->
     truthy (weather_data s1) = true ->
     (t_get env' - t_fetched env <= interval)%Q ->
     get_weather utcoffset set_iter env' s1 = (Ok (weather_data s1), s1)).
Proof.
  intros Hint due s1. split; [| split; [| split]].
  - unfold update_interval, dict_get in Hint. intros Hnone. rewrite Hnone in Hint.
    simpl in Hint. injection Hint as <-. reflexivity.
  - destruct (truthy (weather_data s)) eqn:Hw.
    + pose proof (fetch_due_present (t_get env) s interval Hw Hint) as Hdue.
      destruct (Qgtb (t_get env - last_update s) interval) eqn:Hgt.
      * destruct (fetch_trace env s) as (rest & Hrest & Hq).
        exists (FetchAttempt :: rest). subst s1.
        rewrite (get_weather_due env s Hdue). simpl. split; [exact Hrest |]. split.
        -- intros _. unfold fetch_attempts in *. simpl. rewrite Hq. reflexivity.
        -- intros Hn. exfalso. apply Hn. right. apply Qgtb_lt. exact Hgt.
      * exists []. subst s1. rewrite (get_weather_not_due env s Hdue). simpl.
        rewrite app_nil_r. split; [reflexivity |]. split; [| reflexivity].
        intros [Habs | Hlt]; [discriminate |].
        apply Qgtb_lt in Hlt. congruence.
    + pose proof (fetch_due_absent (t_get env) s Hw) as Hdue.
      destruct (fetch_trace env s) as (rest & Hrest & Hq).
      exists (FetchAttempt :: rest). subst s1.
      rewrite (get_weather_due env s Hdue). simpl. split; [exact Hrest |]. split.
      * intros _. unfold fetch_attempts in *. simpl. rewrite Hq. reflexivity.
      * intros Hn. exfalso. apply Hn. left. reflexivity.
  - intros cfg loc.
    rewrite (get_weather_due env (init cfg loc)
               (fetch_due_absent (t_get env) (init cfg loc) eq_refl)). simpl.
    destruct (fetch_trace env (init cfg loc)) as (rest & Hrest & Hq).
    rewrite Hrest. simpl. unfold fetch_attempts in *. simpl. rewrite Hq. reflexivity.
  - intros rest Hev Hin Hw1 Hwithin.
    assert (Hfetched : last_update s1 = t_fetched env /\
                       weather_config s1 = weather_config s).
    { subst s1. split; [| apply get_weather_same_view].
      destruct (fetch_due (t_get env) s) as [[|] | x] eqn:Hdue.
      - rewrite (get_weather_due env s Hdue) in *. simpl in *.
        apply (fetch_success env s rest Hev Hin).
      - rewrite (get_weather_not_due env s Hdue) in Hev. simpl in Hev.
        rewrite <- (app_nil_r (events s)) in Hev at 1.
        apply app_inv_head in Hev. subst rest. destruct Hin.
      - exfalso. unfold get_weather, bind, gets, lift in Hev. rewrite Hdue in Hev.
        simpl in Hev. rewrite <- (app_nil_r (events s)) in Hev at 1.
        apply app_inv_head in Hev. subst rest. destruct Hin. }
    destruct Hfetched as [Hlast Hcfg].
    apply get_weather_not_due.
    assert (Hint1 : num_val (update_interval s1) = Some interval).
    { unfold update_interval in *. rewrite Hcfg. exact Hint. }
    rewrite (fetch_due_present _ s1 interval Hw1 Hint1). rewrite Hlast.
    f_equal. unfold Qgtb. apply negb_false_iff. apply Qle_bool_iff. exact Hwithin.
Qed.

(** ** Drawing *)

Context {D : Type} `{DisplayManager D}.

Lemma current_changed_same_view (force : bool) (temp : Z) (cond : json)
    (s s' : WeatherManager) :
  same_view s s' ->
  current_changed force temp cond s' = current_changed force temp cond s.
Proof.
  intros (_ & _ & _ & _ & Ht & Hc). unfold current_changed. rewrite Ht, Hc.
  reflexivity.
Qed.

(** [display_weather] once the payload is in hand: it draws when the test
    says so, records the key after the last drawing call has returned, and
    otherwise touches nothing. *)
Lemma display_weather_run (env : Env) (force : bool) (s s1 : WeatherManager) (d : D)
    (w : json) (temp : Z) (cond hum : json) :
  get_weather utcoffset set_iter env s = (Ok w, s1) ->
  truthy w = true ->
  current_fields w = Ok (temp, cond, hum) ->
  display_weather utcoffset set_iter env force (s, d)
  = match current_changed force temp cond s1 with
    | Ok true =>
        match draw_current force temp cond hum d with
        | (Ok _, d') => (Ok tt, (set_last_key temp cond s1, d'))
        | (Raise e, d') => (Raise e, (s1, d'))
        end
    | Ok false => (Ok tt, (s1, d))
    | Raise e => (Raise e, (s1, d))
    end.
Proof.
  intros Hget Ht Hf. unfold display_weather, bind at 1, on_self at 1.
  rewrite Hget. rewrite Ht. cbn [negb].
  unfold current_fields in Hf. unfold bind, lift, gets.
  destruct (getitem w "main") as [main | e]; cbn [rbind] in Hf; [| discriminate].
  destruct (getitem main "temp") as [t | e]; cbn [rbind] in Hf; [| discriminate].
  destruct (round_json t) as [temp0 | e]; cbn [rbind] in Hf; [| discriminate].
  destruct (getitem w "weather") as [w1 | e]; cbn [rbind] in Hf; [| discriminate].
  destruct (getitem0 w1) as [w0 | e]; cbn [rbind] in Hf; [| discriminate].
  destruct (getitem w0 "main") as [c | e]; cbn [rbind] in Hf; [| discriminate].
  destruct (getitem main "humidity") as [h | e]; cbn [rbind] in Hf; [| discriminate].
  injection Hf as -> -> ->. cbn [fst].
  destruct (current_changed force temp cond s1) as [[|] | e]; try reflexivity.
  unfold on_dm, on_self, modify.
  destruct (draw_current force temp cond hum d) as [[[] | e] d']; reflexivity.
Qed.

(** After a call that returned normally for the key [(temp, cond)], a call
    without [force_clear] for the same key draws nothing. *)
Lemma second_call_skips (env env' : Env) (force : bool) (s s1 s2 s3 : WeatherManager)
    (d d2 : D) (w w' : json) (temp : Z) (cond hum hum' : json) :
  get_weather utcoffset set_iter env s = (Ok w, s1) ->
  truthy w = true ->
  current_fields w = Ok (temp, cond, hum) ->
  display_weather utcoffset set_iter env force (s, d) = (Ok tt, (s2, d2)) ->
  hashable cond = true ->
  get_weather utcoffset set_iter env' s2 = (Ok w', s3) ->
  truthy w' = true ->
  current_fields w' = Ok (temp, cond, hum') ->
  display_weather utcoffset set_iter env' false (s2, d2) = (Ok tt, (s3, d2)).
Proof.
  intros Hget Ht Hf Hrun Hh Hget' Ht' Hf'.
  rewrite (display_weather_run env' false s2 s3 d2 w' temp cond hum' Hget' Ht' Hf').
  assert (Hview : same_view s2 s3).
  { pose proof (get_weather_same_view env' s2) as Hv. rewrite Hget' in Hv. exact Hv. }
  rewrite (current_changed_same_view false temp cond s2 s3 Hview).
  rewrite (display_weather_run env force s s1 d w temp cond hum Hget Ht Hf) in Hrun.
  assert (Hkey : current_changed false temp cond s2 = Ok false); [| rewrite Hkey; reflexivity].
  destruct (current_changed force temp cond s1) as [[|] | e] eqn:Hc.
  - destruct (draw_current force temp cond hum d) as [[[] | e] d']; [| discriminate].
    injection Hrun as <- _. unfold current_changed. cbn [set_last_key last_temp last_condition].
    rewrite Z.eqb_refl. cbn [negb]. rewrite (py_eq_scalar_refl cond Hh). reflexivity.
  - injection Hrun as <- _. revert Hc. unfold current_changed.
    destruct force; [discriminate |]. intros Hc. exact Hc.
  - discriminate.
Qed.

(** *** Claims on the views *)

(** C7. With a payload in hand, the current view is redrawn whenever
    [force_clear] is set, whatever was recorded; when no key is recorded yet;
    and otherwise exactly when the rounded temperature or the condition
    differs from the recorded key. The key is recorded only after the last
    drawing call has returned, a skipped redraw leaves the manager and the
    display as they are, and a second call with the same temperature and
    condition and no [force_clear] is skipped. *)
Theorem current_view_redraw (env env' : Env) (force : bool) (s s1 : WeatherManager)
    (d : D) (w : json) (temp : Z) (cond hum : json) :
  get_weather utcoffset set_iter env s = (Ok w, s1) ->
  truthy w = true ->
  current_fields w = Ok (temp, cond, hum) ->
  (force = true -> current_changed force temp cond s1 = Ok true) /\
  (last_temp s1 = None -> current_changed force temp cond s1 = Ok true) /\
  (forall t c,
     force = false -> last_temp s1 = Some t -> last_condition s1 = Some c ->
     current_changed force temp cond s1
     = Ok (negb (temp =? t) || negb (py_eq cond c))) /\
  display_weather utcoffset set_iter env force (s, d)
  = match current_changed force temp cond s1 with
    | Ok true =>
        match draw_current force temp cond hum d with
        | (Ok _, d') => (Ok tt, (set_last_key temp cond s1, d'))
        | (Raise e, d') => (Raise e, (s1, d'))
        end
    | Ok false => (Ok tt, (s1, d))
    | Raise e => (Raise e, (s1, d))
    end /\
  (forall s2 d2 w' s3 hum',
     display_weather utcoffset set_iter env force (s, d) = (Ok tt, (s2, d2)) ->
     hashable cond = true ->
     get_weather utcoffset set_iter env' s2 = (Ok w', s3) ->
     truthy w' = true ->
     current_fields w' = Ok (temp, cond, hum') ->
     display_weather utcoffset set_iter env' false (s2, d2) = (Ok tt, (s3, d2))).
Proof.
  intros Hget Ht Hf. repeat split.
  - intros ->. reflexivity.
  - intros Hnone. unfold current_changed. rewrite Hnone. destruct force; reflexivity.
  - intros t c -> Hlt Hlc. unfold current_changed. rewrite Hlt, Hlc.
    destruct (temp =? t); reflexivity.
  - exact (display_weather_run env force s s1 d w temp cond hum Hget Ht Hf).
  - intros s2 d2 w' s3 hum' Hrun Hh Hget' Ht' Hf'.
    exact (second_call_skips env env' force s s1 s2 s3 d d2 w w' temp cond hum hum'
             Hget Ht Hf Hrun Hh Hget' Ht' Hf').
Qed.

(** C10. The test of the current view looks at the rounded temperature and
    the condition only: after a call that returned normally, a call without
    [force_clear] whose payload has the same rounded temperature and the
    same condition draws nothing, whatever its humidity, so the display keeps
    the humidity of the earlier payload. *)
Theorem humidity_change_not_drawn (env env' : Env) (force : bool)
    (s s1 s2 s3 : WeatherManager) (d d2 : D) (w w' : json) (temp : Z)
    (cond hum hum' : json) :
  get_weather utcoffset set_iter env s = (Ok w, s1) ->
  truthy w = true ->
  current_fields w = Ok (temp, cond, hum) ->
  display_weather utcoffset set_iter env force (s, d) = (Ok tt, (s2, d2)) ->
  hashable cond = true ->
  get_weather utcoffset set_iter env' s2 = (Ok w', s3) ->
  truthy w' = true ->
  current_fields w' = Ok (temp, cond, hum') ->
  hum' <> hum ->
  let r := display_weather utcoffset set_iter env' false (s2, d2) in
  fst r = Ok tt /\ snd (snd r) = d2 /\
  last_temp (fst (snd r)) = last_temp s2 /\
  last_condition (fst (snd r)) = last_condition s2.
Proof.
  intros Hget Ht Hf Hrun Hh Hget' Ht' Hf' _ r. subst r.
  rewrite (second_call_skips env env' force s s1 s2 s3 d d2 w w' temp cond hum hum'
             Hget Ht Hf Hrun Hh Hget' Ht' Hf').
  pose proof (get_weather_same_view env' s2) as Hv. rewrite Hget' in Hv.
  destruct Hv as (_ & _ & _ & _ & Hlt & Hlc). repeat split; assumption.
Qed.

(** *** The two forecast views *)

Lemma too_soon_same_view (force : bool) (t : Q) (s s' : WeatherManager) :
  same_view s s' -> too_soon force t s' = too_soon force t s.
Proof.
  intros (_ & _ & _ & Hd & _). unfold too_soon. rewrite Hd. reflexivity.
Qed.

Lemma too_soon_within (t : Q) (s : WeatherManager) :
  (t - last_draw_time s < 1 # 10)%Q -> too_soon false t s = true.
Proof. intros Hlt. unfold too_soon. apply Qltb_lt in Hlt. rewrite Hlt. reflexivity. Qed.

(** [display_hourly_forecast] when the hourly list is there. *)
Lemma display_hourly_run (env : Env) (scroll_pos : Z) (force : bool)
    (s : WeatherManager) (d : D) :
  nonempty (hourly_forecast s) = true ->
  display_hourly_forecast utcoffset set_iter env scroll_pos force (s, d)
  = if too_soon force (t_draw env) s then (Ok tt, (s, d))
    else
      match draw_hourly scroll_pos force (entries (hourly_forecast s)) d with
      | (Ok _, d') => (Ok tt, (set_last_draw_time (t_draw env) s, d'))
      | (Raise e, d') => (Raise e, (s, d'))
      end.
Proof.
  intros Hne. unfold display_hourly_forecast, bind, gets, ret. cbn [fst].
  rewrite Hne. cbv beta iota. cbn [fst]. rewrite Hne. cbn [negb].
  destruct (too_soon force (t_draw env) s); [reflexivity |].
  unfold on_dm, on_self, modify.
  destruct (draw_hourly scroll_pos force (entries (hourly_forecast s)) d)
    as [[[] | e] d']; reflexivity.
Qed.

(** [display_daily_forecast] when the daily list is there. *)
Lemma display_daily_run (env : Env) (force : bool) (s : WeatherManager) (d : D) :
  nonempty (daily_forecast s) = true ->
  display_daily_forecast utcoffset set_iter env force (s, d)
  = if too_soon force (t_draw env) s then (Ok tt, (s, d))
    else
      match draw_daily force (entries (daily_forecast s)) d with
      | (Ok _, d') => (Ok tt, (set_last_draw_time (t_draw env) s, d'))
      | (Raise e, d') => (Raise e, (s, d'))
      end.
Proof.
  intros Hne. unfold display_daily_forecast, bind, gets, ret. cbn [fst].
  rewrite Hne. cbv beta iota. cbn [fst]. rewrite Hne. cbn [negb].
  destruct (too_soon force (t_draw env) s); [reflexivity |].
  unfold on_dm, on_self, modify.
  destruct (draw_daily force (entries (daily_forecast s)) d)
    as [[[] | e] d']; reflexivity.
Qed.

(** Within a tenth of a time unit of the last draw, and without
    [force_clear], neither forecast view draws, whether or not it first has
    to fetch. *)
Lemma daily_gated (env : Env) (s : WeatherManager) (d : D) :
  (t_draw env - last_draw_time s < 1 # 10)%Q ->
  let r := display_daily_forecast utcoffset set_iter env false (s, d) in
  snd (snd r) = d /\
  last_draw_time (fst (snd r)) = last_draw_time s /\
  (nonempty (daily_forecast s) = true -> r = (Ok tt, (s, d))).
Proof.
  intros Hlt r. subst r. destruct (nonempty (daily_forecast s)) eqn:Hne.
  - rewrite (display_daily_run env false s d Hne), (too_soon_within _ _ Hlt).
    repeat split.
  - unfold display_daily_forecast, bind, gets, ret. cbn [fst]. rewrite Hne.
    unfold on_self.
    pose proof (get_weather_same_view env s) as Hv.
    destruct (get_weather utcoffset set_iter env s) as [[w | e] s1]; cbn [fst snd] in *.
    + assert (Hsoon : too_soon false (t_draw env) s1 = true).
      { rewrite (too_soon_same_view false _ s s1 Hv). apply too_soon_within. exact Hlt. }
      rewrite Hsoon. destruct Hv as (_ & _ & _ & Hd & _).
      destruct (nonempty (daily_forecast s1)); cbn [negb fst snd];
        repeat split; try exact Hd; discriminate.
    + destruct Hv as (_ & _ & _ & Hd & _). repeat split; [exact Hd | discriminate].
Qed.

Lemma hourly_gated (env : Env) (scroll_pos : Z) (s : WeatherManager) (d : D) :
  (t_draw env - last_draw_time s < 1 # 10)%Q ->
  let r := display_hourly_forecast utcoffset set_iter env scroll_pos false (s, d) in
  snd (snd r) = d /\
  last_draw_time (fst (snd r)) = last_draw_time s /\
  (nonempty (hourly_forecast s) = true -> r = (Ok tt, (s, d))).
Proof.
  intros Hlt r. subst r. destruct (nonempty (hourly_forecast s)) eqn:Hne.
  - rewrite (display_hourly_run env scroll_pos false s d Hne), (too_soon_within _ _ Hlt).
    repeat split.
  - unfold display_hourly_forecast, bind, gets, ret. cbn [fst]. rewrite Hne.
    unfold on_self.
    pose proof (get_weather_same_view env s) as Hv.
    destruct (get_weather utcoffset set_iter env s) as [[w | e] s1]; cbn [fst snd] in *.
    + assert (Hsoon : too_soon false (t_draw env) s1 = true).
      { rewrite (too_soon_same_view false _ s s1 Hv). apply too_soon_within. exact Hlt. }
      rewrite Hsoon. destruct Hv as (_ & _ & _ & Hd & _).
      destruct (nonempty (hourly_forecast s1)); cbn [negb fst snd];
        repeat split; try exact Hd; discriminate.
    + destruct Hv as (_ & _ & _ & Hd & _). repeat split; [exact Hd | discriminate].
Qed.

(** C9. The two forecast views share one time of last draw and one gate of a
    tenth of a time unit: once the hourly view has drawn at time [t], a daily
    draw asked for without [force_clear] at a time less than a tenth after
    [t] draws nothing and leaves that time as it is, and the same holds with
    the two views exchanged. *)
Theorem frame_gate_is_shared (env env' : Env) (scroll_pos : Z) (force : bool)
    (s s1 : WeatherManager) (d d1 : D) :
  too_soon force (t_draw env) s = false ->
  (t_draw env' - t_draw env < 1 # 10)%Q ->
  (nonempty (hourly_forecast s) = true ->
   display_hourly_forecast utcoffset set_iter env scroll_pos force (s, d)
   = (Ok tt, (s1, d1)) ->
   last_draw_time s1 = t_draw env /\
   snd (snd (display_daily_forecast utcoffset set_iter env' false (s1, d1))) = d1 /\
   last_draw_time
     (fst (snd (display_daily_forecast utcoffset set_iter env' false (s1, d1))))
   = t_draw env /\
   (nonempty (daily_forecast s1) = true ->
    display_daily_forecast utcoffset set_iter env' false (s1, d1)
    = (Ok tt, (s1, d1)))) /\
  (nonempty (daily_forecast s) = true ->
   display_daily_forecast utcoffset set_iter env force (s, d) = (Ok tt, (s1, d1)) ->
   last_draw_time s1 = t_draw env /\
   snd (snd (display_hourly_forecast utcoffset set_iter env' scroll_pos false (s1, d1)))
   = d1 /\
   last_draw_time
     (fst (snd (display_hourly_forecast utcoffset set_iter env' scroll_pos false
                  (s1, d1))))
   = t_draw env /\
   (nonempty (hourly_forecast s1) = true ->
    display_hourly_forecast utcoffset set_iter env' scroll_pos false (s1, d1)
    = (Ok tt, (s1, d1)))).
Proof.
  intros Hsoon Hlt. split.
  - intros Hne Hrun.
    rewrite (display_hourly_run env scroll_pos force s d Hne), Hsoon in Hrun.
    assert (Hlast : last_draw_time s1 = t_draw env).
    { destruct (draw_hourly scroll_pos force (entries (hourly_forecast s)) d)
        as [[[] | e] d']; [| discriminate].
      injection Hrun as <- _. reflexivity. }
    split; [exact Hlast |].
    rewrite <- Hlast in Hlt. rewrite <- Hlast.
    exact (daily_gated env' s1 d1 Hlt).
  - intros Hne Hrun.
    rewrite (display_daily_run env force s d Hne), Hsoon in Hrun.
    assert (Hlast : last_draw_time s1 = t_draw env).
    { destruct (draw_daily force (entries (daily_forecast s)) d)
        as [[[] | e] d']; [| discriminate].
      injection Hrun as <- _. reflexivity. }
    split; [exact Hlast |].
    rewrite <- Hlast in Hlt. rewrite <- Hlast.
    exact (hourly_gated env' scroll_pos s1 d1 Hlt).
Qed.
End Properties.

(** * Concrete runs *)

(** ** The two iteration orders are iteration orders of a set *)

Lemma insertion_order_from_keeps (seen l : list json) (x : json) :
  In x seen -> In x (insertion_order_from seen l).
Proof.
  revert seen. induction l as [| y l IH]; intros seen Hx; simpl; [exact Hx |].
  apply IH. destruct (existsb (fun z => py_eq y z) seen); [exact Hx |].
  apply in_or_app. left. exact Hx.
Qed.

Lemma insertion_order_from_members (seen l : list json) (x : json) :
  In x (insertion_order_from seen l) -> In x seen \/ In x l.
Proof.
  revert seen. induction l as [| y l IH]; intros seen; simpl; [tauto |].
  intros Hx. destruct (IH _ Hx) as [Hs | Hl]; [| tauto].
  destruct (existsb (fun z => py_eq y z) seen); [tauto |].
  apply in_app_or in Hs. destruct Hs as [Hs | [<- | []]]; tauto.
Qed.

Lemma insertion_order_from_covers (seen l : list json) (x : json) :
  forallb hashable l = true ->
  In x l ->
  exists y, In y (insertion_order_from seen l) /\ py_eq x y = true.
Proof.
  revert seen. induction l as [| z l IH]; intros seen Hh Hx; simpl in *; [destruct Hx |].
  apply andb_true_iff in Hh. destruct Hh as [Hz Hh].
  destruct Hx as [<- | Hx]; [| apply IH; assumption].
  destruct (existsb (fun y => py_eq z y) seen) eqn:E.
  - apply existsb_exists in E. destruct E as (y & Hy & Hzy).
    exists y. split; [apply insertion_order_from_keeps; exact Hy | exact Hzy].
  - exists z. split.
    + apply insertion_order_from_keeps. apply in_or_app. right. left. reflexivity.
    + apply py_eq_scalar_refl. exact Hz.
Qed.

Lemma insertion_order_ok : set_order insertion_order.
Proof.
  intros l Hh. unfold insertion_order. split.
  - intros x Hx. destruct (insertion_order_from_members [] l x Hx) as [[] | Hl]. exact Hl.
  - intros x Hx. apply insertion_order_from_covers; assumption.
Qed.

Lemma reverse_order_ok : set_order reverse_order.
Proof.
  intros l Hh. destruct (insertion_order_ok l Hh) as [Hsub Hcover].
  unfold reverse_order. split.
  - intros x Hx. apply Hsub. apply in_rev. exact Hx.
  - intros x Hx. destruct (Hcover x Hx) as (y & Hy & Hxy).
    exists y. split; [| exact Hxy]. apply in_rev. rewrite rev_involutive. exact Hy.
Qed.

(** ** The aggregation on concrete payloads *)

(** C1, at a payload the service can send: ten samples three hours apart
    from 21:00 fall on three calendar dates, and the daily list has two
    entries, because the groups are built from the first six samples only. *)
Theorem daily_groups_stop_at_six_samples :
  let items := every_3h nine_pm ten_conditions in
  let s := snd (_process_forecast_data utc insertion_order (payload items) manager0) in
  map decode items = map Some (samples_3h nine_pm ten_conditions) /\
  first_seen (map (date_of utc) (samples_3h nine_pm ten_conditions))
  = ["2023-11-14"; "2023-11-15"; "2023-11-16"] /\
  fst (_process_forecast_data utc insertion_order (payload items) manager0) = Ok tt /\
  option_map (map d_date_str) (daily_forecast s) = Some ["11/14"; "11/15"].
Proof. vm_compute. repeat split. Qed.

(** Against C3 as stated: with the conditions Rain then Clear on one date
    and a set that is iterated in the other order, the daily entry says
    Clear, where the first-seen rule of the specification says Rain. *)
Lemma tie_follows_set_order :
  set_order reverse_order /\
  option_map (map d_condition)
    (daily_forecast
       (snd (_process_forecast_data utc reverse_order
               (payload (every_3h nine_am ["Rain"; "Clear"])) manager0)))
  = Some [JStr "Clear"] /\
  dominant_first_seen [JStr "Rain"; JStr "Clear"] = Ok (JStr "Rain").
Proof. split; [exact reverse_order_ok | vm_compute; split; reflexivity]. Qed.

(** Against C8 as stated: an item without a timestamp makes the aggregation
    raise, with the hourly list reset and the daily list as it was. *)
Lemma malformed_sample_raises :
  _process_forecast_data utc insertion_order (payload [JObj [("main", JNull)]]) manager0
  = (Raise (KeyError "dt"), set_hourly_forecast (Some []) manager0).
Proof. reflexivity. Qed.


(** ** Instances of the theorems *)

Ltac each_sample tac :=
  unfold samples_3h, ten_conditions; cbn [enumerate_from map firstn];
  repeat (apply Forall_cons; [tac |]); apply Forall_nil.

Ltac in_range_all :=
  each_sample ltac:(unfold in_range; vm_compute; intuition discriminate).

Ltac hashable_all := each_sample ltac:(reflexivity).

Lemma hourly_is_first_six_witness :
  let items := every_3h nine_am ten_conditions in
  map decode (firstn 6 items) = map Some (firstn 6 (samples_3h nine_am ten_conditions)) /\
  map h_hour
    (entries (hourly_forecast
                (snd (_process_forecast_data utc insertion_order (payload items) manager0))))
  = ["9AM"; "12PM"; "3PM"; "6PM"; "9PM"; "12AM"].
Proof.
  cbv zeta.
  assert (Hdec : map decode (firstn 6 (every_3h nine_am ten_conditions))
                 = map Some (firstn 6 (samples_3h nine_am ten_conditions)))
    by (vm_compute; reflexivity).
  split; [exact Hdec |].
  destruct (hourly_is_first_six utc insertion_order
              (payload (every_3h nine_am ten_conditions))
              (every_3h nine_am ten_conditions)
              (firstn 6 (samples_3h nine_am ten_conditions)) manager0)
    as [Hh _].
  - reflexivity.
  - reflexivity.
  - exact Hdec.
  - in_range_all.
  - rewrite Hh. vm_compute. reflexivity.
Defined.

Lemma dominant_is_most_frequent_witness :
  set_order insertion_order /\
  exists ds,
    (forall s,
       daily_forecast
         (snd (_process_forecast_data utc insertion_order (payload forecast_items) s))
       = Some ds) /\
    List.length ds = 2%nat.
Proof.
  split; [exact insertion_order_ok |].
  destruct (dominant_is_most_frequent utc insertion_order (payload forecast_items)
              forecast_items (firstn 6 (samples_3h nine_pm ten_conditions)))
    as (ds & Hds & Hall).
  - exact insertion_order_ok.
  - reflexivity.
  - reflexivity.
  - vm_compute. reflexivity.
  - in_range_all.
  - hashable_all.
  - exists ds. split; [exact Hds |].
    apply Forall2_length in Hall. rewrite <- Hall. vm_compute. reflexivity.
Defined.

Ltac by_vm := vm_compute; reflexivity.

Lemma aggregation_outcomes_witness :
  _process_forecast_data utc insertion_order (JObj []) manager1 = (Ok tt, manager1) /\
  _process_forecast_data utc insertion_order (payload []) manager1
  = (Ok tt, set_daily_forecast (Some []) (set_hourly_forecast (Some []) manager1)) /\
  (exists hs ds,
     _process_forecast_data utc insertion_order (payload forecast_items) manager0
     = (Ok tt, set_daily_forecast (Some ds) (set_hourly_forecast (Some hs) manager0))) /\
  (exists e,
     fst (_process_forecast_data utc insertion_order
            (payload [item nine_am 50 "Rain"; JObj [("dt", JInt nine_am)]]) manager0)
     = Raise e) /\
  (exists e,
     fst (_process_forecast_data utc insertion_order
            (payload [item (-62135596800) 50 "Rain"]) manager0)
     = Raise e) /\
  (exists e,
     fst (_process_forecast_data utc insertion_order
            (JObj [("list", JStr "none")]) manager0)
     = Raise e) /\
  fst (_fetch_weather utc insertion_order (env_up 1000 clear_day broken_items) manager1)
  = Ok tt /\
  weather_data
    (snd (_fetch_weather utc insertion_order (env_up 1000 clear_day broken_items)
            manager1))
  = JNull.
Proof.
  split; [| split; [| split; [| split; [| split; [| split]]]]].
  - apply (aggregation_outcomes utc insertion_order (JObj []) manager1
             insertion_order_ok).
    reflexivity.
  - apply (aggregation_outcomes utc insertion_order (payload []) manager1
             insertion_order_ok) with (items := []); reflexivity.
  - apply (aggregation_outcomes utc insertion_order (payload forecast_items) manager0
             insertion_order_ok) with (items := forecast_items);
      [reflexivity | reflexivity |].
    exists (firstn 6 (samples_3h nine_pm ten_conditions)).
    split; [by_vm |]. split; [in_range_all |].
    apply Forall_forall. intros k _. unfold usable, group_samples.
    apply Forall_forall. intros smp Hsmp. apply filter_In in Hsmp.
    destruct Hsmp as [Hsmp _]. revert smp Hsmp. apply Forall_forall. hashable_all.
  - apply (aggregation_outcomes utc insertion_order
             (payload [item nine_am 50 "Rain"; JObj [("dt", JInt nine_am)]]) manager0
             insertion_order_ok)
      with (items := [item nine_am 50 "Rain"; JObj [("dt", JInt nine_am)]]);
      [reflexivity | reflexivity |].
    intros (smps & Hdec & _).
    destruct smps as [| a [| b smps]]; discriminate.
  - apply (aggregation_outcomes utc insertion_order
             (payload [item (-62135596800) 50 "Rain"]) manager0 insertion_order_ok)
      with (items := [item (-62135596800) 50 "Rain"]);
      [reflexivity | reflexivity |].
    intros (smps & Hdec & Hrange & _).
    destruct smps as [| a [| b smps]]; try discriminate.
    injection Hdec as Ha. apply Forall_inv in Hrange. rewrite <- Ha in Hrange.
    destruct Hrange as (_ & _ & (Hlo & _) & _). apply Hlo. reflexivity.
  - apply (aggregation_outcomes utc insertion_order (JObj [("list", JStr "none")])
             manager0 insertion_order_ok);
      [reflexivity | intros items; discriminate | discriminate].
  - destruct (aggregation_outcomes utc insertion_order (payload broken_items) manager0
                insertion_order_ok) as (_ & _ & _ & Hcaught).
    destruct (Hcaught (KeyError "temp") ltac:(by_vm)
                (env_up 1000 clear_day broken_items) manager1 clear_day)
      as (Hret & Hw & _).
    + reflexivity.
    + repeat split.
    + exists (JArr [JObj [("lat", JFloat 32.78); ("lon", JFloat (-96.8))]]),
             (JObj [("lat", JFloat 32.78); ("lon", JFloat (-96.8))]),
             (JFloat 32.78), (JFloat (-96.8)).
      repeat split.
    + split; [exact Hret | exact Hw].
Defined.


Lemma failed_fetch_retried_at_once_witness :
  let s1 := snd (get_weather utc insertion_order (env_down 2000) manager1) in
  weather_data s1 = JNull /\
  fetch_due (t_get (env_down 2001)) s1 = Ok true /\
  exists rest,
    events (snd (get_weather utc insertion_order (env_down 2001) s1))
    = events s1 ++ FetchAttempt :: Get Geocoding :: rest /\
    fetch_attempts rest = 0%nat.
Proof.
  exact (failed_fetch_retried_at_once utc insertion_order (env_down 2000)
           (env_down 2001) manager1 (JStr "Dallas") (JStr "Texas") (JStr "US")
           (RequestException "connection refused")
           (emit (Get Geocoding) (emit FetchAttempt manager1))
           eq_refl eq_refl eq_refl eq_refl eq_refl eq_refl).
Defined.

Lemma fetch_exactly_when_due_witness :
  fetch_attempts (events manager1) = 1%nat /\
  get_weather utc insertion_order (env_up 1100 clear_day_later forecast_items) manager1
  = (Ok clear_day, manager1).
Proof.
  destruct (fetch_exactly_when_due utc insertion_order
              (env_up 1000 clear_day forecast_items)
              (env_up 1100 clear_day_later forecast_items) manager0 (inject_Z 300)
              eq_refl)
    as (_ & _ & Hfirst & Hsecond).
  split.
  - exact (Hfirst [("api_key", JStr "key")]
             [("city", JStr "Dallas"); ("state", JStr "Texas"); ("country", JStr "US")]).
  - apply (Hsecond (events manager1)).
    + vm_compute. reflexivity.
    + vm_compute. tauto.
    + vm_compute. reflexivity.
    + vm_compute. discriminate.
Defined.

Lemma current_view_redraw_witness :
  display_weather utc insertion_order (env_up 1000 clear_day forecast_items) false
    (manager0, [])
  = (Ok tt, (fst drawn1, snd drawn1)) /\
  List.length (snd drawn1) = 5%nat /\
  last_temp (fst drawn1) = Some 72 /\
  display_weather utc insertion_order (env_up 1100 clear_day forecast_items) false
    (fst drawn1, snd drawn1)
  = (Ok tt, (fst drawn1, snd drawn1)).
Proof.
  destruct (current_view_redraw utc insertion_order
              (env_up 1000 clear_day forecast_items)
              (env_up 1100 clear_day forecast_items) false manager0 manager1
              ([] : list draw_call) clear_day 72 (JStr "Clear") (JInt 40)
              ltac:(by_vm) ltac:(by_vm) ltac:(by_vm))
    as (_ & _ & _ & _ & Hskip).
  split; [by_vm |]. split; [by_vm |]. split; [by_vm |].
  apply (Hskip (fst drawn1) (snd drawn1) clear_day (fst drawn1) (JInt 40)); by_vm.
Defined.

Lemma humidity_change_not_drawn_witness :
  let r := display_weather utc insertion_order
             (env_up 1400 clear_day_later forecast_items) false
             (fst drawn1, snd drawn1) in
  weather_data (fst (snd r)) = clear_day_later /\
  fst r = Ok tt /\ snd (snd r) = snd drawn1 /\
  last_temp (fst (snd r)) = last_temp (fst drawn1) /\
  last_condition (fst (snd r)) = last_condition (fst drawn1).
Proof.
  cbv zeta. split; [by_vm |].
  apply (humidity_change_not_drawn utc insertion_order
           (env_up 1000 clear_day forecast_items)
           (env_up 1400 clear_day_later forecast_items) false manager0 manager1
           (fst drawn1)
           (snd (get_weather utc insertion_order
                   (env_up 1400 clear_day_later forecast_items) (fst drawn1)))
           ([] : list draw_call) (snd drawn1) clear_day clear_day_later 72
           (JStr "Clear") (JInt 40) (JInt 55));
    try by_vm.
  discriminate.
Defined.

Lemma frame_gate_is_shared_witness :
  last_draw_time (fst scrolled1) = 1002%Q /\
  List.length (snd scrolled1) = 7%nat /\
  display_daily_forecast utc insertion_order env_soon false
    (fst scrolled1, snd scrolled1)
  = (Ok tt, (fst scrolled1, snd scrolled1)) /\
  last_draw_time (fst outlook1) = 1002%Q /\
  display_hourly_forecast utc insertion_order env_soon 0 false
    (fst outlook1, snd outlook1)
  = (Ok tt, (fst outlook1, snd outlook1)).
Proof.
  destruct (frame_gate_is_shared utc insertion_order
              (env_up 1000 clear_day forecast_items) env_soon 0 false manager1
              (fst scrolled1) ([] : list draw_call) (snd scrolled1)
              ltac:(by_vm) ltac:(by_vm))
    as [Hhourly _].
  destruct (frame_gate_is_shared utc insertion_order
              (env_up 1000 clear_day forecast_items) env_soon 0 false manager1
              (fst outlook1) ([] : list draw_call) (snd outlook1)
              ltac:(by_vm) ltac:(by_vm))
    as [_ Hdaily].
  destruct (Hhourly ltac:(by_vm) ltac:(by_vm)) as (_ & _ & _ & Hskip).
  destruct (Hdaily ltac:(by_vm) ltac:(by_vm)) as (_ & _ & _ & Hskip').
  split; [by_vm |]. split; [by_vm |].
  split; [apply Hskip; by_vm |].
  split; [by_vm |]. apply Hskip'. by_vm.
Defined.

(** * Further properties *)

Lemma json_eq_name (c : json) (name : string) : c = JStr name \/ c <> JStr name.
Proof.
  destruct c as [| | | | t | |]; try (right; discriminate).
  destruct (String.eqb_spec t name) as [-> | Hne]; [left; reflexivity |].
  right. intros [= Heq]. exact (Hne Heq).
Qed.

Section Further.

Variable utcoffset : Z -> Z.
Variable set_iter : list json -> list json.

Local Open Scope m_scope.

(** ** The daily summaries *)

Lemma py_round_bounds (q : Q) :
  Qfloor q <= py_round q <= Qfloor q + 1.
Proof.
  unfold py_round.
  destruct (Qcompare (q - inject_Z (Qfloor q)) (1 # 2)); [destruct (Z.even (Qfloor q)) | |];
    lia.
Qed.

Lemma py_round_monotone (a b : Q) : (a <= b)%Q -> py_round a <= py_round b.
Proof.
  intros Hab.
  pose proof (Qfloor_resp_le a b Hab) as Hfl.
  destruct (Z.eq_dec (Qfloor a) (Qfloor b)) as [Heq | Hne].
  - unfold py_round. rewrite <- Heq.
    destruct (Qcompare (a - inject_Z (Qfloor a)) (1 # 2)) eqn:Ca;
      destruct (Qcompare (b - inject_Z (Qfloor a)) (1 # 2)) eqn:Cb;
      try (destruct (Z.even (Qfloor a))); try lia; exfalso;
      repeat match goal with
             | H : Qcompare _ _ = Eq |- _ => apply Qeq_alt in H
             | H : Qcompare _ _ = Lt |- _ => apply Qlt_alt in H
             | H : Qcompare _ _ = Gt |- _ => apply Qgt_alt in H
             end;
      lra.
  - pose proof (py_round_bounds a). pose proof (py_round_bounds b). lia.
Qed.

Lemma min_from_cons (q x : Q) (l : list Q) :
  min_from q (x :: l) = min_from (if Qle_bool q x then q else x) l.
Proof. reflexivity. Qed.

Lemma max_from_cons (q x : Q) (l : list Q) :
  max_from q (x :: l) = max_from (if Qle_bool x q then q else x) l.
Proof. reflexivity. Qed.

Lemma min_from_le (q : Q) (l : list Q) : (min_from q l <= q)%Q.
Proof.
  revert q. induction l as [| x l IH]; intros q; [apply Qle_refl |].
  rewrite min_from_cons.
  destruct (Qle_bool q x) eqn:E; [apply IH |].
  eapply Qle_trans; [apply IH |].
  destruct (Qlt_le_dec x q) as [Hlt | Hle]; [apply Qlt_le_weak; exact Hlt |].
  apply Qle_bool_iff in Hle. congruence.
Qed.

Lemma max_from_ge (q : Q) (l : list Q) : (q <= max_from q l)%Q.
Proof.
  revert q. induction l as [| x l IH]; intros q; [apply Qle_refl |].
  rewrite max_from_cons.
  destruct (Qle_bool x q) eqn:E; [apply IH |].
  eapply Qle_trans; [| apply IH].
  destruct (Qlt_le_dec q x) as [Hlt | Hle]; [apply Qlt_le_weak; exact Hlt |].
  apply Qle_bool_iff in Hle. congruence.
Qed.

(** X1. On well-formed samples every daily entry has its low at or below
    its high. *)
Theorem daily_low_le_high (forecast : json) (items : list json)
    (smps : list RawForecastSample) (s : WeatherManager) :
  set_order set_iter ->
  truthy forecast = true ->
  json_get forecast "list" (JArr []) = Ok (JArr items) ->
  map decode (firstn 6 items) = map Some smps ->
  Forall (in_range utcoffset) smps ->
  Forall (fun smp => hashable (condition smp) = true) smps ->
  Forall (fun e => d_temp_low e <= d_temp_high e)
         (entries (daily_forecast
                     (snd (_process_forecast_data utcoffset set_iter forecast s)))).
Proof.
  intros Hset Ht Hget Hdec Hrange Hhash.
  destruct (process_ok utcoffset set_iter forecast items smps Hset Ht Hget Hdec
              Hrange Hhash) as (ds & Hrun & Hsum).
  rewrite Hrun. cbn [snd set_daily_forecast daily_forecast entries].
  clear Hrun. induction Hsum as [| k e ks es Hke _ IH]; constructor; [| exact IH].
  destruct Hke as (first & rest & _ & _ & _ & Hhigh & Hlow & _).
  rewrite Hhigh, Hlow. apply py_round_monotone.
  eapply Qle_trans; [apply min_from_le | apply max_from_ge].
Qed.

Lemma first_seen_from_NoDup (seen l : list string) :
  NoDup seen -> NoDup (first_seen_from seen l).
Proof.
  revert seen. induction l as [| x l IH]; intros seen Hnd; cbn [first_seen_from];
    [exact Hnd |].
  apply IH. destruct (existsb (String.eqb x) seen) eqn:E; [exact Hnd |].
  apply NoDup_app; [exact Hnd | constructor; [intros [] | constructor] |].
  intros y Hy [<- | []]. exact (existsb_eqb_false _ _ E Hy).
Qed.

(** X2. On well-formed samples the daily list has one entry for each
    calendar date met among the first six samples, in the order the dates
    are first met and cut to three: the dates are distinct, and each entry
    carries the labels of the first sample of its date and the rounded
    extremes of that date's temperatures. *)
Theorem daily_groups_of_first_six (forecast : json) (items : list json)
    (smps : list RawForecastSample) (s : WeatherManager) :
  set_order set_iter ->
  truthy forecast = true ->
  json_get forecast "list" (JArr []) = Ok (JArr items) ->
  map decode (firstn 6 items) = map Some smps ->
  Forall (in_range utcoffset) smps ->
  Forall (fun smp => hashable (condition smp) = true) smps ->
  let dates := first_seen (map (date_of utcoffset) smps) in
  exists ds,
    daily_forecast (snd (_process_forecast_data utcoffset set_iter forecast s))
    = Some ds /\
    NoDup dates /\
    List.length ds = Nat.min 3 (List.length dates) /\
    Forall2 (day_summary utcoffset set_iter smps) (firstn 3 dates) ds.
Proof.
  intros Hset Ht Hget Hdec Hrange Hhash dates.
  destruct (process_ok utcoffset set_iter forecast items smps Hset Ht Hget Hdec
              Hrange Hhash) as (ds & Hrun & Hsum).
  exists ds. rewrite Hrun. repeat split.
  - apply first_seen_from_NoDup. constructor.
  - apply Forall2_length in Hsum. rewrite <- Hsum. apply length_firstn.
  - exact Hsum.
Qed.

(** X3. A condition that occurs in a group more often than every other one
    is the dominant condition, whatever the order in which the set is
    iterated. *)
Theorem unique_mode_wins (conds : list json) (name : string) :
  set_order set_iter ->
  forallb hashable conds = true ->
  In (JStr name) conds ->
  (forall y, In y conds -> y <> JStr name ->
             (count conds y < count conds (JStr name))%nat) ->
  dominant set_iter conds = Ok (JStr name).
Proof.
  intros Hset Hh Hin Hmore.
  destruct (dominant_spec set_iter conds Hset) as (c & Hc & Hcin & Hmax & _).
  - intros ->. destruct Hin.
  - exact Hh.
  - rewrite Hc. f_equal.
    destruct (json_eq_name c name) as [Heq | Hne]; [exact Heq |].
    specialize (Hmore c Hcin Hne). specialize (Hmax (JStr name) Hin). lia.
Qed.

(** X4. Aggregating the same well-formed payload again changes nothing: the
    two lists are rebuilt from the payload, not added to. *)
Theorem aggregation_is_idempotent (forecast : json) (items : list json)
    (smps : list RawForecastSample) (s : WeatherManager) :
  set_order set_iter ->
  truthy forecast = true ->
  json_get forecast "list" (JArr []) = Ok (JArr items) ->
  map decode (firstn 6 items) = map Some smps ->
  Forall (in_range utcoffset) smps ->
  Forall (fun smp => hashable (condition smp) = true) smps ->
  _process_forecast_data utcoffset set_iter forecast
    (snd (_process_forecast_data utcoffset set_iter forecast s))
  = _process_forecast_data utcoffset set_iter forecast s.
Proof.
  intros Hset Ht Hget Hdec Hrange Hhash.
  destruct (process_ok utcoffset set_iter forecast items smps Hset Ht Hget Hdec
              Hrange Hhash) as (ds & Hrun & _).
  rewrite !Hrun. reflexivity.
Qed.

(** X5. A payload that is not an object, or whose ['list'] is neither a
    list nor a string, makes the aggregation raise before it has touched
    either list. *)
Theorem unusable_payload_raises (forecast : json) (s : WeatherManager) :
  truthy forecast = true ->
  (forall items, json_get forecast "list" (JArr []) <> Ok (JArr items)) ->
  (forall text, json_get forecast "list" (JArr []) <> Ok (JStr text)) ->
  exists e, _process_forecast_data utcoffset set_iter forecast s = (Raise e, s).
Proof.
  intros Ht Hlist Hstr. unfold _process_forecast_data. rewrite Ht. cbn [negb].
  unfold bind at 1, lift at 1.
  destruct (json_get forecast "list" (JArr [])) as [l | e]; [| eauto].
  unfold bind at 1, lift at 1.
  destruct l; cbn [slice6]; eauto.
  - exfalso. exact (Hstr s0 eq_refl).
  - exfalso. exact (Hlist l eq_refl).
Qed.



Lemma decoded_not_malformed (items : list json) (smps : list RawForecastSample) :
  map decode items = map Some smps ->
  Forall (in_range utcoffset) smps ->
  ~ Exists (malformed utcoffset) items.
Proof.
  revert smps. induction items as [| it items IH]; intros [| smp smps] Hdec Hrange Hex;
    try discriminate.
  - inversion Hex.
  - cbn [map] in Hdec. injection Hdec as Hit Hdec.
    inversion Hrange as [| ? ? Hsmp Hrange']; subst.
    inversion Hex as [? ? Hbad | ? ? Hlater]; subst.
    + exact (Hbad smp Hit Hsmp).
    + exact (IH smps Hdec Hrange' Hlater).
Qed.

(** X6. When one of the first six items is not a well-formed sample (a field
    is missing or of the wrong kind, or the timestamp is refused), the
    aggregation raises at the first such item: the hourly list holds exactly
    the entries of the items before it, fewer than six, whatever it held
    before, and the rest of the manager, the daily list included, is as it
    was before the call. *)
Theorem malformed_sample_cuts_hourly_short (forecast : json) (items : list json)
    (s : WeatherManager) :
  truthy forecast = true ->
  json_get forecast "list" (JArr []) = Ok (JArr items) ->
  Exists (malformed utcoffset) (firstn 6 items) ->
  exists good bad rest smps e,
    firstn 6 items = good ++ bad :: rest /\
    map decode good = map Some smps /\
    Forall (in_range utcoffset) smps /\
    malformed utcoffset bad /\
    _process_forecast_data utcoffset set_iter forecast s
    = (Raise e, set_hourly_forecast (Some (map (hourly_of utcoffset) smps)) s) /\
    (List.length smps < 6)%nat.
Proof.
  intros Ht Hget Hex.
  destruct (first_malformed utcoffset (firstn 6 items))
    as [(smps & Hdec & Hrange) | (good & bad & rest & smps & Hsplit & Hdec & Hrange & Hbad)].
  - exfalso. exact (decoded_not_malformed _ _ Hdec Hrange Hex).
  - destruct (process_stops_at utcoffset set_iter forecast items good bad rest smps
                Ht Hget Hsplit Hdec Hrange Hbad) as (e & Hrun).
    exists good, bad, rest, smps, e. repeat split; try assumption; [apply Hrun |].
    pose proof (firstn_le_length 6 items) as Hlen.
    rewrite Hsplit, length_app in Hlen. cbn [List.length] in Hlen.
    rewrite <- (length_map Some smps), <- Hdec, length_map. lia.
Qed.

(** ** The cache *)

Ltac frame_steps :=
  repeat
    (cbv beta;
     match goal with
     | |- within _ (ret _) => apply within_ret
     | |- within _ (raise _) => apply within_raise
     | |- within _ (lift _) => apply within_lift
     | |- within _ (gets _) => apply within_gets
     | |- within _ (bind _ _) => apply within_bind; [| | intro]
     | |- within _ (try_except _ _) => apply within_try_except; [| | intro]
     | |- within _ (for_each _ _) => apply within_for_each; [| | intro]
     | |- within _ (if ?b then _ else _) => destruct b
     | |- forall s, ?R s s => solve [auto]
     | |- forall a b c, ?R a b -> ?R b c -> ?R a c => solve [eauto]
     end).

Lemma requests_app (a b : list event) :
  requests (a ++ b) = requests a ++ requests b.
Proof.
  induction a as [| e a IH]; [reflexivity |].
  destruct e; cbn [app requests]; rewrite IH; reflexivity.
Qed.

(** X7. With no API key configured, a call of [get_weather] that is due
    sends no request: it prints the line about the key and hands back what
    the cache held, with everything but the trace as it was. *)
Theorem no_key_no_request (env : Env) (s : WeatherManager) :
  has_api_key s = false ->
  fetch_due (t_get env) s = Ok true ->
  get_weather utcoffset set_iter env s
  = (Ok (weather_data s), emit (Print no_key_line) (emit FetchAttempt s)) /\
  requests (events (snd (get_weather utcoffset set_iter env s))) = requests (events s).
Proof.
  intros Hkey Hdue.
  rewrite (get_weather_due utcoffset set_iter env s Hdue).
  rewrite (fetch_no_key utcoffset set_iter env s Hkey). split; [reflexivity |].
  cbn [snd events emit]. rewrite !requests_app. cbn [requests].
  rewrite !app_nil_r. reflexivity.
Qed.

(** X8. With a key configured but no city in the location, a call of
    [get_weather] that is due raises [KeyError] to its caller: the lookup
    sits before the [try], and no request has been sent by then. *)
Theorem missing_city_escapes (env : Env) (s : WeatherManager) :
  has_api_key s = true ->
  assoc "city" (location s) = None ->
  fetch_due (t_get env) s = Ok true ->
  get_weather utcoffset set_iter env s
  = (Raise (KeyError "city"), emit FetchAttempt s).
Proof.
  unfold has_api_key. intros Hkey Hcity Hdue.
  rewrite (get_weather_due utcoffset set_iter env s Hdue).
  assert (Hrun : _fetch_weather utcoffset set_iter env s
                 = (Raise (KeyError "city"), emit FetchAttempt s)).
  { assert (Hc : dict_getitem (location s) "city" = Raise (KeyError "city")).
    { unfold dict_getitem. rewrite Hcity. reflexivity. }
    unfold _fetch_weather, bind, modify, gets, lift. simpl.
    rewrite Hkey. simpl. rewrite Hc. reflexivity. }
  rewrite Hrun. reflexivity.
Qed.

(** X9. [get_weather] never changes what the views and the configuration
    hold: the time of the last draw, the recorded key of the current view,
    the scroll position, the weather configuration and the location. *)
Theorem get_weather_leaves_views_alone (env : Env) (s : WeatherManager) :
  same_view s (snd (get_weather utcoffset set_iter env s)).
Proof. apply get_weather_same_view. Qed.

(** X10. A fetch whose three requests are answered, with a place found and
    well-formed samples, stores the two payloads and the time, rebuilds the
    hourly list, prints the success line, and [get_weather] hands back the
    new current conditions. *)
Theorem successful_fetch_stores_all (env : Env) (s : WeatherManager)
    (city state country geo g0 lat lon w f : json) (items : list json)
    (smps : list RawForecastSample) :
  set_order set_iter ->
  fetch_due (t_get env) s = Ok true ->
  has_api_key s = true ->
  dict_getitem (location s) "city" = Ok city ->
  dict_getitem (location s) "state" = Ok state ->
  dict_getitem (location s) "country" = Ok country ->
  http env Geocoding = Ok geo ->
  getitem0 geo = Ok g0 ->
  getitem g0 "lat" = Ok lat ->
  getitem g0 "lon" = Ok lon ->
  http env CurrentWeather = Ok w ->
  http env Forecast = Ok f ->
  truthy f = true ->
  json_get f "list" (JArr []) = Ok (JArr items) ->
  map decode (firstn 6 items) = map Some smps ->
  Forall (in_range utcoffset) smps ->
  Forall (fun smp => hashable (condition smp) = true) smps ->
  let s' := snd (get_weather utcoffset set_iter env s) in
  fst (get_weather utcoffset set_iter env s) = Ok w /\
  weather_data s' = w /\ forecast_data s' = f /\
  last_update s' = t_fetched env /\
  hourly_forecast s' = Some (map (hourly_of utcoffset) smps) /\
  events s'
  = events s ++ [FetchAttempt; Get Geocoding; Get CurrentWeather; Get Forecast;
                 Print success_line].
Proof.
  intros Hset Hdue Hkey Hcity Hstate Hcountry Hgeo Hg0 Hlat Hlon Hcur Hfor
         Ht Hget Hdec Hrange Hhash s'.
  subst s'. rewrite (get_weather_due utcoffset set_iter env s Hdue).
  rewrite (fetch_with_key utcoffset set_iter env s city state country Hkey Hcity
             Hstate Hcountry).
  unfold try_except.
  rewrite (guarded_reaches_process utcoffset set_iter env city state geo g0 lat lon w f _
             Hgeo Hg0 Hlat Hlon Hcur Hfor).
  destruct (process_ok utcoffset set_iter f items smps Hset Ht Hget Hdec Hrange Hhash)
    as (ds & Hrun & _).
  rewrite Hrun. cbn. rewrite <- !app_assoc. repeat split.
Qed.


(** X12. When the geocoding request is answered with an empty result, no
    further request is sent and the cache is left as it was, payloads, lists
    and time of the last update included: [get_weather] hands back what it
    held. *)
Theorem unresolved_place_keeps_cache (env : Env) (s : WeatherManager)
    (city state country geo : json) :
  fetch_due (t_get env) s = Ok true ->
  has_api_key s = true ->
  dict_getitem (location s) "city" = Ok city ->
  dict_getitem (location s) "state" = Ok state ->
  dict_getitem (location s) "country" = Ok country ->
  http env Geocoding = Ok geo ->
  truthy geo = false ->
  get_weather utcoffset set_iter env s
  = (Ok (weather_data s),
     emit (Print (unresolved_line city state))
          (emit (Get Geocoding) (emit FetchAttempt s))).
Proof.
  intros Hdue Hkey Hcity Hstate Hcountry Hgeo Ht.
  rewrite (get_weather_due utcoffset set_iter env s Hdue).
  rewrite (fetch_with_key utcoffset set_iter env s city state country Hkey Hcity
             Hstate Hcountry).
  unfold try_except.
  rewrite (guarded_unresolved utcoffset set_iter env city state geo _ Hgeo Ht).
  reflexivity.
Qed.

(** *** The requests of a call *)

Ltac close_path l :=
  exists l; split;
  [ cbn [events emit set_weather_data set_forecast_data set_last_update snd];
    rewrite <- ?app_assoc; reflexivity
  | split; [cbn [requests]; eexists; reflexivity | reflexivity] ].

Lemma guarded_requests (env : Env) (city state : json) (s : WeatherManager) :
  exists rest,
    events (snd (fetch_guarded utcoffset set_iter env city state s)) = events s ++ rest /\
    prefix_of (requests rest) request_order /\
    forallb (fun e => negb (is_fetch_attempt e)) rest = true.
Proof.
  unfold fetch_guarded, request, print, bind, modify, lift, gets.
  set (P := _process_forecast_data utcoffset set_iter).
  unfold prefix_of, request_order. simpl.
  destruct (http env Geocoding) as [geo | e]; simpl;
    [| close_path [Get Geocoding]].
  destruct (truthy geo); simpl;
    [| close_path [Get Geocoding; Print (unresolved_line city state)]].
  destruct (getitem0 geo) as [g0 | e]; simpl; [| close_path [Get Geocoding]].
  destruct (getitem g0 "lat") as [lat | e]; simpl; [| close_path [Get Geocoding]].
  destruct (getitem g0 "lon") as [lon | e]; simpl; [| close_path [Get Geocoding]].
  destruct (http env CurrentWeather) as [w | e]; simpl;
    [| close_path [Get Geocoding; Get CurrentWeather]].
  destruct (http env Forecast) as [f | e]; simpl;
    [| close_path [Get Geocoding; Get CurrentWeather; Get Forecast]].
  match goal with
  | |- context [P f ?s0] =>
      pose proof (only_lists_events _ _ (process_only_lists utcoffset set_iter f s0))
        as Hev;
      fold P in Hev; destruct (P f s0) as [[[] | e] sP]
  end; cbn [snd] in Hev; simpl in Hev.
  - exists [Get Geocoding; Get CurrentWeather; Get Forecast; Print success_line].
    split; [| split; [exists []; reflexivity | reflexivity]].
    cbn [snd events emit set_last_update]. rewrite Hev, <- !app_assoc. reflexivity.
  - exists [Get Geocoding; Get CurrentWeather; Get Forecast].
    split; [| split; [exists []; reflexivity | reflexivity]].
    cbn [snd]. rewrite Hev, <- !app_assoc. reflexivity.
Qed.

(** X13. Whatever the service answers, one call of [get_weather] enters
    [_fetch_weather] at most once and sends its requests in the order
    geocoding, current weather, forecast, none of them twice and none
    without the one before it. *)
Theorem requests_follow_order (env : Env) (s : WeatherManager) :
  exists rest,
    events (snd (get_weather utcoffset set_iter env s)) = events s ++ rest /\
    prefix_of (requests rest) request_order /\
    (fetch_attempts rest <= 1)%nat.
Proof.
  assert (Hnone : exists rest : list event,
             events s = events s ++ rest /\
             prefix_of (requests rest) request_order /\
             (fetch_attempts rest <= 1)%nat).
  { exists []. rewrite app_nil_r. repeat split; [eexists; reflexivity | cbn; lia]. }
  destruct (fetch_due (t_get env) s) as [[|] | x] eqn:Hdue.
  - rewrite (get_weather_due utcoffset set_iter env s Hdue). cbn [snd].
    destruct (has_api_key s) eqn:Hkey.
    + destruct (has_location_dec s) as [Hloc | Hloc].
      * destruct Hloc as (Hc & Hs & Ho).
        destruct (dict_getitem (location s) "city") as [city | y] eqn:Ec;
          [| discriminate].
        destruct (dict_getitem (location s) "state") as [state | y] eqn:Es;
          [| discriminate].
        destruct (dict_getitem (location s) "country") as [country | y] eqn:Eo;
          [| discriminate].
        rewrite (fetch_with_key utcoffset set_iter env s city state country Hkey Ec Es Eo).
        unfold try_except.
        destruct (guarded_requests env city state (emit FetchAttempt s))
          as (rest & Hev & Hpre & Hq).
        destruct (fetch_guarded utcoffset set_iter env city state (emit FetchAttempt s))
          as [[[] | e] s2]; cbn [snd] in *.
        -- exists (FetchAttempt :: rest). rewrite Hev. cbn [events emit].
           rewrite <- app_assoc. repeat split; [exact Hpre |].
           unfold fetch_attempts. cbn [filter is_fetch_attempt List.length].
           fold (fetch_attempts rest). rewrite (quiet_no_attempts rest Hq). lia.
        -- exists (FetchAttempt :: rest ++ [Print (error_line e)]).
           rewrite fetch_handler_run. cbn [snd events emit set_weather_data
                                           set_forecast_data].
           rewrite Hev. cbn [events emit]. rewrite <- !app_assoc. repeat split.
           ++ cbn [requests]. rewrite requests_app. cbn [requests].
              rewrite app_nil_r. exact Hpre.
           ++ assert (Hq' : forallb (fun e0 => negb (is_fetch_attempt e0))
                              (rest ++ [Print (error_line e)]) = true).
              { rewrite forallb_app, Hq. reflexivity. }
              unfold fetch_attempts. cbn [app filter is_fetch_attempt List.length].
              fold (fetch_attempts (rest ++ [Print (error_line e)])).
              rewrite (quiet_no_attempts _ Hq'). lia.
      * destruct (fetch_without_location utcoffset set_iter env s Hkey Hloc) as (e & He).
        rewrite He. exists [FetchAttempt]. cbn [snd events emit].
        repeat split; [eexists; reflexivity | cbn; lia].
    + rewrite (fetch_no_key utcoffset set_iter env s Hkey).
      exists [FetchAttempt; Print no_key_line]. cbn [snd events emit].
      rewrite <- app_assoc. repeat split; [eexists; reflexivity | cbn; lia].
  - rewrite (get_weather_not_due utcoffset set_iter env s Hdue). exact Hnone.
  - unfold get_weather, bind, gets, lift. rewrite Hdue. exact Hnone.
Qed.

(** *** The sizes of the two lists *)

Lemma bounded_same_lists (s s' : WeatherManager) :
  hourly_forecast s' = hourly_forecast s ->
  daily_forecast s' = daily_forecast s ->
  bounded s -> bounded s'.
Proof. unfold bounded. intros -> ->. tauto. Qed.

Lemma hourly_loop_length (items : list json) (s : WeatherManager) :
  (List.length (entries (hourly_forecast
                           (snd (for_each items (hourly_body utcoffset) s))))
   <= List.length (entries (hourly_forecast s)) + List.length items)%nat /\
  daily_forecast (snd (for_each items (hourly_body utcoffset) s)) = daily_forecast s.
Proof.
  revert s. induction items as [| it items IH]; intros s; cbn [for_each].
  - cbn. split; [lia | reflexivity].
  - unfold bind. rewrite !hourly_body_run.
    destruct (hourly_entry utcoffset it) as [e | x].
    + destruct (IH (append_hourly e s)) as [Hlen Hd]. split.
      * eapply Nat.le_trans; [exact Hlen |].
        unfold append_hourly. cbn [hourly_forecast set_hourly_forecast entries].
        rewrite length_app. cbn [List.length].
        destruct (hourly_forecast s); cbn [entries List.length]; lia.
      * rewrite Hd. reflexivity.
    + cbn [snd List.length]. split; [lia | reflexivity].
Qed.

Lemma daily_loop_length (groups : list (string * DayGroup)) (s : WeatherManager) :
  (List.length (entries (daily_forecast
                           (snd (for_each groups (daily_body set_iter) s))))
   <= List.length (entries (daily_forecast s)) + List.length groups)%nat /\
  hourly_forecast (snd (for_each groups (daily_body set_iter) s)) = hourly_forecast s.
Proof.
  revert s. induction groups as [| kv groups IH]; intros s; cbn [for_each].
  - cbn. split; [lia | reflexivity].
  - unfold bind. rewrite !daily_body_run.
    destruct (daily_entry set_iter (snd kv)) as [e | x].
    + destruct (IH (append_daily e s)) as [Hlen Hh]. split.
      * eapply Nat.le_trans; [exact Hlen |].
        unfold append_daily. cbn [daily_forecast set_daily_forecast entries].
        rewrite length_app. cbn [List.length].
        destruct (daily_forecast s); cbn [entries List.length]; lia.
      * rewrite Hh. reflexivity.
    + cbn [snd List.length]. split; [lia | reflexivity].
Qed.

Lemma slice6_length (l : json) (items : list json) :
  slice6 l = Ok items -> (List.length items <= 6)%nat.
Proof.
  destruct l as [| | | | t | l | kv]; unfold slice6; try discriminate; intros H.
  - assert (Hi : items = firstn 6 (chars t)) by congruence.
    rewrite Hi. apply firstn_le_length.
  - assert (Hi : items = firstn 6 l) by congruence.
    rewrite Hi. apply firstn_le_length.
Qed.

Lemma process_bounded (forecast : json) (s : WeatherManager) :
  bounded s -> bounded (snd (_process_forecast_data utcoffset set_iter forecast s)).
Proof.
  intros Hb. unfold _process_forecast_data.
  destruct (truthy forecast); cbn [negb]; [| exact Hb].
  unfold bind at 1, lift at 1.
  destruct (json_get forecast "list" (JArr [])) as [l | e]; [| exact Hb].
  unfold bind at 1, lift at 1.
  destruct (slice6 l) as [items | e] eqn:Hslice; [| exact Hb].
  apply slice6_length in Hslice.
  unfold bind at 1, modify at 1. unfold bind at 1.
  destruct (hourly_loop_length items (set_hourly_forecast (Some []) s)) as [Hlen Hd].
  destruct (for_each items (hourly_body utcoffset) (set_hourly_forecast (Some []) s))
    as [[[] | e] s1]; cbn [snd] in *.
  - cbn [hourly_forecast set_hourly_forecast entries List.length] in Hlen.
    cbn [daily_forecast set_daily_forecast] in Hd.
    assert (Hb1 : bounded s1).
    { split; [lia | rewrite Hd; apply Hb]. }
    unfold daily_part, bind at 1, lift at 1.
    destruct (fold_result (daily_step utcoffset) items []) as [dd | e]; [| exact Hb1].
    unfold bind at 1, modify at 1.
    destruct (daily_loop_length (firstn 3 dd) (set_daily_forecast (Some []) s1))
      as [Hlen' Hh].
    cbn [daily_forecast set_daily_forecast entries List.length] in Hlen'.
    cbn [hourly_forecast set_daily_forecast] in Hh.
    pose proof (firstn_le_length 3 dd).
    split; [rewrite Hh; apply Hb1 | lia].
  - cbn [hourly_forecast set_hourly_forecast entries List.length] in Hlen.
    cbn [daily_forecast set_daily_forecast] in Hd.
    split; [lia | rewrite Hd; apply Hb].
Qed.

(** X14. The hourly list never holds more than six entries and the daily
    list never more than three: a new manager has none, and no call of
    [get_weather] can break the bound, whatever the service answers. *)
Theorem lists_stay_bounded (env : Env) (s : WeatherManager) :
  (forall cfg loc, bounded (init cfg loc)) /\
  (bounded s -> bounded (snd (get_weather utcoffset set_iter env s))).
Proof.
  split; [intros cfg loc; split; cbn; lia |].
  intros Hb.
  set (R := fun a b : WeatherManager => bounded a -> bounded b).
  assert (Hrefl : forall a, R a a) by (intros a Ha; exact Ha).
  assert (Htrans : forall a b c, R a b -> R b c -> R a c)
    by (intros a b c Hab Hbc Ha; exact (Hbc (Hab Ha))).
  assert (Hkeep : forall a b,
             hourly_forecast b = hourly_forecast a ->
             daily_forecast b = daily_forecast a -> R a b)
    by (intros a b Hh Hd; exact (bounded_same_lists a b Hh Hd)).
  assert (Hfetch : within R (_fetch_weather utcoffset set_iter env)).
  { unfold _fetch_weather, fetch_guarded, fetch_handler, request, print.
    frame_steps;
      try (apply within_modify; intros st; apply Hkeep; reflexivity).
    intros st Hst. exact (process_bounded _ st Hst). }
  unfold get_weather, bind, gets, lift, ret.
  destruct (fetch_due (t_get env) s) as [[|] | x]; cbn [snd]; try exact Hb.
  specialize (Hfetch s Hb).
  destruct (_fetch_weather utcoffset set_iter env s) as [[[] | e] s']; exact Hfetch.
Qed.

(** ** The views *)

Section Views.

Context {D : Type} `{DisplayManager D}.

(** X15. Without a snapshot nothing is drawn, [force_clear] or not:
    [display_weather] returns at once, leaving the display and the recorded
    key as they are. *)
Theorem no_snapshot_nothing_drawn (env : Env) (force : bool) (s s1 : WeatherManager)
    (d : D) (w : json) :
  get_weather utcoffset set_iter env s = (Ok w, s1) ->
  truthy w = false ->
  display_weather utcoffset set_iter env force (s, d) = (Ok tt, (s1, d)).
Proof.
  intros Hget Ht. unfold display_weather, bind at 1, on_self at 1.
  rewrite Hget, Ht. reflexivity.
Qed.

(** X16. A snapshot that lacks one of the fields [display_weather] reads
    (temperature, condition or humidity) makes it raise before anything is
    drawn, also when no redraw would have been due. *)
Theorem payload_without_fields_raises (env : Env) (force : bool)
    (s s1 : WeatherManager) (d : D) (w : json) (e : exn) :
  get_weather utcoffset set_iter env s = (Ok w, s1) ->
  truthy w = true ->
  current_fields w = Raise e ->
  display_weather utcoffset set_iter env force (s, d) = (Raise e, (s1, d)).
Proof.
  intros Hget Ht Hf. unfold display_weather, bind at 1, on_self at 1.
  rewrite Hget, Ht. cbn [negb].
  unfold current_fields in Hf. unfold bind, lift, gets.
  destruct (getitem w "main") as [main | x]; cbn [rbind] in Hf; [| congruence].
  destruct (getitem main "temp") as [t | x]; cbn [rbind] in Hf; [| congruence].
  destruct (round_json t) as [temp | x]; cbn [rbind] in Hf; [| congruence].
  destruct (getitem w "weather") as [w1 | x]; cbn [rbind] in Hf; [| congruence].
  destruct (getitem0 w1) as [w0 | x]; cbn [rbind] in Hf; [| congruence].
  destruct (getitem w0 "main") as [c | x]; cbn [rbind] in Hf; [| congruence].
  destruct (getitem main "humidity") as [h | x]; cbn [rbind] in Hf; [| congruence].
  discriminate.
Qed.

(** X17. Once a forecast view has a list to show it never asks for new
    data: [display_hourly_forecast] and [display_daily_forecast] leave the
    manager as it is, or only set the time of the last draw, however old the
    data and whatever the clock reads. *)
Theorem forecast_views_do_not_refresh (env : Env) (scroll_pos : Z) (force : bool)
    (s : WeatherManager) (d : D) :
  (nonempty (hourly_forecast s) = true ->
   let s' := fst (snd (display_hourly_forecast utcoffset set_iter env scroll_pos
                         force (s, d))) in
   s' = s \/ s' = set_last_draw_time (t_draw env) s) /\
  (nonempty (daily_forecast s) = true ->
   let s' := fst (snd (display_daily_forecast utcoffset set_iter env force (s, d))) in
   s' = s \/ s' = set_last_draw_time (t_draw env) s).
Proof.
  split; intros Hne s'; subst s'.
  - rewrite (display_hourly_run utcoffset set_iter env scroll_pos force s d Hne).
    destruct (too_soon force (t_draw env) s); [left; reflexivity |].
    destruct (draw_hourly scroll_pos force (entries (hourly_forecast s)) d)
      as [[[] | e] d']; [right | left]; reflexivity.
  - rewrite (display_daily_run utcoffset set_iter env force s d Hne).
    destruct (too_soon force (t_draw env) s); [left; reflexivity |].
    destruct (draw_daily force (entries (daily_forecast s)) d)
      as [[[] | e] d']; [right | left]; reflexivity.
Qed.

(** X18. At scroll position 0 the hourly view draws its first entry only:
    every later entry starts to the right of the display and is passed
    over. *)
Theorem unscrolled_hourly_shows_one (display_width display_height n i : Z)
    (forecast : HourlyEntry) (d : D) :
  2 <= display_width ->
  1 <= i ->
  draw_hour 0 display_width display_height (display_width / 2) n (i, forecast) d
  = (Ok tt, d).
Proof.
  intros Hw Hi. unfold draw_hour. cbn [fst snd].
  assert (Hhalf : 1 <= display_width / 2).
  { apply Z.div_le_lower_bound; lia. }
  assert (Hright : (display_width <? display_width - 0 + i * (display_width / 2)) = true).
  { apply Z.ltb_lt. nia. }
  rewrite Hright, orb_true_r. reflexivity.
Qed.

End Views.

(** ** With the display manager of [src/display_manager.py] *)

(** X19. Handed the [DisplayManager] of this repository, no view completes a
    draw: the first [draw_text] is a [TypeError] for its [small_font]
    keyword. For the current view the image buffer has been replaced by a
    new black one by then, and the key is not recorded, so every later call
    tries again. *)
Theorem panel_cannot_draw (env : Env) (force : bool) (scroll_pos : Z)
    (s s1 : WeatherManager) (d : PanelDisplay) (w : json) (temp : Z)
    (cond hum : json) :
  get_weather utcoffset set_iter env s = (Ok w, s1) ->
  truthy w = true ->
  current_fields w = Ok (temp, cond, hum) ->
  (current_changed force temp cond s1 = Ok true ->
   display_weather utcoffset set_iter env force (s, d)
   = (Raise TypeError, (s1, panel_new_image (if force then panel_clear d else d)))) /\
  (nonempty (hourly_forecast s) = true ->
   too_soon force (t_draw env) s = false ->
   display_hourly_forecast utcoffset set_iter env scroll_pos force (s, d)
   = (Raise TypeError, (s, panel_new_image (if force then panel_clear d else d)))) /\
  (nonempty (daily_forecast s) = true ->
   too_soon force (t_draw env) s = false ->
   display_daily_forecast utcoffset set_iter env force (s, d)
   = (Raise TypeError, (s, panel_new_image (if force then panel_clear d else d)))).
Proof.
  intros Hget Ht Hf. repeat split.
  - intros Hc.
    rewrite (display_weather_run utcoffset set_iter env force s s1 d w temp cond hum
               Hget Ht Hf), Hc.
    destruct force; reflexivity.
  - intros Hne Hsoon.
    rewrite (display_hourly_run utcoffset set_iter env scroll_pos force s d Hne), Hsoon.
    destruct force; reflexivity.
  - intros Hne Hsoon.
    rewrite (display_daily_run utcoffset set_iter env force s d Hne), Hsoon.
    destruct force; reflexivity.
Qed.

Lemma panel_draw_all_size (calls : list text_call) (d : PanelDisplay) :
  pd_width (panel_draw_all calls d) = pd_width d /\
  pd_height (panel_draw_all calls d) = pd_height d.
Proof.
  revert d. induction calls as [| [[[t a] b] c] calls IH]; intros d; [split; reflexivity |].
  destruct (IH (panel_draw_text t a b c d)) as [Hw Hh].
  split; [exact Hw | exact Hh].
Qed.

(** X20. [DisplayManager.draw_text] clears before it draws: after any
    number of calls the image and the panel hold the text of the last call
    and nothing else, on a display of the same size. *)
Theorem panel_shows_last_text (calls : list text_call) (text : string) (x y : Z)
    (fill : color) (d : PanelDisplay) :
  let d' := panel_draw_all (calls ++ [(text, x, y, fill)]) d in
  pd_image d' = [PaintText text x y fill] /\
  pd_shown d' = [PaintText text x y fill] /\
  pd_width d' = pd_width d /\ pd_height d' = pd_height d.
Proof.
  intros d'. subst d'.
  destruct (panel_draw_all_size (calls ++ [(text, x, y, fill)]) d) as [Hw Hh].
  split; [| split; [| split; assumption]];
    unfold panel_draw_all; rewrite fold_left_app; reflexivity.
Qed.

End Further.

(** ** Instances of the further properties *)

Lemma daily_low_le_high_witness :
  Forall (fun e => d_temp_low e <= d_temp_high e)
         (entries (daily_forecast
                     (snd (_process_forecast_data utc insertion_order
                             (payload forecast_items) manager0)))).
Proof.
  apply (daily_low_le_high utc insertion_order (payload forecast_items)
           forecast_items (firstn 6 (samples_3h nine_pm ten_conditions)) manager0
           insertion_order_ok).
  - reflexivity.
  - reflexivity.
  - by_vm.
  - in_range_all.
  - hashable_all.
Defined.

Lemma daily_groups_of_first_six_witness :
  exists ds,
    daily_forecast
      (snd (_process_forecast_data utc insertion_order (payload forecast_items) manager0))
    = Some ds /\
    List.length ds = 2%nat.
Proof.
  destruct (daily_groups_of_first_six utc insertion_order (payload forecast_items)
              forecast_items (firstn 6 (samples_3h nine_pm ten_conditions)) manager0
              insertion_order_ok)
    as (ds & Hds & _ & Hlen & _).
  - reflexivity.
  - reflexivity.
  - by_vm.
  - in_range_all.
  - hashable_all.
  - exists ds. split; [exact Hds |]. rewrite Hlen. by_vm.
Defined.

Lemma unique_mode_wins_witness :
  dominant insertion_order [JStr "Rain"; JStr "Clear"; JStr "Rain"] = Ok (JStr "Rain").
Proof.
  apply (unique_mode_wins insertion_order [JStr "Rain"; JStr "Clear"; JStr "Rain"]
           "Rain" insertion_order_ok).
  - reflexivity.
  - left. reflexivity.
  - intros y [<- | [<- | [<- | []]]] Hne; try congruence.
    vm_compute. lia.
Defined.

Lemma aggregation_is_idempotent_witness :
  _process_forecast_data utc insertion_order (payload forecast_items)
    (snd (_process_forecast_data utc insertion_order (payload forecast_items) manager0))
  = _process_forecast_data utc insertion_order (payload forecast_items) manager0.
Proof.
  apply (aggregation_is_idempotent utc insertion_order (payload forecast_items)
           forecast_items (firstn 6 (samples_3h nine_pm ten_conditions)) manager0
           insertion_order_ok).
  - reflexivity.
  - reflexivity.
  - by_vm.
  - in_range_all.
  - hashable_all.
Defined.

Lemma unusable_payload_raises_witness :
  exists e,
    _process_forecast_data utc insertion_order (JObj [("list", JInt 5)]) manager1
    = (Raise e, manager1).
Proof.
  apply (unusable_payload_raises utc insertion_order (JObj [("list", JInt 5)]) manager1).
  - reflexivity.
  - intros items. discriminate.
  - intros text. discriminate.
Defined.

Lemma malformed_sample_cuts_hourly_short_witness :
  exists good bad rest smps e,
    firstn 6 broken_items = good ++ bad :: rest /\
    map decode good = map Some smps /\
    Forall (in_range utc) smps /\
    malformed utc bad /\
    _process_forecast_data utc insertion_order (payload broken_items) manager1
    = (Raise e, set_hourly_forecast (Some (map (hourly_of utc) smps)) manager1) /\
    (List.length smps < 6)%nat.
Proof.
  apply (malformed_sample_cuts_hourly_short utc insertion_order (payload broken_items)
           broken_items manager1).
  - reflexivity.
  - reflexivity.
  - apply Exists_exists.
    exists (JObj [("dt", JInt (nine_am + 32400)); ("main", JObj [])]).
    split; [vm_compute; do 3 right; left; reflexivity |].
    intros smp Hsmp. discriminate.
Defined.

Lemma no_key_no_request_witness :
  get_weather utc insertion_order (env_up 1000 clear_day forecast_items) manager_no_key
  = (Ok JNull, emit (Print no_key_line) (emit FetchAttempt manager_no_key)) /\
  requests (events (snd (get_weather utc insertion_order
                           (env_up 1000 clear_day forecast_items) manager_no_key)))
  = [].
Proof.
  exact (no_key_no_request utc insertion_order (env_up 1000 clear_day forecast_items)
           manager_no_key eq_refl eq_refl).
Defined.

Lemma missing_city_escapes_witness :
  get_weather utc insertion_order (env_up 1000 clear_day forecast_items) manager_no_city
  = (Raise (KeyError "city"), emit FetchAttempt manager_no_city).
Proof.
  exact (missing_city_escapes utc insertion_order (env_up 1000 clear_day forecast_items)
           manager_no_city eq_refl eq_refl eq_refl).
Defined.

Lemma successful_fetch_stores_all_witness :
  let env := env_up 1000 clear_day forecast_items in
  let s' := snd (get_weather utc insertion_order env manager0) in
  fst (get_weather utc insertion_order env manager0) = Ok clear_day /\
  weather_data s' = clear_day /\ forecast_data s' = payload forecast_items /\
  last_update s' = 1001%Q /\
  option_map (map h_hour) (hourly_forecast s')
  = Some ["9PM"; "12AM"; "3AM"; "6AM"; "9AM"; "12PM"] /\
  events s'
  = [FetchAttempt; Get Geocoding; Get CurrentWeather; Get Forecast;
     Print success_line].
Proof.
  cbv zeta.
  assert (Hrange : Forall (in_range utc) (firstn 6 (samples_3h nine_pm ten_conditions)))
    by in_range_all.
  assert (Hhash : Forall (fun smp => hashable (condition smp) = true)
                    (firstn 6 (samples_3h nine_pm ten_conditions)))
    by hashable_all.
  pose proof (successful_fetch_stores_all utc insertion_order
                (env_up 1000 clear_day forecast_items) manager0
                (JStr "Dallas") (JStr "Texas") (JStr "US")
                (JArr [JObj [("lat", JFloat 32.78); ("lon", JFloat (-96.8))]])
                (JObj [("lat", JFloat 32.78); ("lon", JFloat (-96.8))])
                (JFloat 32.78) (JFloat (-96.8)) clear_day (payload forecast_items)
                forecast_items (firstn 6 (samples_3h nine_pm ten_conditions))
                insertion_order_ok eq_refl eq_refl eq_refl eq_refl eq_refl eq_refl
                eq_refl eq_refl eq_refl eq_refl eq_refl eq_refl eq_refl
                ltac:(by_vm) Hrange Hhash)
    as Hall.
  cbv zeta in Hall. destruct Hall as (Hret & Hw & Hf & Ht & Hh & Hev).
  repeat (split; [assumption |]).
  split; [rewrite Hh; by_vm | exact Hev].
Defined.


Lemma unresolved_place_keeps_cache_witness :
  get_weather utc insertion_order env_unresolved manager1
  = (Ok clear_day,
     emit (Print (unresolved_line (JStr "Dallas") (JStr "Texas")))
          (emit (Get Geocoding) (emit FetchAttempt manager1))).
Proof.
  apply (unresolved_place_keeps_cache utc insertion_order env_unresolved manager1
           (JStr "Dallas") (JStr "Texas") (JStr "US") (JArr []));
    by_vm.
Defined.

Lemma lists_stay_bounded_witness :
  bounded manager1 /\
  bounded (snd (get_weather utc insertion_order (env_down 2000) manager1)).
Proof.
  assert (Hb : bounded manager1).
  { split; apply Nat.leb_le; by_vm. }
  split; [exact Hb |].
  exact (proj2 (lists_stay_bounded utc insertion_order (env_down 2000) manager1) Hb).
Defined.

Lemma no_snapshot_nothing_drawn_witness :
  display_weather utc insertion_order (env_down 2000) true
    (manager0, ([] : list draw_call))
  = (Ok tt, (snd (get_weather utc insertion_order (env_down 2000) manager0), [])).
Proof.
  apply (no_snapshot_nothing_drawn utc insertion_order (env_down 2000) true manager0
           (snd (get_weather utc insertion_order (env_down 2000) manager0))
           ([] : list draw_call) JNull);
    by_vm.
Defined.

Lemma payload_without_fields_raises_witness :
  display_weather utc insertion_order (env_up 1000 no_humidity forecast_items) false
    (manager0, ([] : list draw_call))
  = (Raise (KeyError "humidity"),
     (snd (get_weather utc insertion_order (env_up 1000 no_humidity forecast_items)
             manager0), [])).
Proof.
  apply (payload_without_fields_raises utc insertion_order
           (env_up 1000 no_humidity forecast_items) false manager0
           (snd (get_weather utc insertion_order (env_up 1000 no_humidity forecast_items)
                   manager0))
           ([] : list draw_call) no_humidity (KeyError "humidity"));
    by_vm.
Defined.

Lemma forecast_views_do_not_refresh_witness :
  fst (snd (display_hourly_forecast utc insertion_order (env_down 9000) 0 false
              (manager1, ([] : list draw_call))))
  = set_last_draw_time 9002 manager1 /\
  fst (snd (display_daily_forecast utc insertion_order env_soon false
              (fst scrolled1, snd scrolled1)))
  = fst scrolled1.
Proof.
  split.
  - destruct (proj1 (forecast_views_do_not_refresh utc insertion_order (env_down 9000)
                       0 false manager1 ([] : list draw_call)) ltac:(by_vm))
      as [Hsame | Hdrawn].
    + exfalso. apply (f_equal last_draw_time) in Hsame. vm_compute in Hsame.
      discriminate.
    + exact Hdrawn.
  - destruct (proj2 (forecast_views_do_not_refresh utc insertion_order env_soon
                       0 false (fst scrolled1) (snd scrolled1)) ltac:(by_vm))
      as [Hsame | Hdrawn].
    + exact Hsame.
    + by_vm.
Defined.

Lemma unscrolled_hourly_shows_one_witness :
  draw_hour 0 128 32 (128 / 2) 6 (1, mkHourly "12AM" 52 (JStr "Clear"))
    ([] : list draw_call)
  = (Ok tt, []).
Proof.
  apply (unscrolled_hourly_shows_one 128 32 6 1 (mkHourly "12AM" 52 (JStr "Clear"))
           ([] : list draw_call)); lia.
Defined.

Lemma panel_cannot_draw_witness :
  display_weather utc insertion_order (env_up 1000 clear_day forecast_items) false
    (manager0, panel0)
  = (Raise TypeError, (manager1, panel_new_image panel0)) /\
  last_temp manager1 = None /\
  display_hourly_forecast utc insertion_order (env_up 1000 clear_day forecast_items)
    0 true (manager1, panel0)
  = (Raise TypeError, (manager1, panel_new_image (panel_clear panel0))) /\
  display_daily_forecast utc insertion_order (env_up 1000 clear_day forecast_items)
    true (manager1, panel0)
  = (Raise TypeError, (manager1, panel_new_image (panel_clear panel0))).
Proof.
  destruct (panel_cannot_draw utc insertion_order
              (env_up 1000 clear_day forecast_items) false 0 manager0 manager1 panel0
              clear_day 72 (JStr "Clear") (JInt 40)
              ltac:(by_vm) ltac:(by_vm) ltac:(by_vm))
    as (Hcur & _ & _).
  destruct (panel_cannot_draw utc insertion_order
              (env_up 1000 clear_day forecast_items) true 0 manager1 manager1 panel0
              clear_day 72 (JStr "Clear") (JInt 40)
              ltac:(by_vm) ltac:(by_vm) ltac:(by_vm))
    as (_ & Hhour & Hday).
  split; [apply Hcur; by_vm |]. split; [by_vm |].
  split; [apply Hhour; by_vm | apply Hday; by_vm].
Defined.
